(** * scrap-sys: the order / pricing server ([server.js])

    A shallow embedding of the request handlers of [server.js] and of the
    JavaScript values they compute with, followed by the properties of the
    pricing engine, the validators, the order ledger, the configuration
    manager, the statistics and the start-up of the store.

    Conventions of the embedding.
    - A JavaScript value is a [value]: a JSON value or [undefined].
    - A JavaScript number is a [num]: a double (IEEE 754 binary64).  A
      finite double is given by the rational it is equal to; an arithmetic
      operation returns the exact result rounded to the nearest double, a
      tie going to the even significand, and an infinity beyond the range.
      Zero is not signed (see [num]).
    - A string is the list of its UTF-16 code units.
    - An operation that can raise returns a [completion]; a handler is a
      function from the store (the file and lowdb's in-memory data) to the
      store and the response.
    - The conversions between numbers, dates and strings that the engine
      fixes ([Number::toString], [StringToNumber], [Date.parse]) are
      parameters: a [host].
    - What the environment supplies to a handler ([uuidv4()], the clock)
      is an argument of the handler. *)

From Stdlib Require Import List String Ascii Bool Arith ZArith NArith QArith Qround Qabs Lia Lqa.
From Stdlib Require Import Qpower Qreduction.
From Stdlib Require Import Permutation Sorted.
From Stdlib Require DecimalString.
Import ListNotations.

Set Warnings "-register-all".
Local Open Scope list_scope.

(** ** JavaScript values *)

Module JS.

(** A string: its UTF-16 code units. *)
Definition jsstring := list N.

(** The code units of a string literal of the source (all literals of
    [server.js] that matter here are ASCII). *)
Definition js (s : string) : jsstring :=
  map N_of_ascii (list_ascii_of_string s).

Fixpoint str_eqb (s t : jsstring) : bool :=
  match s, t with
  | [], [] => true
  | a :: s', b :: t' => N.eqb a b && str_eqb s' t'
  | _, _ => false
  end.

(** A Number: a double.  [Num q] is the finite double equal to the
    rational [q]; the doubles are the rationals m * 2^c with |m| < 2^53 and
    -1074 <= c <= 971, and [round64] below returns no other.  (A [Num q]
    with another [q] is no value of the language: what is proved for every
    [q] holds of the doubles among them.)

    Zero has no sign here.  The program cannot tell -0 from +0: it reads
    numbers through [||], [<], [+], [*], [/ 100], [Math.round],
    [JSON.stringify] and [Number::toString], which all treat the two
    alike, and it never divides by a number that can be zero. *)
Inductive num :=
| NaN
| Inf (negative : bool)
| Num (q : Q).

Inductive value :=
| JUndef
| JNull
| JBool (b : bool)
| JNum (n : num)
| JStr (s : jsstring)
| JArr (l : list value)
| JObj (kvs : list (jsstring * value)).

(** Errors a run can raise; every handler catches all of them alike. *)
Inductive error :=
| TypeError
| SyntaxError
| IOError.

Inductive completion (A : Type) :=
| Normal (a : A)
| Throw (e : error).
Arguments Normal {A} a.
Arguments Throw {A} e.

Definition cbind {A B} (c : completion A) (k : A -> completion B) : completion B :=
  match c with
  | Normal a => k a
  | Throw e => Throw e
  end.

Declare Scope completion_scope.
Delimit Scope completion_scope with completion.
Notation "x <- c ;; k" := (cbind c (fun x => k))
  (at level 61, c at next level, right associativity) : completion_scope.

(** *** Numbers *)

(** An integer literal of the source (0, 3, 5, 7, 20, 45, 100) and the
    length of an array: integers below 2^53, which are doubles. *)
Definition qnum (z : Z) : value := JNum (Num (inject_Z z)).

Definition pow2 (e : Z) : Q := 2 ^ e.

(** The binary exponent of a positive rational: the [e] with
    2^e <= x < 2^(e+1). *)
Definition ilog2 (x : Q) : Z :=
  let k := (Z.log2 (Qnum x) - Z.log2 (Zpos (Qden x)))%Z in
  if Qle_bool (pow2 k) x then k else (k - 1)%Z.

(** The nearest integer, a tie going to the even one. *)
Definition round_half_even (x : Q) : Z :=
  let f := Qfloor x in
  match Qcompare (x - inject_Z f) (1 # 2) with
  | Lt => f
  | Gt => (f + 1)%Z
  | Eq => if Z.even f then f else (f + 1)%Z
  end.

(** Rounding to double precision (roundTiesToEven): the multiple of the
    unit in the last place of [x] that is nearest to [x], with 53 bits of
    significand and, below 2^-1022, the fixed unit 2^-1074 of the
    subnormals; what reaches 2^1024 is an infinity. *)
Definition round64 (x : Q) : num :=
  let x := Qred x in
  if Qeq_bool x 0 then Num 0
  else
    let a := Qabs x in
    let c := Z.max (ilog2 a - 52) (-1074) in
    let m := round_half_even (a / pow2 c) in
    let y := inject_Z m * pow2 c in
    if Qle_bool (pow2 1024) y then Inf (negb (Qle_bool 0 x))
    else Num (Qred (if Qle_bool 0 x then y else - y)).

Definition negative_sign (x : Q) : bool := negb (Qle_bool 0 x).

Definition num_add (a b : num) : num :=
  match a, b with
  | Num x, Num y => round64 (x + y)
  | Inf s, Inf t => if Bool.eqb s t then Inf s else NaN
  | Inf s, Num _ | Num _, Inf s => Inf s
  | _, _ => NaN
  end.

Definition num_sub (a b : num) : num :=
  match a, b with
  | Num x, Num y => round64 (x - y)
  | Inf s, Inf t => if Bool.eqb s t then NaN else Inf s
  | Inf s, Num _ => Inf s
  | Num _, Inf t => Inf (negb t)
  | _, _ => NaN
  end.

Definition num_mul (a b : num) : num :=
  match a, b with
  | Num x, Num y => round64 (x * y)
  | Inf s, Inf t => Inf (xorb s t)
  | Inf s, Num y | Num y, Inf s =>
      if Qeq_bool y 0 then NaN else Inf (xorb s (negative_sign y))
  | _, _ => NaN
  end.

(** Division.  The source divides by the literal 100 only; a zero divisor
    is taken as +0. *)
Definition num_div (a b : num) : num :=
  match a, b with
  | Num x, Num y =>
      if Qeq_bool y 0
      then if Qeq_bool x 0 then NaN else Inf (negative_sign x)
      else round64 (x / y)
  | Inf s, Num y => Inf (xorb s (negative_sign y))
  | Num _, Inf _ => Num 0
  | _, _ => NaN
  end.

(** [Math.round]: the nearest integer, a tie going to the larger one
    (towards +infinity): [Math.round(2.5) = 3], [Math.round(-2.5) = -2].
    The result is exact: the integer nearest to a double is a double. *)
Definition Math_round (a : num) : num :=
  match a with
  | NaN => NaN
  | Inf s => Inf s
  | Num x => Num (inject_Z (Qfloor (x + (1 # 2))))
  end.

(** [a < 0] on numbers; a comparison with [NaN] is false. *)
Definition num_ltb0 (a : num) : bool :=
  match a with
  | NaN => false
  | Inf s => s
  | Num x => negb (Qle_bool 0 x)
  end.

(** *** Truthiness, [||], [typeof] *)

Definition truthy (v : value) : bool :=
  match v with
  | JUndef | JNull => false
  | JBool b => b
  | JNum NaN => false
  | JNum (Inf _) => true
  | JNum (Num q) => negb (Qeq_bool q 0)
  | JStr s => match s with [] => false | _ => true end
  | JArr _ | JObj _ => true
  end.

Definition js_or (a b : value) : value := if truthy a then a else b.

Inductive jstype := TUndefined | TObject | TBoolean | TNumber | TString.

Definition typeof (v : value) : jstype :=
  match v with
  | JUndef => TUndefined
  | JNull | JArr _ | JObj _ => TObject
  | JBool _ => TBoolean
  | JNum _ => TNumber
  | JStr _ => TString
  end.

Definition is_undefined (v : value) : bool :=
  match v with JUndef => true | _ => false end.

Definition is_nullish (v : value) : bool :=
  match v with JUndef | JNull => true | _ => false end.

(** *** Properties

    [lookup] is the own-property lookup of an object.  The program reads
    properties under the names [orders], [config], [settings], [basePrice],
    [packaging], [embroidery], [customer], [size], [id], [price],
    [createdAt], [date] and, computed, under a validated packaging type
    ([basic], [branded], [box]).  None of these names is a built-in
    property of an array, a string, a number or a boolean, nor of a
    prototype, so on those values the read gives [undefined]; on
    [undefined] and [null] it raises a TypeError. *)
Fixpoint lookup (kvs : list (jsstring * value)) (k : jsstring) : option value :=
  match kvs with
  | [] => None
  | (k', v) :: rest => if str_eqb k' k then Some v else lookup rest k
  end.

Definition get_prop (v : value) (k : jsstring) : completion value :=
  match v with
  | JUndef | JNull => Throw TypeError
  | JObj kvs => Normal (match lookup kvs k with Some x => x | None => JUndef end)
  | _ => Normal JUndef
  end.

(** Assignment [o[k] = v] to an own property of an object: an existing
    property keeps its place, a new one is added last. *)
Fixpoint assoc_set (kvs : list (jsstring * value)) (k : jsstring) (v : value)
  : list (jsstring * value) :=
  match kvs with
  | [] => [(k, v)]
  | (k', v') :: rest =>
      if str_eqb k' k then (k, v) :: rest else (k', v') :: assoc_set rest k v
  end.

(** [o.k = v] in module (strict) code: a TypeError on [undefined], [null]
    and on a primitive.  An array accepts the assignment; a named property
    of an array is not written to JSON text, and [value] has no place for
    it, so the array is left as it is.  (The one read of such a property the
    program can make is in the answer of a settings update while [db.json]
    holds an array; the properties below assume an object there.) *)
Definition set_prop (o : value) (k : jsstring) (v : value) : completion value :=
  match o with
  | JObj kvs => Normal (JObj (assoc_set kvs k v))
  | JArr l => Normal (JArr l)
  | _ => Throw TypeError
  end.

(** *** Strings *)

(** WhiteSpace and LineTerminator code units, the ones [trim] removes. *)
Definition is_white_space (c : N) : bool :=
  (N.leb 9 c && N.leb c 13)
  || N.eqb c 32 || N.eqb c 160 || N.eqb c 5760
  || (N.leb 8192 c && N.leb c 8202)
  || N.eqb c 8232 || N.eqb c 8233 || N.eqb c 8239 || N.eqb c 8287
  || N.eqb c 12288 || N.eqb c 65279.

Fixpoint trim_start (s : jsstring) : jsstring :=
  match s with
  | c :: s' => if is_white_space c then trim_start s' else s
  | [] => []
  end.

Definition trim (s : jsstring) : jsstring :=
  rev (trim_start (rev (trim_start s))).

(** [s.split('T')[0]]: the part of [s] before its first 'T'. *)
Fixpoint before_T (s : jsstring) : jsstring :=
  match s with
  | [] => []
  | c :: s' => if N.eqb c 84 then [] else c :: before_T s'
  end.

(** The decimal numeral of an array index. *)
Definition index_key (i : nat) : jsstring :=
  js (DecimalString.NilEmpty.string_of_uint (Nat.to_uint i)).

(** *** Own enumerable properties, [Object.entries], object spread *)

Fixpoint indexed (i : nat) (l : list value) : list (jsstring * value) :=
  match l with
  | [] => []
  | x :: rest => (index_key i, x) :: indexed (S i) rest
  end.

(** The own enumerable string-keyed properties of a value, as object
    spread and [Object.entries] see them: the properties of an object, the
    elements of an array and the code units of a string under their
    indices, nothing for the other primitives.  Properties are kept in
    insertion order (the reordering of integer-like keys of an object is
    not modelled; nothing below depends on the order). *)
Definition own_entries (v : value) : list (jsstring * value) :=
  match v with
  | JObj kvs => kvs
  | JArr l => indexed 0 l
  | JStr s => indexed 0 (map (fun c => JStr [c]) s)
  | _ => []
  end.

Definition Object_entries (v : value) : completion (list (jsstring * value)) :=
  if is_nullish v then Throw TypeError else Normal (own_entries v).

(** [{ ...target, ...src }], [target] already copied. *)
Definition spread (target : list (jsstring * value)) (src : value)
  : list (jsstring * value) :=
  fold_left (fun acc kv => assoc_set acc (fst kv) (snd kv)) (own_entries src) target.

(** *** JSON text

    [jsonify v] is [JSON.parse (JSON.stringify v)]: a property whose value
    is [undefined] is left out, [undefined] in an array, [NaN] and the
    infinities become [null]; a finite number is written with the digits
    that give the same double back. *)
Fixpoint jsonify (v : value) : value :=
  match v with
  | JUndef => JNull
  | JNum NaN => JNull
  | JNum (Inf _) => JNull
  | JArr l => JArr (map jsonify l)
  | JObj kvs =>
      JObj ((fix props (kvs : list (jsstring * value)) : list (jsstring * value) :=
               match kvs with
               | [] => []
               | (k, JUndef) :: rest => props rest
               | (k, x) :: rest => (k, jsonify x) :: props rest
               end) kvs)
  | _ => v
  end.

(** *** Built-ins of the host that convert between strings and numbers

    The program reaches three conversions whose results are fixed by the
    engine and not by [server.js]: [Number::toString] (when [+] meets a
    string), [StringToNumber] (when [*] meets a string) and [Date.parse].
    They are parameters of the model. *)
Record host := {
  Number_toString : Q -> jsstring;
  StringToNumber : jsstring -> num;
  Date_parse : jsstring -> num
}.

Section Host.

Variable h : host.

(** [ToString] of a value; an array is joined with commas, [undefined] and
    [null] elements giving the empty string. *)
Fixpoint to_string (v : value) : jsstring :=
  match v with
  | JUndef => js "undefined"
  | JNull => js "null"
  | JBool true => js "true"
  | JBool false => js "false"
  | JNum NaN => js "NaN"
  | JNum (Inf false) => js "Infinity"
  | JNum (Inf true) => js "-Infinity"
  | JNum (Num q) => Number_toString h q
  | JStr s => s
  | JArr l =>
      (fix join (l : list value) : jsstring :=
         match l with
         | [] => []
         | x :: rest =>
             let sx := match x with
                       | JUndef | JNull => []
                       | _ => to_string x
                       end in
             match rest with
             | [] => sx
             | _ => sx ++ [44%N] ++ join rest
             end
         end) l
  | JObj _ => js "[object Object]"
  end.

(** [ToPrimitive]: an array or a plain object converts through [toString]. *)
Definition to_primitive (v : value) : value :=
  match v with
  | JArr _ | JObj _ => JStr (to_string v)
  | _ => v
  end.

Definition to_number (v : value) : num :=
  match to_primitive v with
  | JUndef => NaN
  | JNull => Num 0
  | JBool true => Num 1
  | JBool false => Num 0
  | JNum n => n
  | JStr s => StringToNumber h s
  | _ => NaN
  end.

(** The binary [+]: concatenation when either operand is a string after
    [ToPrimitive], addition of numbers otherwise. *)
Definition js_add (a b : value) : value :=
  let pa := to_primitive a in
  let pb := to_primitive b in
  match pa, pb with
  | JStr _, _ | _, JStr _ => JStr (to_string pa ++ to_string pb)
  | _, _ => JNum (num_add (to_number pa) (to_number pb))
  end.

(** [TimeClip]: a time value is a whole number of milliseconds, at most
    8.64e15 in magnitude, or [NaN]. *)
Definition time_clip (n : num) : num :=
  match n with
  | NaN | Inf _ => NaN
  | Num q =>
      if Qle_bool (Qabs q) (inject_Z 8640000000000000)
      then Num (inject_Z (if Qle_bool 0 q then Qfloor q else Qceiling q))
      else NaN
  end.

(** The time value of [new Date(v)]: a string is parsed, any other value
    converted to a number, and the result clipped. *)
Definition Date_value (v : value) : num :=
  match to_primitive v with
  | JStr s => time_clip (Date_parse h s)
  | p => time_clip (to_number p)
  end.

End Host.

(** *** Array methods with a callback that can raise *)

Section ArrayMethods.

Fixpoint mfilter (p : value -> completion bool) (l : list value)
  : completion (list value) :=
  match l with
  | [] => Normal []
  | x :: rest =>
      (b <- p x ;;
       r <- mfilter p rest ;;
       Normal (if b then x :: r else r))%completion
  end.

Fixpoint mreduce (f : value -> value -> completion value) (l : list value)
  (acc : value) : completion value :=
  match l with
  | [] => Normal acc
  | x :: rest => (a <- f acc x ;; mreduce f rest a)%completion
  end.

(** [findIndex]: the callback runs on the elements in order up to the
    first hit; [None] stands for the result -1. *)
Fixpoint findIndex (p : value -> completion bool) (l : list value)
  : completion (option nat) :=
  match l with
  | [] => Normal None
  | x :: rest =>
      (b <- p x ;;
       if b then Normal (Some 0%nat)
       else r <- findIndex p rest ;; Normal (option_map S r))%completion
  end.

(** The comparator's result read as [Array.prototype.sort] reads it:
    [NaN] counts as 0, and [x] may stay before [y] when the result is not
    positive. *)
Definition not_after (c : num) : bool :=
  match c with
  | NaN => true
  | Inf s => s
  | Num q => Qle_bool q 0
  end.

(** [Array.prototype.sort] is stable.  For a comparator that is a
    consistent ordering the sorted array is therefore unique; it is
    computed here by inserting the elements from the right, each before
    the first element it need not follow.  (For an inconsistent comparator
    the language leaves the order to the engine.) *)
Fixpoint insert_by (cmp : value -> value -> completion num) (x : value)
  (l : list value) : completion (list value) :=
  match l with
  | [] => Normal [x]
  | y :: rest =>
      (c <- cmp x y ;;
       if not_after c then Normal (x :: y :: rest)
       else r <- insert_by cmp x rest ;; Normal (y :: r))%completion
  end.

Fixpoint sort_by (cmp : value -> value -> completion num) (l : list value)
  : completion (list value) :=
  match l with
  | [] => Normal []
  | x :: rest => (r <- sort_by cmp rest ;; insert_by cmp x r)%completion
  end.

End ArrayMethods.

End JS.

(** ** The store: [db.json] read and written through lowdb *)

Module Store.

Import JS.

(** The text of a file, up to what the program can observe of it.  The
    program reads [db.json] in two ways: [initializeDbFile] trims the text
    and hands it to [JSON.parse], lowdb hands the text to [JSON.parse] as
    it is.  [trim] removes more than JSON allows around a value (a byte
    order mark, a no-break space, a vertical tab, a form feed, ...), so
    there are four kinds of text:
    - [Whitespace]: nothing is left after [trim];
    - [Parses v]: the text is JSON for [v] (and so is the trimmed text);
    - [Padded v]: the trimmed text is JSON for [v], the text itself is not
      JSON: it starts or ends with white space that JSON does not allow;
    - [Unparsable]: neither is JSON. *)
Inductive text :=
| Whitespace
| Unparsable
| Parses (v : value)
| Padded (v : value).

(** [db.json] on disk: not there, there with a text, or there and not
    readable by the process for want of permission: [writable] says
    whether the process may write to it.  (A text that such a file holds is
    not kept track of, as the process cannot see it; a path that is a
    directory is not modelled.) *)
Inductive file_state :=
| Missing
| Unreadable (writable : bool)
| Content (t : text).

Definition JSON_parse (t : text) : completion value :=
  match t with
  | Parses v => Normal v
  | _ => Throw SyntaxError
  end.

Definition JSON_stringify (v : value) : text := Parses (jsonify v).

(** [text.trim()] *)
Definition text_trim (t : text) : text :=
  match t with
  | Padded v => Parses v
  | _ => t
  end.

(** [text.length === 0] *)
Definition blank (t : text) : bool :=
  match t with Whitespace => true | _ => false end.

Definition fs_existsSync (f : file_state) : bool :=
  match f with Missing => false | _ => true end.

Definition fs_readFileSync (f : file_state) : completion text :=
  match f with
  | Content t => Normal t
  | _ => Throw IOError
  end.

(** [fs.writeFileSync] creates the file or replaces its text.  A file that
    the process cannot read stays so when it is written to, for writing
    does not change permissions; when the process cannot write either, the
    call raises.  (Other failures of writing, a full disk for one, are not
    modelled.) *)
Definition fs_writeFileSync (f : file_state) (t : text) : completion file_state :=
  match f with
  | Unreadable true => Normal (Unreadable true)
  | Unreadable false => Throw IOError
  | _ => Normal (Content t)
  end.

(** lowdb's file adapter writes through steno's [Writer]: the text goes to
    a temporary file that is then renamed to [db.json], so that the file is
    a new one with the text.  (The program writes through lowdb only after
    it has read the file through lowdb.) *)
Definition Writer_write (f : file_state) (t : text) : file_state := Content t.

(** A [Low] instance: the adapter's file and the in-memory [data]. *)
Record db := { file : file_state; data : value }.

(** Code that reads and updates the [Low] instance and can raise; what it
    did to the instance before raising stays done. *)
Definition M (A : Type) := db -> db * completion A.

Definition ret {A} (a : A) : M A := fun s => (s, Normal a).

Definition bind {A B} (m : M A) (k : A -> M B) : M B :=
  fun s =>
    match m s with
    | (s', Normal a) => k a s'
    | (s', Throw e) => (s', Throw e)
    end.

Definition lift {A} (c : completion A) : M A := fun s => (s, c).

Declare Scope M_scope.
Delimit Scope M_scope with M.
Notation "x <- c ;; k" := (bind c (fun x => k))
  (at level 61, c at next level, right associativity) : M_scope.
Notation "c ;;; k" := (bind c (fun _ => k))
  (at level 61, right associativity) : M_scope.

Definition get_data : M value := fun s => (s, Normal (data s)).

Definition set_data (v : value) : M unit :=
  fun s => ({| file := file s; data := v |}, Normal tt).

(** [await db.read()] of lowdb's [Low] over a [JSONFile]: a missing file
    reads as [null]; the parsed content replaces [data] when it is truthy. *)
Definition db_read : M unit :=
  fun s =>
    match file s with
    | Missing => (s, Normal tt)
    | Unreadable _ => (s, Throw IOError)
    | Content t =>
        match JSON_parse t with
        | Normal v => (if truthy v then {| file := file s; data := v |} else s, Normal tt)
        | Throw e => (s, Throw e)
        end
    end.

(** [await db.write()]: the whole of [data] is serialised over the file,
    when [data] is truthy. *)
Definition db_write : M unit :=
  fun s =>
    if truthy (data s)
    then ({| file := Writer_write (file s) (JSON_stringify (data s));
             data := data s |}, Normal tt)
    else (s, Normal tt).

(** What a request handler answers. *)
Record response := { status : nat; body : value }.

(** A handler's [try { ... } catch (error) { res.status(500)... }]. *)
Definition try_catch (m : M response) (on_error : response) : db -> db * response :=
  fun s =>
    match m s with
    | (s', Normal r) => (s', r)
    | (s', Throw _) => (s', on_error)
    end.

End Store.

Import JS Store.

(** ** [server.js] *)

Definition error_body (msg : string) : value := JObj [(js "error", JStr (js msg))].

Definition default_packaging : value :=
  JObj [(js "basic", qnum 3); (js "branded", qnum 5); (js "box", qnum 7)].

Definition default_config : value :=
  JObj [(js "basePrice", qnum 45);
        (js "packaging", default_packaging);
        (js "embroidery", qnum 20)].

Definition defaultData : value :=
  JObj [(js "orders", JArr []);
        (js "config", default_config);
        (js "settings", JObj [])].

Definition is_object (v : value) : bool :=
  match typeof v with TObject => true | _ => false end.

Definition Array_isArray (v : value) : bool :=
  match v with JArr _ => true | _ => false end.

Definition is_null (v : value) : bool :=
  match v with JNull => true | _ => false end.

(** [initializeDbFile]: the file's state after the call.  The test runs
    inside a [try] whose [catch] asks for the initialisation; the write is
    outside of it, so that an error of the write is raised to the caller. *)
Definition initializeDbFile (f : file_state) : completion file_state :=
  let needsInit :=
    match
      (if negb (fs_existsSync f) then Normal true
       else
         text <- fs_readFileSync f ;;
         let fileContent := text_trim text in
         if blank fileContent then Normal true
         else
           data <- JSON_parse fileContent ;;
           Normal (negb (is_object data) || Array_isArray data || is_null data)
      )%completion
    with
    | Normal b => b
    | Throw _ => true
    end in
  if needsInit then fs_writeFileSync f (JSON_stringify defaultData) else Normal f.

(** [db.data.k = f(db.data.k)], in place. *)
Definition update_field (k : string) (f : value -> completion value) : M unit :=
  (d <- get_data ;;
   old <- lift (get_prop d (js k)) ;;
   new <- lift (f old) ;;
   d' <- lift (set_prop d (js k) new) ;;
   set_data d')%M.

(** [initDB]: the file is made an object first, then read into a [Low]
    instance created over [defaultData], completed and written back.  When
    [initializeDbFile] raises, no instance is created and the file is as it
    was (the data of the result are then the [defaultData] the instance
    would have been created over). *)
Definition initDB (f : file_state) : db * completion unit :=
  match initializeDbFile f with
  | Throw e => ({| file := f; data := defaultData |}, Throw e)
  | Normal f' =>
      (db_read ;;;
       d <- get_data ;;
       set_data (js_or d (JObj [])) ;;;
       update_field "orders" (fun o => Normal (js_or o (JArr []))) ;;;
       update_field "config"
         (fun c => Normal (JObj (spread (spread [] default_config) (js_or c (JObj []))))) ;;;
       update_field "settings" (fun s => Normal (js_or s (JObj []))) ;;;
       update_field "config"
         (fun c =>
            (p <- get_prop c (js "packaging") ;;
             if negb (truthy p) then set_prop c (js "packaging") default_packaging
             else Normal c)%completion) ;;;
       db_write)%M
      {| file := f'; data := defaultData |}
  end.

Definition sizes : list jsstring := [js "M"; js "L"; js "XL"; js "2XL"].

Definition validPackageTypes : list jsstring := [js "basic"; js "branded"; js "box"].

(** [list.includes(v)] for a list of strings. *)
Definition includes (l : list jsstring) (v : value) : bool :=
  match v with
  | JStr s => existsb (str_eqb s) l
  | _ => false
  end.

(** The validators return an error message or [null]. *)
Definition validateOrderData (data : value) : completion (option string) :=
  (customer <- get_prop data (js "customer") ;;
   size <- get_prop data (js "size") ;;
   packaging <- get_prop data (js "packaging") ;;
   if negb (truthy customer)
      || match customer with
         | JStr s => Nat.eqb (List.length (trim s)) 0
         | _ => true
         end
   then Normal (Some "Customer name is required"%string)
   else if negb (truthy size) || negb (includes sizes size)
   then Normal (Some "Valid size is required (M, L, XL, 2XL)"%string)
   else if negb (truthy packaging) || negb (includes validPackageTypes packaging)
   then Normal (Some "Valid packaging type is required (basic, branded, box)"%string)
   else Normal None)%completion.

(** [x !== undefined && (typeof x !== 'number' || x < 0)] *)
Definition bad_price (x : value) : bool :=
  negb (is_undefined x)
  && match x with
     | JNum n => num_ltb0 n
     | _ => true
     end.

(** The test of the loop over [Object.entries(packaging)]. *)
Definition bad_entry (kv : jsstring * value) : bool :=
  negb (existsb (str_eqb (fst kv)) validPackageTypes)
  || match snd kv with
     | JNum n => num_ltb0 n
     | _ => true
     end.

Definition validateConfigData (data : value) : completion (option string) :=
  (basePrice <- get_prop data (js "basePrice") ;;
   packaging <- get_prop data (js "packaging") ;;
   embroidery <- get_prop data (js "embroidery") ;;
   if bad_price basePrice
   then Normal (Some "Base price must be a positive number"%string)
   else
     entries <- (if truthy packaging then Object_entries packaging else Normal []) ;;
     if existsb bad_entry entries
     then Normal (Some "Invalid packaging configuration"%string)
     else if bad_price embroidery
     then Normal (Some "Embroidery price must be a positive number"%string)
     else Normal None)%completion.

Section Server.

Variable h : host.

(** The price calculation function. *)
Definition calculatePrice (config size packaging embroidery : value) : completion value :=
  (basePrice <- get_prop config (js "basePrice") ;;
   let price := js_or basePrice (qnum 0) in
   table <- get_prop config (js "packaging") ;;
   surcharge <- get_prop table (to_string h packaging) ;;
   let price := js_add h price (js_or surcharge (qnum 0)) in
   price <- (if truthy embroidery
             then e <- get_prop config (js "embroidery") ;;
                  Normal (js_add h price (js_or e (qnum 0)))
             else Normal price) ;;
   Normal (JNum (num_div (Math_round (num_mul (to_number h price) (Num 100))) (Num 100)))
  )%completion.

(** [customer.trim()] *)
Definition String_trim (v : value) : completion value :=
  match v with
  | JStr s => Normal (JStr (trim s))
  | _ => Throw TypeError
  end.

(** [orders.push(o)] *)
Definition Array_push (a : value) (o : value) : completion value :=
  match a with
  | JArr l => Normal (JArr (l ++ [o]))
  | _ => Throw TypeError
  end.

(** POST /api/orders.  [id] is what [uuidv4()] returns, [now1] and [now2]
    what the two calls of [new Date().toISOString()] return. *)
Definition post_api_orders (req_body : value) (id now1 now2 : jsstring)
  : db -> db * response :=
  try_catch
    (validationError <- lift (validateOrderData req_body) ;;
     match validationError with
     | Some msg => ret {| status := 400; body := error_body msg |}
     | None =>
         customer <- lift (get_prop req_body (js "customer")) ;;
         size <- lift (get_prop req_body (js "size")) ;;
         packaging <- lift (get_prop req_body (js "packaging")) ;;
         embroidery <- lift (get_prop req_body (js "embroidery")) ;;
         db_read ;;;
         d <- get_data ;;
         config <- lift (get_prop d (js "config")) ;;
         price <- lift (calculatePrice config size packaging embroidery) ;;
         trimmed <- lift (String_trim customer) ;;
         let newOrder :=
           JObj [(js "id", JStr id);
                 (js "customer", trimmed);
                 (js "size", size);
                 (js "packaging", packaging);
                 (js "embroidery", JBool (truthy embroidery));
                 (js "price", price);
                 (js "date", JStr (before_T now1));
                 (js "createdAt", JStr now2)] in
         update_field "orders" (fun orders => Array_push orders newOrder) ;;;
         db_write ;;;
         ret {| status := 201; body := newOrder |}
     end)%M
    {| status := 500; body := error_body "Failed to create order" |}.

(** GET /api/config *)
Definition get_api_config : db -> db * response :=
  try_catch
    (db_read ;;;
     d <- get_data ;;
     config <- lift (get_prop d (js "config")) ;;
     basePrice <- lift (get_prop config (js "basePrice")) ;;
     packaging <- lift (get_prop config (js "packaging")) ;;
     embroidery <- lift (get_prop config (js "embroidery")) ;;
     ret {| status := 200;
            body := JObj [(js "basePrice", basePrice);
                          (js "packaging", packaging);
                          (js "embroidery", embroidery)] |})%M
    {| status := 500; body := error_body "Failed to fetch configuration" |}.

(** [db.data.config.k = f(db.data.config)], in place. *)
Definition update_config (k : string) (f : value -> completion value) : M unit :=
  update_field "config"
    (fun config => (new <- f config ;; set_prop config (js k) new)%completion).

(** POST /api/config/update *)
Definition post_api_config_update (req_body : value) : db -> db * response :=
  try_catch
    (validationError <- lift (validateConfigData req_body) ;;
     match validationError with
     | Some msg => ret {| status := 400; body := error_body msg |}
     | None =>
         basePrice <- lift (get_prop req_body (js "basePrice")) ;;
         packaging <- lift (get_prop req_body (js "packaging")) ;;
         embroidery <- lift (get_prop req_body (js "embroidery")) ;;
         db_read ;;;
         (if negb (is_undefined basePrice)
          then update_config "basePrice" (fun _ => Normal basePrice)
          else ret tt) ;;;
         (if truthy packaging
          then update_config "packaging"
                 (fun config =>
                    (old <- get_prop config (js "packaging") ;;
                     Normal (JObj (spread (spread [] old) packaging)))%completion)
          else ret tt) ;;;
         (if negb (is_undefined embroidery)
          then update_config "embroidery" (fun _ => Normal embroidery)
          else ret tt) ;;;
         db_write ;;;
         d <- get_data ;;
         config <- lift (get_prop d (js "config")) ;;
         ret {| status := 200; body := config |}
     end)%M
    {| status := 500; body := error_body "Failed to update configuration" |}.

(** [v === s] for a string [s]. *)
Definition strict_eq_str (v : value) (s : jsstring) : bool :=
  match v with
  | JStr t => str_eqb t s
  | _ => false
  end.

(** [o => o[k] === s] *)
Definition field_is (k s : string) (o : value) : completion bool :=
  (x <- get_prop o (js k) ;; Normal (strict_eq_str x (js s)))%completion.

Definition count_of (n : nat) : value := qnum (Z.of_nat n).

(** [orders.filter(p).length] *)
Definition count_where (p : value -> completion bool) (os : list value)
  : completion value :=
  (r <- mfilter p os ;; Normal (count_of (List.length r)))%completion.

(** [new Date(o.createdAt || o.date)] as a time value. *)
Definition order_time (o : value) : completion num :=
  (createdAt <- get_prop o (js "createdAt") ;;
   date <- get_prop o (js "date") ;;
   Normal (Date_value h (js_or createdAt date)))%completion.

(** [(a, b) => new Date(b.createdAt || b.date) - new Date(a.createdAt || a.date)] *)
Definition by_recency (a b : value) : completion num :=
  (tb <- order_time b ;;
   ta <- order_time a ;;
   Normal (num_sub tb ta))%completion.

(** The [stats] object of GET /api/stats over the array [os], and [os] as
    [sort] leaves it. *)
Definition compute_stats (os : list value) : completion (value * list value) :=
  (totalRevenue <-
     mreduce (fun sum order =>
                p <- get_prop order (js "price") ;;
                Normal (js_add h sum (js_or p (qnum 0))))
             os (qnum 0) ;;
   m <- count_where (field_is "size" "M") os ;;
   l <- count_where (field_is "size" "L") os ;;
   xl <- count_where (field_is "size" "XL") os ;;
   xxl <- count_where (field_is "size" "2XL") os ;;
   basic <- count_where (field_is "packaging" "basic") os ;;
   branded <- count_where (field_is "packaging" "branded") os ;;
   box <- count_where (field_is "packaging" "box") os ;;
   emb <- count_where (fun o => e <- get_prop o (js "embroidery") ;; Normal (truthy e)) os ;;
   sorted <- sort_by by_recency os ;;
   Normal
     (JObj [(js "totalOrders", count_of (List.length os));
            (js "totalRevenue", totalRevenue);
            (js "sizeBreakdown",
              JObj [(js "M", m); (js "L", l); (js "XL", xl); (js "2XL", xxl)]);
            (js "packagingBreakdown",
              JObj [(js "basic", basic); (js "branded", branded); (js "box", box)]);
            (js "embroideryCount", emb);
            (js "recentOrders", JArr (firstn 5 sorted))],
      sorted))%completion.

(** GET /api/stats.  [sort] works in place: when [orders] is the array of
    [db.data], that array is left sorted in memory. *)
Definition get_api_stats : db -> db * response :=
  try_catch
    (db_read ;;;
     d <- get_data ;;
     stored <- lift (get_prop d (js "orders")) ;;
     match js_or stored (JArr []) with
     | JArr os =>
         r <- lift (compute_stats os) ;;
         (if truthy stored
          then update_field "orders" (fun _ => Normal (JArr (snd r)))
          else ret tt) ;;;
         ret {| status := 200; body := fst r |}
     | _ => lift (Throw TypeError)
     end)%M
    {| status := 500; body := error_body "Failed to fetch statistics" |}.

(** [orders.splice(i, 1)]: the array without its element [i]. *)
Definition remove_at (i : nat) (l : list value) : list value :=
  firstn i l ++ skipn (S i) l.

(** DELETE /api/orders/:id *)
Definition delete_api_orders (id : jsstring) : db -> db * response :=
  try_catch
    (if negb (truthy (JStr id))
     then ret {| status := 400; body := error_body "Order ID is required" |}
     else
       db_read ;;;
       d <- get_data ;;
       orders <- lift (get_prop d (js "orders")) ;;
       match orders with
       | JArr os =>
           orderIndex <-
             lift (findIndex (fun order =>
                                (oid <- get_prop order (js "id") ;;
                                 Normal (strict_eq_str oid id))%completion) os) ;;
           match orderIndex with
           | None => ret {| status := 404; body := error_body "Order not found" |}
           | Some i =>
               let deletedOrder := nth i os JUndef in
               update_field "orders" (fun _ => Normal (JArr (remove_at i os))) ;;;
               db_write ;;;
               ret {| status := 200;
                      body := JObj [(js "message", JStr (js "Order deleted successfully"));
                                    (js "deletedOrder", deletedOrder)] |}
           end
       | _ => lift (Throw TypeError)
       end)%M
    {| status := 500; body := error_body "Failed to delete order" |}.

End Server.

(** ** [server.js]: the handlers that read, and the settings *)

(** GET /api/orders *)
Definition get_api_orders : db -> db * response :=
  try_catch
    (db_read ;;;
     d <- get_data ;;
     orders <- lift (get_prop d (js "orders")) ;;
     ret {| status := 200; body := js_or orders (JArr []) |})%M
    {| status := 500; body := error_body "Failed to fetch orders" |}.

(** GET /api/settings *)
Definition get_api_settings : db -> db * response :=
  try_catch
    (db_read ;;;
     d <- get_data ;;
     settings <- lift (get_prop d (js "settings")) ;;
     ret {| status := 200; body := js_or settings (JObj []) |})%M
    {| status := 500; body := error_body "Failed to fetch settings" |}.

Section Settings.

(** [error.message]: the text an error carries is the engine's and the
    libraries'. *)
Variable message : error -> jsstring.

(** The [catch] of the settings handlers, which also answers the message. *)
Definition try_catch_details (m : M response) (failure : string)
  : db -> db * response :=
  fun s =>
    match m s with
    | (s', Normal r) => (s', r)
    | (s', Throw e) =>
        (s', {| status := 500;
                body := JObj [(js "error", JStr (js failure));
                              (js "details", JStr (message e))] |})
    end.

(** PUT /api/settings *)
Definition put_api_settings (req_body : value) : db -> db * response :=
  try_catch_details
    (if negb (truthy req_body) || negb (is_object req_body)
     then ret {| status := 400; body := error_body "Invalid settings data" |}
     else
       db_read ;;;
       d <- get_data ;;
       settings <- lift (get_prop d (js "settings")) ;;
       (if negb (truthy settings)
        then update_field "settings" (fun _ => Normal (JObj []))
        else ret tt) ;;;
       update_field "settings"
         (fun settings => Normal (JObj (spread (spread [] settings) req_body))) ;;;
       db_write ;;;
       d <- get_data ;;
       settings <- lift (get_prop d (js "settings")) ;;
       ret {| status := 200;
              body := JObj [(js "success", JBool true); (js "settings", settings)] |})%M
    "Failed to update settings".

(** POST /api/settings: the same handler under another method (the two
    differ in what they log). *)
Definition post_api_settings : value -> db -> db * response := put_api_settings.

End Settings.

(** ** A host to evaluate the model on examples

    [Date_parse] reads the date-time form that [toISOString] produces,
    "YYYY-MM-DDTHH:mm:ss.sssZ", as milliseconds since the epoch; any other
    string is an invalid date here.  [Number_toString] and [StringToNumber]
    handle integers in decimal only; the examples below reach neither. *)

Module ExampleHost.

Definition digit (c : N) : option Z :=
  if (N.leb 48 c && N.leb c 57)%bool then Some (Z.of_N c - 48)%Z else None.

Fixpoint digits (s : jsstring) (acc : Z) : option Z :=
  match s with
  | [] => Some acc
  | c :: rest =>
      match digit c with
      | Some d => digits rest (10 * acc + d)%Z
      | None => None
      end
  end.

(** Days from 1970-01-01 to the given day of the proleptic Gregorian
    calendar. *)
Definition days_from_civil (y m d : Z) : Z :=
  let y := if (m <=? 2)%Z then (y - 1)%Z else y in
  let era := (y / 400)%Z in
  let yoe := (y - era * 400)%Z in
  let mp := ((m + 9) mod 12)%Z in
  let doy := ((153 * mp + 2) / 5 + d - 1)%Z in
  let doe := (yoe * 365 + yoe / 4 - yoe / 100 + doy)%Z in
  (era * 146097 + doe - 719468)%Z.

Definition in_range (lo x hi : Z) : bool := ((lo <=? x) && (x <=? hi))%Z.

Definition parse_iso (s : jsstring) : num :=
  match s with
  | [y1; y2; y3; y4; 45; m1; m2; 45; d1; d2; 84;
     h1; h2; 58; n1; n2; 58; s1; s2; 46; f1; f2; f3; 90]%N =>
      match digits [y1; y2; y3; y4] 0, digits [m1; m2] 0, digits [d1; d2] 0,
            digits [h1; h2] 0, digits [n1; n2] 0, digits [s1; s2] 0,
            digits [f1; f2; f3] 0 with
      | Some y, Some m, Some d, Some hh, Some mm, Some ss, Some ms =>
          if in_range 1 m 12 && in_range 1 d 31 && in_range 0 hh 23
             && in_range 0 mm 59 && in_range 0 ss 59
          then Num (inject_Z
                      ((((days_from_civil y m d * 24 + hh) * 60 + mm) * 60 + ss) * 1000 + ms))
          else NaN
      | _, _, _, _, _, _, _ => NaN
      end
  | _ => NaN
  end.

Definition integer_to_string (q : Q) : jsstring :=
  if Qeq_bool q (inject_Z (Qfloor q))
  then js (DecimalString.NilZero.string_of_int (Z.to_int (Qfloor q)))
  else [].

Definition integer_of_string (s : jsstring) : num :=
  match s with
  | [] => Num 0
  | _ => match digits s 0 with
         | Some z => round64 (inject_Z z)
         | None => NaN
         end
  end.

Definition example_host : host :=
  {| Number_toString := integer_to_string;
     StringToNumber := integer_of_string;
     Date_parse := parse_iso |}.

End ExampleHost.

Import ExampleHost.

(** ** Notions the properties are stated with *)




(** A price component of a config: the number stored, 0 when there is none. *)
Definition amount (v : value) : Q :=
  match v with
  | JNum (Num q) => q
  | _ => 0
  end.

Definition missing_or_number (v : value) : bool :=
  match v with
  | JUndef | JNum (Num _) => true
  | _ => false
  end.

(** What a request body holds under a name: [undefined] when nothing. *)
Definition field (fields : list (jsstring * value)) (k : string) : value :=
  match lookup fields (js k) with
  | Some v => v
  | None => JUndef
  end.

(** No customer name: not a string (in particular missing), or a string
    that is blank once trimmed. *)
Definition missing_or_blank (v : value) : Prop :=
  (forall s, v <> JStr s) \/ exists s, v = JStr s /\ trim s = [].

(** A value that is none of the listed strings. *)
Definition not_one_of (l : list jsstring) (v : value) : Prop :=
  forall s, In s l -> v <> JStr s.

Definition present (v : value) : Prop := v <> JUndef.

Definition numeric (v : value) : Prop := exists n, v = JNum n.

Definition negative (v : value) : Prop :=
  v = JNum (Inf true) \/ exists q, v = JNum (Num q) /\ q < 0.

(** A price of a config update that is present and not numeric or negative. *)
Definition invalid_price (v : value) : Prop :=
  present v /\ (~ numeric v \/ negative v).

(** A packaging entry with a key outside the packaging types, or with a
    value that is not numeric or is negative. *)
Definition invalid_entry (kv : jsstring * value) : Prop :=
  ~ In (fst kv) validPackageTypes \/ ~ numeric (snd kv) \/ negative (snd kv).

Definition invalid_config (fields : list (jsstring * value)) : Prop :=
  invalid_price (field fields "basePrice")
  \/ invalid_price (field fields "embroidery")
  \/ exists kv, In kv (own_entries (field fields "packaging")) /\ invalid_entry kv.

(** A number beyond the range of a double. *)
Definition infinite (v : value) : Prop := exists s, v = JNum (Inf s).

(** The file states from which the store starts afresh: no file, a blank
    one, and one whose text, trimmed, is not JSON or is JSON for something
    other than an object (an array, [null], a number, ...). *)
Definition not_a_json_object (f : file_state) : Prop :=
  match f with
  | Missing => True
  | Unreadable _ => False
  | Content (Parses (JObj _)) | Content (Padded (JObj _)) => False
  | Content _ => True
  end.

(** The file states that [initDB] can load: the file can be read if it is
    there, and it does not hold a JSON object inside white space that JSON
    does not allow (which [initializeDbFile] takes for a good file and
    lowdb cannot parse). *)
Definition loadable (f : file_state) : Prop :=
  match f with
  | Unreadable _ => False
  | Content (Padded (JObj _)) => False
  | _ => True
  end.

(** The order list as persisted in [db.json]. *)
Definition persisted_orders (st : db) : completion value :=
  (t <- fs_readFileSync (file st) ;;
   d <- JSON_parse t ;;
   get_prop d (js "orders"))%completion.

(** The properties of an object after a round trip through JSON text. *)
Definition jsonify_props (kvs : list (jsstring * value)) : list (jsstring * value) :=
  match jsonify (JObj kvs) with
  | JObj l => l
  | _ => []
  end.

(** An order has the ID [id]: its [id] member is that string. *)
Definition has_id (id : jsstring) (o : value) : bool :=
  match get_prop o (js "id") with
  | Normal v => strict_eq_str v id
  | Throw _ => false
  end.

(** The answer of a successful DELETE. *)
Definition deleted_body (o : value) : value :=
  JObj [(js "message", JStr (js "Order deleted successfully"));
        (js "deletedOrder", o)].

(** The packaging member of the config that GET /api/config answers. *)
Definition visible_packaging (st : db) : completion value :=
  let r := snd (get_api_config st) in
  if Nat.eqb (status r) 200 then get_prop (body r) (js "packaging")
  else Throw IOError.

(** A packaging mapping holds a surcharge under the key [k]: it has an own
    property [k] with a value. *)
Definition has_key (p : value) (k : jsstring) : Prop :=
  exists v, lookup (own_entries p) k = Some v /\ v <> JUndef.

(** All three packaging types have a surcharge. *)
Definition fully_populated (p : value) : Prop :=
  forall k, In k validPackageTypes -> has_key p k.

(** A member of an order: [undefined] when there is none. *)
Definition member (o : value) (k : string) : value :=
  match get_prop o (js k) with
  | Normal v => v
  | Throw _ => JUndef
  end.

(** An order's member [k] is the string [s]. *)
Definition member_is (k s : string) (o : value) : bool :=
  strict_eq_str (member o k) (js s).

(** How many orders pass a test. *)
Definition how_many (p : value -> bool) (os : list value) : value :=
  count_of (List.length (filter p os)).

(** The sum of the prices of a list of orders. *)
Definition sum_of_prices (os : list value) : Q :=
  fold_right (fun o acc => amount (member o "price") + acc) 0 os.

(** The prices of a list of orders added from the left in double
    precision, starting from [acc]. *)
Definition added_up (acc : num) (os : list value) : num :=
  fold_left (fun sum o => num_add sum (Num (amount (member o "price")))) os acc.

(** The exponent of the unit in the last place of the double nearest to a
    positive rational, and that double when it is finite: what [round64]
    computes on the way. *)
Definition exponent (a : Q) : Z := Z.max (ilog2 a - 52) (-1074).

Definition rounded (a : Q) : Q :=
  inject_Z (round_half_even (a / pow2 (exponent a))) * pow2 (exponent a).

(** The order of the numbers, the infinities included; [NaN] is not
    compared. *)
Definition num_le (a b : num) : Prop :=
  match a, b with
  | Num x, Num y => x <= y
  | Num _, Inf false => True
  | Inf true, Num _ => True
  | Inf s, Inf t => Bool.le t s
  | _, _ => False
  end.

(** A rational that is a double: rounding leaves it as it is. *)
Definition double (x : Q) : Prop := exists y, round64 x = Num y /\ y == x.

(** No addition rounds when the prices of the orders are added one after
    the other to [acc]. *)
Fixpoint summable (acc : Q) (os : list value) : Prop :=
  match os with
  | [] => True
  | o :: rest =>
      double (acc + amount (member o "price"))
      /\ summable (acc + amount (member o "price")) rest
  end.

(** [Math.round(total * 100) / 100] in double precision. *)
Definition in_cents (total : num) : num :=
  num_div (Math_round (num_mul total (Num 100))) (Num 100).

(** The sum of a base price, a surcharge and, with embroidery, the
    embroidery surcharge, added in this order in double precision. *)
Definition price_sum (b p e : Q) (embroidery : bool) : num :=
  if embroidery then num_add (num_add (Num b) (Num p)) (Num e)
  else num_add (Num b) (Num p).

Section Recency.

Variable h : host.

(** The instant an order was created: its creation timestamp or, when
    that is absent, its creation date. *)
Definition created (o : value) : num :=
  Date_value h (js_or (member o "createdAt") (member o "date")).

Definition created_at (o : value) : Q :=
  match created o with
  | Num t => t
  | _ => 0
  end.

(** [a] was created no earlier than [b]. *)
Definition not_older (a b : value) : Prop := created_at b <= created_at a.

(** The orders created at the instant [t], in the order of the list. *)
Definition created_at_instant (t : Q) (os : list value) : list value :=
  filter (fun o => Qeq_bool (created_at o) t) os.

(** Insertion before the first order that is not newer. *)
Fixpoint insert_recent (x : value) (l : list value) : list value :=
  match l with
  | [] => [x]
  | y :: rest =>
      if Qle_bool (created_at y - created_at x) 0
      then x :: y :: rest
      else y :: insert_recent x rest
  end.

(** The orders from the most recent to the oldest, built by insertion
    from the right. *)
Definition most_recent_first (l : list value) : list value :=
  fold_right insert_recent [] l.

(** An order that is not [null] and has a valid creation instant. *)
Definition dated (o : value) : Prop :=
  is_nullish o = false /\ exists t, created o = Num t.

End Recency.

(** The document, config and stats that the handlers arrive at, written
    out as functions of their inputs. *)

(** The config as the update handler leaves it. *)
Definition updated_config (cfg partial : list (jsstring * value))
  : list (jsstring * value) :=
  let basePrice := field partial "basePrice" in
  let packaging := field partial "packaging" in
  let embroidery := field partial "embroidery" in
  let c1 := if negb (is_undefined basePrice)
            then assoc_set cfg (js "basePrice") basePrice else cfg in
  let c2 := if truthy packaging
            then assoc_set c1 (js "packaging")
                   (JObj (spread (spread [] (field c1 "packaging")) packaging))
            else c1 in
  if negb (is_undefined embroidery)
  then assoc_set c2 (js "embroidery") embroidery else c2.

(** The config [initDB] completes a document's config to. *)
Definition completed_config (c : value) : list (jsstring * value) :=
  let merged := spread (spread [] default_config) (js_or c (JObj [])) in
  if negb (truthy (field merged "packaging"))
  then assoc_set merged (js "packaging") default_packaging
  else merged.

(** The stats object over the orders [os], given the revenue and the
    sorted orders. *)
Definition stats_body (os : list value) (revenue : num) (sorted : list value) : value :=
  JObj [(js "totalOrders", count_of (List.length os));
        (js "totalRevenue", JNum revenue);
        (js "sizeBreakdown",
          JObj [(js "M", how_many (member_is "size" "M") os);
                (js "L", how_many (member_is "size" "L") os);
                (js "XL", how_many (member_is "size" "XL") os);
                (js "2XL", how_many (member_is "size" "2XL") os)]);
        (js "packagingBreakdown",
          JObj [(js "basic", how_many (member_is "packaging" "basic") os);
                (js "branded", how_many (member_is "packaging" "branded") os);
                (js "box", how_many (member_is "packaging" "box") os)]);
        (js "embroideryCount", how_many (fun o => truthy (member o "embroidery")) os);
        (js "recentOrders", JArr (firstn 5 sorted))].

(** *** Further notions *)

(** A create-order input that passes the validation: a customer name that
    is a string and not blank, a size and a packaging type of the lists. *)
Definition valid_order (req : value) : Prop :=
  (exists s, get_prop req (js "customer") = Normal (JStr s) /\ trim s <> [])
  /\ (exists s, get_prop req (js "size") = Normal (JStr s) /\ In s sizes)
  /\ (exists s, get_prop req (js "packaging") = Normal (JStr s)
                /\ In s validPackageTypes).

(** What a value holds under a key, [undefined] when the read raises. *)
Definition member_of (v : value) (k : jsstring) : value :=
  match get_prop v k with
  | Normal w => w
  | Throw _ => JUndef
  end.

(** A step of a handler that leaves the file alone. *)
Definition keeps_file {A} (m : M A) : Prop :=
  forall s, file (fst (m s)) = file s.

(** A step that leaves [db.data] truthy when it was. *)
Definition keeps_truthy {A} (m : M A) : Prop :=
  forall s, truthy (data s) = true -> truthy (data (fst (m s))) = true.

(** The outcome of a request that may write: [db.data] is still truthy, and
    either the answer is the success status and the file holds the whole
    of [db.data] as it is now, or the answer is another status and the file
    is as it was before the request. *)
Definition settled (success : nat) (before : db) (out : db * response) : Prop :=
  truthy (data (fst out)) = true
  /\ ((status (snd out) = success
       /\ file (fst out) = Content (JSON_stringify (data (fst out))))
      \/ (status (snd out) <> success /\ file (fst out) = file before)).

(** The body of a handler that writes at most on the way to a success. *)
Definition disciplined (success : nat) (m : M response) : Prop :=
  forall s, truthy (data s) = true ->
    match m s with
    | (s', Normal r) => settled success s (s', r)
    | (s', Throw _) => truthy (data s') = true /\ file s' = file s
    end.

(** The answer of a successful settings update. *)
Definition settings_body (settings : value) : value :=
  JObj [(js "success", JBool true); (js "settings", settings)].

(** A file that is there and cannot be used: reading it raises, or its
    text is blank or is not JSON. *)
Definition unusable (f : file_state) : Prop :=
  (exists w, f = Unreadable w)
  \/ f = Content Whitespace \/ f = Content Unparsable
  \/ exists v, f = Content (Padded v).

(** The answer of the [catch] of a handler. *)
Definition failure (msg : string) : response :=
  {| status := 500; body := error_body msg |}.

(** An order's member [k] is one of the listed strings. *)
Definition one_of (k : string) (l : list jsstring) (o : value) : Prop :=
  exists s, member o k = JStr s /\ In s l.

(** How many orders have the string [s] for member [k]. *)
Definition tally (k s : string) (os : list value) : nat :=
  List.length (filter (member_is k s) os).

(** A value that JSON text denotes, as a parsed request body is, with
    numbers within the range of a double: no [undefined], no [NaN] and no
    infinity anywhere in it.  (A numeral beyond the range, such as 1e400,
    is read as an infinity by [JSON.parse]; such a body is not of this
    kind.) *)
Fixpoint is_json (v : value) : bool :=
  match v with
  | JUndef => false
  | JNum NaN => false
  | JNum (Inf _) => false
  | JArr l => forallb is_json l
  | JObj kvs =>
      (fix all (kvs : list (jsstring * value)) : bool :=
         match kvs with
         | [] => true
         | (k, x) :: rest => is_json x && all rest
         end) kvs
  | _ => true
  end.

(** A price of the config: a number that is not below zero. *)
Definition price_at_least_zero (v : value) : Prop :=
  exists q, v = JNum (Num q) /\ 0 <= q.

(** A price component that is missing, or a number not below zero. *)
Definition missing_or_priced (v : value) : Prop :=
  v = JUndef \/ price_at_least_zero v.

(** A number that is not below zero: [+Infinity], or finite and at least
    0 (so not [NaN]). *)
Definition not_below_zero (n : num) : Prop :=
  n = Inf false \/ exists r, n = Num r /\ 0 <= r.

(** [+Infinity], or the double nearest to a whole number of cents that is
    not below zero. *)
Definition whole_cents (n : num) : Prop :=
  n = Inf false \/ exists k, (0 <= k)%Z /\ n = round64 (inject_Z k / 100).

(** A packaging table: every entry is a packaging type with a price, and
    each of the three types has an entry. *)
Definition sound_table (pk : list (jsstring * value)) : Prop :=
  Forall (fun kv => In (fst kv) validPackageTypes /\ price_at_least_zero (snd kv)) pk
  /\ forall k, In k validPackageTypes -> lookup pk k <> None.

(** The pricing config as the data model describes it. *)
Definition sound_config (cfg : value) : Prop :=
  exists c pk,
    cfg = JObj c
    /\ price_at_least_zero (field c "basePrice")
    /\ price_at_least_zero (field c "embroidery")
    /\ field c "packaging" = JObj pk
    /\ sound_table pk.

(** The config as persisted in [db.json]. *)
Definition persisted_config (st : db) : completion value :=
  (t <- fs_readFileSync (file st) ;;
   d <- JSON_parse t ;;
   get_prop d (js "config"))%completion.

(** The order POST /api/orders builds. *)
Definition new_order (id customer size packaging : jsstring) (embroidery : bool)
  (price : num) (now1 now2 : jsstring) : value :=
  JObj [(js "id", JStr id);
        (js "customer", JStr customer);
        (js "size", JStr size);
        (js "packaging", JStr packaging);
        (js "embroidery", JBool embroidery);
        (js "price", JNum price);
        (js "date", JStr (before_T now1));
        (js "createdAt", JStr now2)].

(** ** Data for the examples *)

(** The store as [initDB] leaves it on a fresh installation. *)
Definition fresh_store : db :=
  {| file := Content (Parses defaultData); data := defaultData |}.

Definition an_order (id customer size packaging : string) (embroidery : bool)
  (price : Q) (createdAt : string) : value :=
  JObj [(js "id", JStr (js id));
        (js "customer", JStr (js customer));
        (js "size", JStr (js size));
        (js "packaging", JStr (js packaging));
        (js "embroidery", JBool embroidery);
        (js "price", JNum (Num price));
        (js "date", JStr (before_T (js createdAt)));
        (js "createdAt", JStr (js createdAt))].

Definition order_a : value :=
  an_order "a" "Ann" "M" "basic" false 48 "2024-05-01T10:00:00.000Z".

Definition order_b : value :=
  an_order "b" "Bob" "L" "box" true 72 "2024-05-02T09:30:00.000Z".

(** Created at the same instant as [order_a], and entered after it. *)
Definition order_c : value :=
  an_order "c" "Cy" "XL" "branded" false 50 "2024-05-01T10:00:00.000Z".

Definition document_with (os : list value) : list (jsstring * value) :=
  [(js "orders", JArr os); (js "config", default_config); (js "settings", JObj [])].

Definition store_with (os : list value) : db :=
  {| file := Content (Parses (JObj (document_with os)));
     data := JObj (document_with os) |}.



(** A file with an empty JSON object after a byte order mark. *)
Definition padded_object_file : file_state := Content (Padded (JObj [])).

(** 0.1 and 0.2 as doubles. *)
Definition a_tenth : Q := 3602879701896397 # 36028797018963968.

Definition two_tenths : Q := 3602879701896397 # 18014398509481984.

Definition order_d : value :=
  an_order "d" "Di" "M" "basic" false a_tenth "2024-05-03T10:00:00.000Z".

Definition order_e : value :=
  an_order "e" "Ed" "M" "basic" false two_tenths "2024-05-04T10:00:00.000Z".

(** An order without customer, of size XXL, in packaging "gift". *)
Definition bad_order : list (jsstring * value) :=
  [(js "customer", JStr []); (js "size", JStr (js "XXL")); (js "packaging", JStr (js "gift"))].

(** An order input without the optional [embroidery]. *)
Definition plain_order : value :=
  JObj [(js "customer", JStr (js "  Dee "));
        (js "size", JStr (js "M"));
        (js "packaging", JStr (js "basic"))].

(** A config update with a base price below zero. *)
Definition base_price_below_zero : list (jsstring * value) :=
  [(js "basePrice", JNum (Num (-1)))].

(** The partial update [{ packaging: { basic: 10 } }]. *)
Definition basic_to_10 : list (jsstring * value) :=
  [(js "packaging", JObj [(js "basic", qnum 10)])].

(** A [db.json] whose config has a packaging mapping with the key basic
    only. *)
Definition partial_packaging_file : file_state :=
  Content (Parses (JObj [(js "orders", JArr []);
                         (js "config",
                           JObj [(js "basePrice", qnum 45);
                                 (js "packaging", JObj [(js "basic", qnum 1)]);
                                 (js "embroidery", qnum 20)]);
                         (js "settings", JObj [])])).

(** The message of an error, for the examples. *)
Definition example_message (e : error) : jsstring :=
  match e with
  | TypeError => js "Cannot read properties of undefined"
  | SyntaxError => js "Unexpected token in JSON"
  | IOError => js "EACCES: permission denied"
  end.

(** The clock readings of the examples. *)
Definition clock_1 : jsstring := js "2024-05-03T08:00:00.000Z".

Definition clock_2 : jsstring := js "2024-05-03T08:00:00.001Z".

(** A store whose file is not JSON. *)
Definition broken_store : db :=
  {| file := Content Unparsable; data := defaultData |}.

(** The settings update [{ theme: "dark" }]. *)
Definition dark_theme : value := JObj [(js "theme", JStr (js "dark"))].

(** ** Properties *)

(** The handler answered with another status than the one at hand. *)
Ltac answer_differs :=
  match goal with
  | H : (_, {| status := _; body := _ |}) = (_, {| status := _; body := _ |}) |- _ =>
      exfalso; injection H; intros; discriminate
  end.

(** *** Strings and property lists *)

Lemma str_eqb_eq (s t : jsstring) : str_eqb s t = true <-> s = t.
Proof.
  revert t; induction s as [|a s IH]; intros [|b t]; simpl; split;
    try congruence; try discriminate.
  - intros H. apply andb_prop in H as [Ha Hs].
    apply N.eqb_eq in Ha. apply IH in Hs. congruence.
  - intros H. injection H as -> ->. rewrite N.eqb_refl. simpl. now apply IH.
Qed.

Lemma str_eqb_refl (s : jsstring) : str_eqb s s = true.
Proof. now apply str_eqb_eq. Qed.

Lemma str_eqb_neq (s t : jsstring) : str_eqb s t = false <-> s <> t.
Proof.
  split.
  - intros H E. apply str_eqb_eq in E. congruence.
  - intros H. destruct (str_eqb s t) eqn:E; [|reflexivity].
    apply str_eqb_eq in E. contradiction.
Qed.

Lemma existsb_str_eqb (s : jsstring) (l : list jsstring) :
  existsb (str_eqb s) l = true <-> In s l.
Proof.
  rewrite existsb_exists. split.
  - intros (x & Hin & E). apply str_eqb_eq in E. now subst.
  - intros Hin. exists s. split; [assumption | apply str_eqb_refl].
Qed.

(** *** Double precision *)

Lemma round64_comp (x y : Q) : x == y -> round64 x = round64 y.
Proof. intros E. unfold round64. now rewrite (Qred_complete x y E). Qed.

Lemma pow2_pos (e : Z) : 0 < pow2 e.
Proof. apply Qpower_0_lt. reflexivity. Qed.

Lemma pow2_le (a b : Z) : (a <= b)%Z -> pow2 a <= pow2 b.
Proof. intros H. apply Qpower_le_compat_l; [exact H | discriminate]. Qed.

Lemma pow2_of_Z (n : Z) : (0 <= n)%Z -> pow2 n == inject_Z (2 ^ n).
Proof. intros H. unfold pow2. now rewrite Zpower_Qpower. Qed.

(** The exponent found for a positive rational is not above it. *)
Lemma ilog2_lower (a : Q) : 0 < a -> pow2 (ilog2 a) <= a.
Proof.
  intros Ha. unfold ilog2.
  set (n := Qnum a). set (d := Qden a).
  destruct (Qle_bool (pow2 (Z.log2 n - Z.log2 (Z.pos d))) a) eqn:E.
  - now apply Qle_bool_iff.
  - clear E.
    assert (Hn : (0 < n)%Z).
    { unfold Qlt in Ha. simpl in Ha. unfold n. lia. }
    destruct (Z.log2_spec n Hn) as [Hlo _].
    destruct (Z.log2_spec (Z.pos d) (Pos2Z.is_pos d)) as [_ Hhi].
    assert (Hln : (0 <= Z.log2 n)%Z) by apply Z.log2_nonneg.
    assert (Hld : (0 <= Z.log2 (Z.pos d))%Z) by apply Z.log2_nonneg.
    replace (Z.log2 n - Z.log2 (Z.pos d) - 1)%Z
      with (Z.log2 n - Z.succ (Z.log2 (Z.pos d)))%Z by lia.
    unfold pow2. rewrite Qpower_minus by discriminate.
    set (A := (2 ^ Z.log2 n)%Z) in *.
    set (B := (2 ^ Z.succ (Z.log2 (Z.pos d)))%Z) in *.
    assert (EA : 2 ^ Z.log2 n == inject_Z A)
      by (unfold A; rewrite Zpower_Qpower; [reflexivity | lia]).
    assert (EB : 2 ^ Z.succ (Z.log2 (Z.pos d)) == inject_Z B)
      by (unfold B; rewrite Zpower_Qpower; [reflexivity | lia]).
    rewrite EA, EB.
    assert (Ea : a == inject_Z n / inject_Z (Z.pos d)) by apply Qmake_Qdiv.
    rewrite Ea.
    assert (HB : (0 < B)%Z) by lia.
    apply Qle_shift_div_l; [rewrite <- (Zlt_Qlt 0); reflexivity|].
    unfold Qdiv. rewrite <- Qmult_assoc, (Qmult_comm (/ inject_Z B)), Qmult_assoc.
    apply Qle_shift_div_r; [now rewrite <- (Zlt_Qlt 0)|].
    rewrite <- !inject_Z_mult, <- Zle_Qle. nia.
Qed.

Lemma round_half_even_floor (x : Q) :
  (Qfloor x <= round_half_even x <= Qfloor x + 1)%Z.
Proof.
  unfold round_half_even.
  destruct (Qcompare (x - inject_Z (Qfloor x)) (1 # 2)); try lia.
  destruct (Z.even (Qfloor x)); lia.
Qed.

Lemma round_half_even_nonneg (x : Q) : 0 <= x -> (0 <= round_half_even x)%Z.
Proof.
  intros H. pose proof (round_half_even_floor x) as [Hf _].
  assert (0 <= Qfloor x)%Z by (change 0%Z with (Qfloor 0); now apply Qfloor_resp_le).
  lia.
Qed.

Lemma round_half_even_pos (x : Q) : 1 <= x -> (1 <= round_half_even x)%Z.
Proof.
  intros H. pose proof (round_half_even_floor x) as [Hf _].
  assert (1 <= Qfloor x)%Z by (change 1%Z with (Qfloor 1); now apply Qfloor_resp_le).
  lia.
Qed.

(** Rounding a number that is not below zero gives no number below zero. *)
Lemma round64_nonneg (x : Q) :
  0 <= x -> round64 x = Inf false \/ exists y, round64 x = Num y /\ 0 <= y.
Proof.
  intros Hx. unfold round64.
  assert (Hr : 0 <= Qred x) by now rewrite Qred_correct.
  set (x' := Qred x) in *.
  destruct (Qeq_bool x' 0); [right; exists 0; split; [reflexivity | discriminate]|].
  assert (Hb : Qle_bool 0 x' = true) by now apply Qle_bool_iff.
  rewrite Hb. cbn [negb].
  set (c := Z.max (ilog2 (Qabs x') - 52) (-1074)).
  set (m := round_half_even (Qabs x' / pow2 c)).
  destruct (Qle_bool (pow2 1024) (inject_Z m * pow2 c)); [now left|].
  right. eexists. split; [reflexivity|].
  rewrite Qred_correct.
  assert (Hm : (0 <= m)%Z).
  { apply round_half_even_nonneg. apply Qle_shift_div_l; [apply pow2_pos|].
    rewrite Qmult_0_l. apply Qabs_nonneg. }
  apply Qmult_le_0_compat; [now rewrite <- (Zle_Qle 0) | apply Qlt_le_weak, pow2_pos].
Qed.

(** The sign of a whole number survives the rounding: a whole number that
    is not zero is at least 1 in magnitude, and so is the result. *)
Lemma not_after_round64_integer (z : Z) :
  not_after (round64 (inject_Z z)) = (z <=? 0)%Z.
Proof.
  unfold round64.
  assert (Hr : Qred (inject_Z z) == inject_Z z) by apply Qred_correct.
  set (x := Qred (inject_Z z)) in *.
  destruct (Qeq_bool x 0) eqn:E0.
  { apply Qeq_bool_iff in E0. rewrite Hr in E0.
    assert (z = 0%Z) by (unfold Qeq in E0; simpl in E0; lia).
    subst z. reflexivity. }
  assert (Hz : z <> 0%Z).
  { intros ->. assert (Qeq_bool x 0 = true) by (apply Qeq_bool_iff; exact Hr). congruence. }
  set (c := Z.max (ilog2 (Qabs x) - 52) (-1074)).
  set (m := round_half_even (Qabs x / pow2 c)).
  assert (Ha : 1 <= Qabs x).
  { rewrite Hr. apply Qabs_case; intros H.
    - rewrite <- (Zle_Qle 0) in H. change 1 with (inject_Z 1). rewrite <- Zle_Qle. lia.
    - rewrite <- (Zle_Qle _ 0) in H. rewrite <- inject_Z_opp.
      change 1 with (inject_Z 1). rewrite <- Zle_Qle. lia. }
  assert (Hc : pow2 c <= Qabs x).
  { unfold c. apply Z.max_case.
    - apply Qle_trans with (pow2 (ilog2 (Qabs x))).
      + apply pow2_le. lia.
      + apply ilog2_lower. apply Qlt_le_trans with 1; [reflexivity | exact Ha].
    - apply Qle_trans with 1; [|exact Ha]. apply (pow2_le (-1074) 0). lia. }
  assert (Hm : (1 <= m)%Z).
  { apply round_half_even_pos. apply Qle_shift_div_l; [apply pow2_pos|].
    now rewrite Qmult_1_l. }
  assert (Hy : 0 < inject_Z m * pow2 c).
  { apply Qmult_lt_0_compat; [|apply pow2_pos]. rewrite <- (Zlt_Qlt 0). lia. }
  assert (Hsign : Qle_bool 0 x = negb (z <=? 0)%Z).
  { destruct (Z.leb_spec z 0) as [Hle|Hlt]; cbn [negb].
    - destruct (Qle_bool 0 x) eqn:Eb; [|reflexivity].
      apply Qle_bool_iff in Eb. rewrite Hr, <- (Zle_Qle 0) in Eb. lia.
    - apply Qle_bool_iff. rewrite Hr, <- (Zle_Qle 0). lia. }
  destruct (Qle_bool (pow2 1024) (inject_Z m * pow2 c)).
  - cbn [not_after]. rewrite Hsign. now rewrite negb_involutive.
  - cbn [not_after]. rewrite Hsign.
    destruct (z <=? 0)%Z; cbn [negb].
    + apply Qle_bool_iff. rewrite Qred_correct. lra.
    + destruct (Qle_bool (Qred (inject_Z m * pow2 c)) 0) eqn:Eb; [|reflexivity].
      apply Qle_bool_iff in Eb. rewrite Qred_correct in Eb. lra.
Qed.

Lemma pow2_lt_inv (a b : Z) : pow2 a < pow2 b -> (a < b)%Z.
Proof.
  intros H. destruct (Z.lt_ge_cases a b) as [Hlt | Hge]; [exact Hlt|].
  exfalso. apply (Qlt_not_le _ _ H). now apply pow2_le.
Qed.

Lemma pow2_plus (a b : Z) : pow2 (a + b) == pow2 a * pow2 b.
Proof. unfold pow2. apply Qpower_plus. discriminate. Qed.

Lemma ilog2_upper (a : Q) : 0 < a -> a < pow2 (ilog2 a + 1).
Proof.
  intros Ha. unfold ilog2.
  set (n := Qnum a). set (d := Qden a).
  destruct (Qle_bool (pow2 (Z.log2 n - Z.log2 (Z.pos d))) a) eqn:E.
  - clear E.
    assert (Hn : (0 < n)%Z).
    { unfold Qlt in Ha. simpl in Ha. unfold n. lia. }
    destruct (Z.log2_spec n Hn) as [_ Hhi].
    destruct (Z.log2_spec (Z.pos d) (Pos2Z.is_pos d)) as [Hlo _].
    assert (Hln : (0 <= Z.log2 n)%Z) by apply Z.log2_nonneg.
    assert (Hld : (0 <= Z.log2 (Z.pos d))%Z) by apply Z.log2_nonneg.
    replace (Z.log2 n - Z.log2 (Z.pos d) + 1)%Z
      with (Z.succ (Z.log2 n) - Z.log2 (Z.pos d))%Z by lia.
    unfold pow2. rewrite Qpower_minus by discriminate.
    assert (HB : (0 < 2 ^ Z.log2 (Z.pos d))%Z) by (apply Z.pow_pos_nonneg; lia).
    set (A := (2 ^ Z.succ (Z.log2 n))%Z) in *.
    set (B := (2 ^ Z.log2 (Z.pos d))%Z) in *.
    assert (EA : 2 ^ Z.succ (Z.log2 n) == inject_Z A)
      by (unfold A; rewrite Zpower_Qpower; [reflexivity | lia]).
    assert (EB : 2 ^ Z.log2 (Z.pos d) == inject_Z B)
      by (unfold B; rewrite Zpower_Qpower; [reflexivity | lia]).
    rewrite EA, EB.
    assert (Ea : a == inject_Z n / inject_Z (Z.pos d)) by apply Qmake_Qdiv.
    rewrite Ea.
    apply Qlt_shift_div_l; [now rewrite <- (Zlt_Qlt 0)|].
    unfold Qdiv.
    rewrite <- Qmult_assoc, (Qmult_comm (/ inject_Z (Z.pos d))), Qmult_assoc.
    apply Qlt_shift_div_r; [rewrite <- (Zlt_Qlt 0); reflexivity|].
    rewrite <- !inject_Z_mult, <- Zlt_Qlt. nia.
  - replace (Z.log2 n - Z.log2 (Z.pos d) - 1 + 1)%Z
      with (Z.log2 n - Z.log2 (Z.pos d))%Z by lia.
    apply Qnot_le_lt. intros H. apply Qle_bool_iff in H. congruence.
Qed.

Lemma ilog2_unique (a : Q) (k : Z) :
  pow2 k <= a -> a < pow2 (k + 1) -> ilog2 a = k.
Proof.
  intros Hlo Hhi.
  assert (Ha : 0 < a) by (apply Qlt_le_trans with (pow2 k); [apply pow2_pos | exact Hlo]).
  pose proof (ilog2_lower a Ha) as L. pose proof (ilog2_upper a Ha) as U.
  assert (H1 : (ilog2 a < k + 1)%Z)
    by (apply pow2_lt_inv; apply Qle_lt_trans with a; assumption).
  assert (H2 : (k < ilog2 a + 1)%Z)
    by (apply pow2_lt_inv; apply Qle_lt_trans with a; assumption).
  lia.
Qed.

Lemma ilog2_comp (x y : Q) : 0 < x -> x == y -> ilog2 x = ilog2 y.
Proof.
  intros Hx E. symmetry.
  apply ilog2_unique; rewrite <- E; [apply ilog2_lower | apply ilog2_upper]; exact Hx.
Qed.

Lemma ilog2_le (x y : Q) : 0 < x -> x <= y -> (ilog2 x <= ilog2 y)%Z.
Proof.
  intros Hx Hxy.
  assert (Hy : 0 < y) by (apply Qlt_le_trans with x; assumption).
  assert (H : (ilog2 x < ilog2 y + 1)%Z).
  { apply pow2_lt_inv. apply Qle_lt_trans with x; [now apply ilog2_lower|].
    apply Qle_lt_trans with y; [exact Hxy | now apply ilog2_upper]. }
  lia.
Qed.

Lemma round_half_even_comp (x y : Q) : x == y -> round_half_even x = round_half_even y.
Proof.
  intros E. unfold round_half_even. rewrite (Qfloor_comp x y E).
  assert (C : Qcompare (x - inject_Z (Qfloor y)) (1 # 2)
              = Qcompare (y - inject_Z (Qfloor y)) (1 # 2)) by (now rewrite E).
  now rewrite C.
Qed.

Lemma round_half_even_integer (z : Z) : round_half_even (inject_Z z) = z.
Proof.
  unfold round_half_even. rewrite Qfloor_Z.
  assert (C : Qcompare (inject_Z z - inject_Z z) (1 # 2) = Lt).
  { rewrite <- Qlt_alt. lra. }
  now rewrite C.
Qed.

Lemma round_half_even_le (x y : Q) :
  x <= y -> (round_half_even x <= round_half_even y)%Z.
Proof.
  intros H. pose proof (Qfloor_resp_le x y H) as Hf.
  pose proof (round_half_even_floor x) as [_ Hx].
  pose proof (round_half_even_floor y) as [Hy _].
  destruct (Z.eq_dec (Qfloor x) (Qfloor y)) as [E | Hne]; [|lia].
  clear Hx Hy. unfold round_half_even. rewrite E.
  destruct (Qcompare (x - inject_Z (Qfloor y)) (1 # 2)) eqn:Cx;
    destruct (Qcompare (y - inject_Z (Qfloor y)) (1 # 2)) eqn:Cy;
    repeat match goal with
           | H : Qcompare _ _ = Eq |- _ => apply Qeq_alt in H
           | H : Qcompare _ _ = Lt |- _ => apply Qlt_alt in H
           | H : Qcompare _ _ = Gt |- _ => apply Qgt_alt in H
           end;
    first [ lia
          | destruct (Z.even (Qfloor y)); first [lia | exfalso; lra]
          | exfalso; lra ].
Qed.

Lemma exponent_comp (x y : Q) : 0 < x -> x == y -> exponent x = exponent y.
Proof. intros Hx E. unfold exponent. now rewrite (ilog2_comp x y Hx E). Qed.

Lemma rounded_comp (x y : Q) : 0 < x -> x == y -> rounded x == rounded y.
Proof.
  intros Hx E. unfold rounded. rewrite (exponent_comp x y Hx E).
  rewrite (round_half_even_comp (x / pow2 (exponent y)) (y / pow2 (exponent y)));
    [reflexivity | now rewrite E].
Qed.

(** The significand has at most 53 bits. *)
Lemma significand_le (x : Q) :
  0 < x -> (round_half_even (x / pow2 (exponent x)) <= 2 ^ 53)%Z.
Proof.
  intros Hx. rewrite <- (round_half_even_integer (2 ^ 53)).
  apply round_half_even_le.
  apply Qle_shift_div_r; [apply pow2_pos|].
  rewrite <- (pow2_of_Z 53) by lia. rewrite <- pow2_plus.
  apply Qlt_le_weak. apply Qlt_le_trans with (pow2 (ilog2 x + 1)).
  - now apply ilog2_upper.
  - apply pow2_le. unfold exponent. lia.
Qed.

Lemma rounded_le (x y : Q) : 0 < x -> x <= y -> rounded x <= rounded y.
Proof.
  intros Hx Hxy.
  assert (Hy : 0 < y) by (apply Qlt_le_trans with x; assumption).
  pose proof (ilog2_le x y Hx Hxy) as Hl.
  destruct (Z.eq_dec (exponent x) (exponent y)) as [E | Hne].
  - unfold rounded. rewrite E.
    apply Qmult_le_compat_r; [|apply Qlt_le_weak, pow2_pos].
    rewrite <- Zle_Qle. apply round_half_even_le.
    apply Qmult_le_compat_r; [exact Hxy|].
    apply Qlt_le_weak, Qinv_lt_0_compat, pow2_pos.
  - assert (Hc : (exponent x + 1 <= exponent y)%Z) by (unfold exponent in *; lia).
    assert (Ey : (exponent y = ilog2 y - 52)%Z) by (unfold exponent in *; lia).
    apply Qle_trans with (pow2 (53 + exponent x)).
    + unfold rounded. rewrite pow2_plus, (pow2_of_Z 53) by lia.
      apply Qmult_le_compat_r; [|apply Qlt_le_weak, pow2_pos].
      rewrite <- Zle_Qle. now apply significand_le.
    + apply Qle_trans with (pow2 (52 + exponent y)); [apply pow2_le; lia|].
      unfold rounded. rewrite pow2_plus, (pow2_of_Z 52) by lia.
      apply Qmult_le_compat_r; [|apply Qlt_le_weak, pow2_pos].
      rewrite <- Zle_Qle.
      rewrite <- (round_half_even_integer (2 ^ 52)) at 1.
      apply round_half_even_le.
      apply Qle_shift_div_l; [apply pow2_pos|].
      rewrite <- (pow2_of_Z 52) by lia. rewrite <- pow2_plus.
      replace (52 + exponent y)%Z with (ilog2 y) by lia.
      now apply ilog2_lower.
Qed.

(** [round64] on a positive number. *)
Lemma round64_pos (x : Q) :
  0 < x ->
  round64 x = if Qle_bool (pow2 1024) (rounded x) then Inf false
              else Num (Qred (rounded x)).
Proof.
  intros Hx. unfold round64. cbv zeta.
  assert (Hr : Qred x == x) by apply Qred_correct.
  assert (E0 : Qeq_bool (Qred x) 0 = false).
  { destruct (Qeq_bool (Qred x) 0) eqn:E; [|reflexivity].
    apply Qeq_bool_iff in E. rewrite Hr in E. rewrite E in Hx. discriminate. }
  rewrite E0.
  assert (Hb : Qle_bool 0 (Qred x) = true).
  { apply Qle_bool_iff. rewrite Hr. now apply Qlt_le_weak. }
  rewrite Hb. cbn [negb].
  assert (Ha : Qabs (Qred x) == x).
  { rewrite Hr. apply Qabs_pos. now apply Qlt_le_weak. }
  fold (exponent (Qabs (Qred x))). fold (rounded (Qabs (Qred x))).
  assert (Er : rounded (Qabs (Qred x)) == rounded x).
  { apply rounded_comp; [rewrite Ha; exact Hx | exact Ha]. }
  rewrite (Qred_complete _ _ Er).
  destruct (Qle_bool (pow2 1024) (rounded (Qabs (Qred x)))) eqn:E1;
    destruct (Qle_bool (pow2 1024) (rounded x)) eqn:E2; try reflexivity; exfalso.
  - apply Qle_bool_iff in E1. rewrite Er in E1. apply Qle_bool_iff in E1. congruence.
  - apply Qle_bool_iff in E2. rewrite <- Er in E2. apply Qle_bool_iff in E2. congruence.
Qed.

(** Rounding keeps the order of numbers that are not below zero. *)
Lemma round64_le (x y : Q) :
  0 <= x -> x <= y -> num_le (round64 x) (round64 y).
Proof.
  intros Hx Hxy.
  destruct (Qlt_le_dec 0 x) as [Hpos | Hzero].
  - rewrite (round64_pos x Hpos), (round64_pos y (Qlt_le_trans _ _ _ Hpos Hxy)).
    pose proof (rounded_le x y Hpos Hxy) as Hr.
    destruct (Qle_bool (pow2 1024) (rounded x)) eqn:Ex;
      destruct (Qle_bool (pow2 1024) (rounded y)) eqn:Ey; cbn [num_le Bool.le];
      try exact I.
    + exfalso. apply Qle_bool_iff in Ex.
      assert (Hy : Qle_bool (pow2 1024) (rounded y) = true)
        by (apply Qle_bool_iff; apply Qle_trans with (rounded x); assumption).
      congruence.
    + now rewrite !Qred_correct.
  - assert (E : x == 0) by (apply Qle_antisym; assumption).
    rewrite (round64_comp x 0 E). change (round64 0) with (Num 0).
    assert (Hy : 0 <= y) by (apply Qle_trans with x; assumption).
    destruct (round64_nonneg y Hy) as [-> | (r & -> & Hr)]; cbn [num_le];
      [exact I | exact Hr].
Qed.

(** A number with a significand of at most 53 bits and an exponent within
    the range is rounded to itself. *)
Lemma rounded_exact (M C : Z) (r : Q) :
  (1 <= M < 2 ^ 53)%Z -> (-1074 <= C)%Z ->
  r == inject_Z M * pow2 C -> rounded r == r.
Proof.
  intros HM HC Er.
  assert (HM0 : 0 < inject_Z M) by (rewrite <- (Zlt_Qlt 0); lia).
  assert (Hr : 0 < r).
  { rewrite Er. apply Qmult_lt_0_compat; [exact HM0 | apply pow2_pos]. }
  assert (Hlog : (ilog2 r < 53 + C)%Z).
  { apply pow2_lt_inv. apply Qle_lt_trans with r; [now apply ilog2_lower|].
    rewrite Er, pow2_plus, (pow2_of_Z 53) by lia.
    apply Qmult_lt_compat_r; [apply pow2_pos|]. rewrite <- Zlt_Qlt. lia. }
  assert (Hc : (exponent r <= C)%Z) by (unfold exponent; lia).
  set (c := exponent r) in *.
  assert (Ediv : r / pow2 c == inject_Z (M * 2 ^ (C - c))).
  { rewrite Er. replace C with ((C - c) + c)%Z at 1 by lia.
    rewrite pow2_plus, (pow2_of_Z (C - c)) by lia.
    rewrite inject_Z_mult. field.
    intros H0. pose proof (pow2_pos c) as Hp. rewrite H0 in Hp. discriminate. }
  unfold rounded. fold c.
  rewrite (round_half_even_comp _ _ Ediv), round_half_even_integer.
  rewrite Er. replace C with ((C - c) + c)%Z at 2 by lia.
  rewrite pow2_plus, (pow2_of_Z (C - c)) by lia.
  rewrite inject_Z_mult. ring.
Qed.

(** A double is rounded to itself. *)
Lemma round64_idempotent (x r : Q) :
  0 <= x -> round64 x = Num r -> round64 r = Num r.
Proof.
  intros Hx Hround.
  destruct (Qlt_le_dec 0 x) as [Hpos | Hzero].
  2: { assert (E : x == 0) by (apply Qle_antisym; assumption).
       rewrite (round64_comp x 0 E) in Hround.
       change (round64 0) with (Num 0) in Hround. injection Hround as <-.
       reflexivity. }
  rewrite (round64_pos x Hpos) in Hround.
  destruct (Qle_bool (pow2 1024) (rounded x)) eqn:Eover; [discriminate|].
  assert (Hr : Qred (rounded x) = r) by congruence.
  clear Hround.
  assert (Err : r == rounded x) by (rewrite <- Hr; apply Qred_correct).
  set (m := round_half_even (x / pow2 (exponent x))) in *.
  assert (Hm0 : (0 <= m)%Z).
  { apply round_half_even_nonneg. apply Qle_shift_div_l; [apply pow2_pos|].
    rewrite Qmult_0_l. now apply Qlt_le_weak. }
  pose proof (significand_le x Hpos) as Hm53. fold m in Hm53.
  assert (HC : (-1074 <= exponent x)%Z) by (unfold exponent; lia).
  assert (ER : rounded x == inject_Z m * pow2 (exponent x)) by reflexivity.
  destruct (Z.eq_dec m 0) as [Em0 | Hm1].
  { assert (E : rounded x == 0) by (rewrite ER, Em0; ring).
    rewrite <- Hr, (Qred_complete _ _ E). reflexivity. }
  assert (Hexact : rounded r == r).
  { destruct (Z.eq_dec m (2 ^ 53)) as [Etop | Hlow].
    - apply (rounded_exact (2 ^ 52) (exponent x + 1)); [lia | lia|].
      rewrite Err, ER, Etop, pow2_plus.
      change (pow2 1) with 2.
      change (inject_Z (2 ^ 53)) with (inject_Z (2 ^ 52) * 2). ring.
    - apply (rounded_exact m (exponent x)); [lia | lia|].
      now rewrite Err, ER. }
  assert (Hrpos : 0 < r).
  { rewrite Err, ER. apply Qmult_lt_0_compat; [|apply pow2_pos].
    rewrite <- (Zlt_Qlt 0). lia. }
  rewrite (round64_pos r Hrpos).
  assert (E2 : rounded r == rounded x) by (now rewrite Hexact).
  assert (Eover' : Qle_bool (pow2 1024) (rounded r) = false).
  { destruct (Qle_bool (pow2 1024) (rounded r)) eqn:E; [|reflexivity].
    apply Qle_bool_iff in E. rewrite E2 in E. apply Qle_bool_iff in E. congruence. }
  rewrite Eover'. now rewrite (Qred_complete _ _ E2), Hr.
Qed.

Lemma num_add_comp (n : num) (x y : Q) :
  x == y -> num_add n (Num x) = num_add n (Num y).
Proof.
  intros E. destruct n as [|s|q]; try reflexivity.
  cbn [num_add]. apply round64_comp. now rewrite E.
Qed.

Lemma num_add_numbers (x x' y y' : Q) :
  x == x' -> y == y' -> num_add (Num x) (Num y) = num_add (Num x') (Num y').
Proof. intros Ex Ey. cbn [num_add]. apply round64_comp. now rewrite Ex, Ey. Qed.

(** *** Arithmetic of the price *)

Section Pricing.

Variable h : host.

Lemma js_add_numbers (a b : num) : js_add h (JNum a) (JNum b) = JNum (num_add a b).
Proof. reflexivity. Qed.

(** [x || 0] on a price component that is a number or missing. *)
Lemma js_or_amount (v : value) :
  missing_or_number v = true ->
  exists q, js_or v (qnum 0) = JNum (Num q) /\ q == amount v.
Proof.
  destruct v as [| | |[|s|q]| | |]; simpl; try discriminate; intros _.
  - exists (inject_Z 0). split; reflexivity.
  - unfold js_or; simpl. destruct (Qeq_bool q 0) eqn:E; simpl.
    + exists (inject_Z 0). split; [reflexivity|].
      apply Qeq_bool_iff in E. now rewrite E.
    + exists q. split; reflexivity.
Qed.



(** The body of [calculatePrice] once the three reads have succeeded with
    numbers or with nothing: the components are added in double precision,
    a missing one counting as 0, and the sum is rounded at the cent. *)
Lemma calculatePrice_value (config size packaging embroidery table bp sur e : value) :
  get_prop config (js "basePrice") = Normal bp ->
  get_prop config (js "packaging") = Normal table ->
  get_prop table (to_string h packaging) = Normal sur ->
  get_prop config (js "embroidery") = Normal e ->
  missing_or_number bp = true ->
  missing_or_number sur = true ->
  missing_or_number e = true ->
  calculatePrice h config size packaging embroidery
  = Normal (JNum (in_cents (price_sum (amount bp) (amount sur) (amount e)
                              (truthy embroidery)))).
Proof.
  intros Hb Ht Hs He Mb Ms Me.
  destruct (js_or_amount bp Mb) as (qb & Eb & Qb).
  destruct (js_or_amount sur Ms) as (qs & Es & Qs).
  destruct (js_or_amount e Me) as (qe & Ee & Qe).
  unfold calculatePrice. rewrite Hb. cbn [cbind]. rewrite Ht. cbn [cbind].
  rewrite Hs. cbn [cbind].
  rewrite Eb, Es, js_add_numbers, (num_add_numbers qb _ qs _ Qb Qs).
  unfold price_sum.
  destruct (truthy embroidery).
  - rewrite He. cbn [cbind]. rewrite Ee, js_add_numbers.
    now rewrite (num_add_comp _ qe _ Qe).
  - reflexivity.
Qed.



(** C9 (as amended).  For every config whose [packaging] member is present
    (neither [undefined] nor [null]) and every packaging type,
    [calculatePrice] returns a number; a base price, a surcharge of the
    requested packaging type or an embroidery surcharge that is missing
    counts as 0 in the sum. *)
Theorem calculatePrice_total_when_packaging_present
  (config size embroidery table : value) (ptype : jsstring) :
  In ptype validPackageTypes ->
  get_prop config (js "packaging") = Normal table ->
  is_nullish table = false ->
  exists n,
    calculatePrice h config size (JStr ptype) embroidery = Normal (JNum n)
    /\ forall bp sur e,
         get_prop config (js "basePrice") = Normal bp ->
         get_prop table ptype = Normal sur ->
         get_prop config (js "embroidery") = Normal e ->
         missing_or_number bp = true ->
         missing_or_number sur = true ->
         missing_or_number e = true ->
         n = in_cents (price_sum (amount bp) (amount sur) (amount e)
                         (truthy embroidery)).
Proof.
  intros _ Ht Hn.
  assert (Hc : forall k, exists v, get_prop config k = Normal v).
  { intros k. destruct config; simpl in *; try discriminate; eauto. }
  assert (Hs : exists v, get_prop table ptype = Normal v).
  { destruct table; simpl in *; try discriminate; eauto. }
  destruct (Hc (js "basePrice")) as (bp0 & Hb0).
  destruct (Hc (js "embroidery")) as (e0 & He0).
  destruct Hs as (sur0 & Hs0).
  assert (Hex : exists n,
             calculatePrice h config size (JStr ptype) embroidery = Normal (JNum n)).
  { unfold calculatePrice. rewrite Hb0. cbn [cbind]. rewrite Ht. cbn [cbind].
    cbn [to_string]. rewrite Hs0. cbn [cbind].
    destruct (truthy embroidery); [rewrite He0|]; cbn [cbind]; eauto. }
  destruct Hex as (n & Hn').
  exists n. split; [exact Hn'|].
  intros bp sur e Hb Hsur He Mb Ms Me.
  pose proof (calculatePrice_value config size (JStr ptype) embroidery table bp sur e
                Hb Ht Hsur He Mb Ms Me) as Hprice.
  congruence.
Qed.

End Pricing.

(** *** Reading a request body *)

Lemma get_prop_fields (fields : list (jsstring * value)) (k : string) :
  get_prop (JObj fields) (js k) = Normal (field fields k).
Proof. reflexivity. Qed.

Lemma includes_false (l : list jsstring) (v : value) :
  not_one_of l v -> includes l v = false.
Proof.
  intros H. destruct v; simpl; try reflexivity.
  destruct (existsb (str_eqb s) l) eqn:E; [|reflexivity].
  apply existsb_str_eqb in E. exfalso. now apply (H s).
Qed.

(** *** Order validation *)

Lemma validateOrderData_rejects (fields : list (jsstring * value)) :
  missing_or_blank (field fields "customer")
  \/ not_one_of sizes (field fields "size")
  \/ not_one_of validPackageTypes (field fields "packaging") ->
  exists msg, validateOrderData (JObj fields) = Normal (Some msg).
Proof.
  intros H. unfold validateOrderData.
  rewrite !get_prop_fields. cbn [cbind].
  destruct (negb (truthy (field fields "customer"))
            || match field fields "customer" with
               | JStr s => Nat.eqb (List.length (trim s)) 0
               | _ => true
               end) eqn:Ec; [eauto|].
  destruct H as [Hc | H].
  { exfalso. apply orb_false_elim in Ec as [E1 E2].
    destruct Hc as [Hc | (s & Hc & Hs)].
    - destruct (field fields "customer"); try discriminate. now apply (Hc s).
    - rewrite Hc, Hs in E2. discriminate. }
  destruct (negb (truthy (field fields "size"))
            || negb (includes sizes (field fields "size"))) eqn:Es; [eauto|].
  destruct H as [Hs | Hp].
  { exfalso. apply orb_false_elim in Es as [_ E2].
    rewrite (includes_false _ _ Hs) in E2. discriminate. }
  rewrite (includes_false _ _ Hp), orb_true_r. eauto.
Qed.

Section Ledger.

Variable h : host.

(** C2.  A create-order input whose customer name is missing (or not a
    string at all) or blank after trimming, or whose size is not one of M, L, XL, 2XL, or whose packaging
    is not one of basic, branded, box, is refused with a 400 and a
    validation message, and the store (the file and the data in memory) is
    left as it was: no order is added and nothing is written. *)
Theorem invalid_order_is_rejected
  (fields : list (jsstring * value)) (id now1 now2 : jsstring) (st : db) :
  missing_or_blank (field fields "customer")
  \/ not_one_of sizes (field fields "size")
  \/ not_one_of validPackageTypes (field fields "packaging") ->
  exists msg,
    validateOrderData (JObj fields) = Normal (Some msg)
    /\ post_api_orders h (JObj fields) id now1 now2 st
       = (st, {| status := 400; body := error_body msg |}).
Proof.
  intros H. destruct (validateOrderData_rejects fields H) as (msg & Hmsg).
  exists msg. split; [exact Hmsg|].
  unfold post_api_orders, try_catch, bind, lift. rewrite Hmsg. reflexivity.
Qed.

End Ledger.

(** *** Start-up of the store *)

Lemma initializeDbFile_resets (f : file_state) :
  not_a_json_object f -> initializeDbFile f = Normal (Content (Parses defaultData)).
Proof.
  destruct f as [|w|[| |v|v]]; try reflexivity; try contradiction.
  - destruct v; simpl; intros H; try reflexivity. contradiction.
  - destruct v; simpl; intros H; try reflexivity. contradiction.
Qed.

Lemma initDB_resets_to_default_state (f : file_state) :
  not_a_json_object f ->
  initializeDbFile f = Normal (Content (Parses defaultData))
  /\ initDB f = ({| file := Content (Parses defaultData); data := defaultData |},
                 Normal tt).
Proof.
  intros H. pose proof (initializeDbFile_resets f H) as E.
  split; [exact E|].
  unfold initDB. rewrite E. vm_compute. reflexivity.
Qed.

(** A file that the process cannot read stops the start-up: the write of
    [initializeDbFile] raises, or it succeeds and the read of lowdb
    raises. *)
Lemma initDB_unreadable (w : bool) :
  initDB (Unreadable w) = ({| file := Unreadable w; data := defaultData |}, Throw IOError).
Proof. destruct w; reflexivity. Qed.

(** C8 (as amended).  When the file at start-up is missing, blank, or holds
    a text that, trimmed, is not JSON or is JSON for something that is not
    an object (an array and [null] included), [initializeDbFile] replaces
    its content with the default document (basePrice 45; packaging basic 3,
    branded 5, box 7; embroidery 20; no orders; no settings), and [initDB]
    then completes without raising, with the default document in memory
    and on disk. *)
Theorem initDB_resets_to_default (f : file_state) :
  not_a_json_object f ->
  initializeDbFile f = Normal (Content (Parses defaultData))
  /\ initDB f = ({| file := Content (Parses defaultData); data := defaultData |},
                 Normal tt).
Proof.
  intros H. destruct (initDB_resets_to_default_state f H) as (E1 & E2).
  split; [exact E1 | exact E2].
Qed.

(** *** Validation of a config update *)

Lemma num_ltb0_negative (n : num) :
  num_ltb0 n = true <-> negative (JNum n).
Proof.
  unfold negative. destruct n as [|s|q]; simpl.
  - split; [discriminate|]. intros [E | (q & E & _)]; discriminate.
  - split.
    + intros ->. now left.
    + intros [E | (q & E & _)]; [now injection E as -> | discriminate].
  - split.
    + intros H. right. exists q. split; [reflexivity|].
      apply Qnot_le_lt. intros Hle. apply Qle_bool_iff in Hle.
      rewrite Hle in H. discriminate.
    + intros [E | (q' & E & Hlt)]; [discriminate|]. injection E as <-.
      destruct (Qle_bool 0 q) eqn:Hle; [|reflexivity].
      apply Qle_bool_iff in Hle. exfalso. now apply (Qlt_not_le q 0).
Qed.

(** The test both validators of a price share: not a number, or below 0. *)
Lemma not_a_price (v : value) :
  match v with JNum n => num_ltb0 n | _ => true end = true
  <-> (~ numeric v \/ negative v).
Proof.
  destruct v as [| | |n| | |];
    try (split; [intros _; left; intros (n & E); discriminate | reflexivity]).
  rewrite num_ltb0_negative. split.
  - now right.
  - intros [H | H]; [|exact H]. exfalso. apply H. now exists n.
Qed.

Lemma bad_price_invalid (v : value) : bad_price v = true <-> invalid_price v.
Proof.
  unfold bad_price, invalid_price, present.
  rewrite andb_true_iff, not_a_price. split; intros [H1 H2]; split; try exact H2.
  - intros E. subst v. discriminate.
  - destruct v; try reflexivity. now contradiction H1.
Qed.

Lemma bad_entry_invalid (kv : jsstring * value) :
  bad_entry kv = true <-> invalid_entry kv.
Proof.
  unfold bad_entry, invalid_entry.
  rewrite orb_true_iff, not_a_price, negb_true_iff. split.
  - intros [H | H]; [left | right; exact H].
    intros Hin. apply existsb_str_eqb in Hin. congruence.
  - intros [H | H]; [left | right; exact H].
    destruct (existsb (str_eqb (fst kv)) validPackageTypes) eqn:E; [|reflexivity].
    apply existsb_str_eqb in E. contradiction.
Qed.

Lemma own_entries_falsy (v : value) : truthy v = false -> own_entries v = [].
Proof. destruct v as [| | | |[|c s]| |]; simpl; congruence. Qed.

(** The entries the loop of [validateConfigData] runs over. *)
Lemma entries_checked (v : value) :
  (if truthy v then Object_entries v else Normal []) = Normal (own_entries v).
Proof.
  destruct (truthy v) eqn:E.
  - unfold Object_entries. destruct v; simpl in *; try discriminate; reflexivity.
  - now rewrite own_entries_falsy.
Qed.

Lemma validateConfigData_spec (fields : list (jsstring * value)) :
  exists r,
    validateConfigData (JObj fields) = Normal r
    /\ (r <> None <-> invalid_config fields).
Proof.
  unfold validateConfigData, invalid_config.
  rewrite !get_prop_fields. cbn [cbind]. rewrite entries_checked. cbn [cbind].
  destruct (bad_price (field fields "basePrice")) eqn:Eb.
  { eexists. split; [reflexivity|]. split; [|discriminate].
    intros _. left. now apply bad_price_invalid. }
  destruct (existsb bad_entry (own_entries (field fields "packaging"))) eqn:Ep.
  { eexists. split; [reflexivity|]. split; [|discriminate].
    intros _. right. right. apply existsb_exists in Ep as (kv & Hin & Hbad).
    exists kv. split; [exact Hin | now apply bad_entry_invalid]. }
  destruct (bad_price (field fields "embroidery")) eqn:Ee.
  { eexists. split; [reflexivity|]. split; [|discriminate].
    intros _. right. left. now apply bad_price_invalid. }
  eexists. split; [reflexivity|]. split; [congruence|].
  intros [H | [H | (kv & Hin & H)]]; exfalso.
  - apply bad_price_invalid in H. congruence.
  - apply bad_price_invalid in H. congruence.
  - apply bad_entry_invalid in H.
    assert (existsb bad_entry (own_entries (field fields "packaging")) = true)
      by (apply existsb_exists; eauto).
    congruence.
Qed.

(** C5.  The validation of a config update fails exactly when basePrice is
    present and is not numeric or is negative, or embroidery is present and
    is not numeric or is negative, or some packaging entry has a key
    outside basic, branded, box or a value that is not numeric or is
    negative.  When it fails, the update is refused with a 400 and the
    store is left as it was. *)
Theorem invalid_config_is_rejected (fields : list (jsstring * value)) (st : db) :
  (exists r,
     validateConfigData (JObj fields) = Normal r
     /\ (r <> None <-> invalid_config fields))
  /\ (invalid_config fields ->
      exists msg,
        post_api_config_update (JObj fields) st
        = (st, {| status := 400; body := error_body msg |})).
Proof.
  destruct (validateConfigData_spec fields) as (r & Hr & Hiff).
  split; [now exists r|].
  intros Hinv. apply Hiff in Hinv.
  destruct r as [msg|]; [|congruence].
  exists msg. unfold post_api_config_update, try_catch, bind, lift.
  rewrite Hr. reflexivity.
Qed.

(** *** Property lists and JSON text *)

Lemma lookup_assoc_set_same (kvs : list (jsstring * value)) (k : jsstring) (v : value) :
  lookup (assoc_set kvs k v) k = Some v.
Proof.
  induction kvs as [|[k' v'] rest IH]; simpl.
  - now rewrite str_eqb_refl.
  - destruct (str_eqb k' k) eqn:E; simpl.
    + now rewrite str_eqb_refl.
    + now rewrite E.
Qed.

Lemma lookup_assoc_set_other (kvs : list (jsstring * value)) (k k' : jsstring) (v : value) :
  k <> k' -> lookup (assoc_set kvs k v) k' = lookup kvs k'.
Proof.
  intros Hne. induction kvs as [|[k0 v0] rest IH]; simpl.
  - apply str_eqb_neq in Hne. now rewrite Hne.
  - destruct (str_eqb k0 k) eqn:E; simpl.
    + apply str_eqb_eq in E. subst k0.
      apply str_eqb_neq in Hne. now rewrite Hne.
    + now rewrite IH.
Qed.

Lemma jsonify_obj (kvs : list (jsstring * value)) :
  jsonify (JObj kvs) = JObj (jsonify_props kvs).
Proof. reflexivity. Qed.

Lemma jsonify_props_cons (k : jsstring) (v : value) (rest : list (jsstring * value)) :
  jsonify_props ((k, v) :: rest)
  = match v with
    | JUndef => jsonify_props rest
    | _ => (k, jsonify v) :: jsonify_props rest
    end.
Proof. destruct v; reflexivity. Qed.

Lemma jsonify_defined (v : value) : jsonify v <> JUndef.
Proof. destruct v as [| | |[|s|q]| | |]; discriminate. Qed.

(** A property that holds a value survives the round trip. *)
Lemma lookup_jsonify_props (kvs : list (jsstring * value)) (k : jsstring) (v : value) :
  lookup kvs k = Some v -> v <> JUndef ->
  lookup (jsonify_props kvs) k = Some (jsonify v).
Proof.
  intros Hl Hv. induction kvs as [|[k0 v0] rest IH]; [discriminate|].
  rewrite jsonify_props_cons. simpl in Hl.
  destruct (str_eqb k0 k) eqn:E.
  - injection Hl as ->. destruct v; try contradiction; simpl; now rewrite E.
  - destruct v0; simpl; rewrite ?E; auto.
Qed.

Lemma get_prop_jsonify (kvs : list (jsstring * value)) (k : jsstring) (v : value) :
  lookup kvs k = Some v -> v <> JUndef ->
  get_prop (jsonify (JObj kvs)) k = Normal (jsonify v).
Proof.
  intros Hl Hv. rewrite jsonify_obj. simpl.
  now rewrite (lookup_jsonify_props kvs k v Hl Hv).
Qed.

(** *** Creating an order *)

Section Creation.

Variable h : host.

(** C10.  Whenever an order is created (the answer is a 201), the
    [embroidery] field of the order, as answered and as stored in
    [db.json], is the boolean [!!embroidery] of the input: [true] or
    [false], and [false] when the input has no [embroidery]. *)
Theorem created_order_embroidery_is_boolean
  (req order : value) (id now1 now2 : jsstring) (st st' : db) :
  post_api_orders h req id now1 now2 st = (st', {| status := 201; body := order |}) ->
  exists e,
    get_prop req (js "embroidery") = Normal e
    /\ get_prop order (js "embroidery") = Normal (JBool (truthy e))
    /\ (e = JUndef -> get_prop order (js "embroidery") = Normal (JBool false))
    /\ exists previous,
         persisted_orders st' = Normal (JArr (previous ++ [jsonify order]))
         /\ get_prop (jsonify order) (js "embroidery") = Normal (JBool (truthy e)).
Proof.
  intros H.
  unfold post_api_orders, try_catch, bind, lift, ret in H.
  destruct (validateOrderData req) as [[msg|]|err] eqn:Hv; try answer_differs.
  destruct (get_prop req (js "customer")) as [customer|] eqn:Hc; try answer_differs.
  destruct (get_prop req (js "size")) as [size|] eqn:Hs; try answer_differs.
  destruct (get_prop req (js "packaging")) as [packaging|] eqn:Hp; try answer_differs.
  destruct (get_prop req (js "embroidery")) as [e|] eqn:He; try answer_differs.
  destruct (db_read st) as [st1 [[]|err]] eqn:Hr; try answer_differs.
  unfold get_data in H.
  destruct (get_prop (data st1) (js "config")) as [config|] eqn:Hcfg; try answer_differs.
  destruct (calculatePrice h config size packaging e) as [price|] eqn:Hprice;
    try answer_differs.
  destruct (String_trim customer) as [trimmed|] eqn:Ht; try answer_differs.
  unfold update_field, bind, lift, get_data, set_data in H.
  destruct (get_prop (data st1) (js "orders")) as [orders|] eqn:Ho; try answer_differs.
  destruct orders as [| | | | |os|]; cbn [Array_push] in H; try answer_differs.
  destruct (data st1) as [| | | | | |dkvs] eqn:Hd; try discriminate Ho.
  cbn [set_prop data file] in H. unfold db_write in H. cbn [data file truthy] in H.
  injection H as <- <-.
  exists e. split; [reflexivity|]. split; [reflexivity|].
  split; [intros ->; reflexivity|].
  exists (map jsonify os). split.
  - unfold persisted_orders. cbn [file Writer_write fs_readFileSync cbind
                                   JSON_stringify JSON_parse].
    rewrite (get_prop_jsonify _ (js "orders") (JArr (os ++ [_]))
               (lookup_assoc_set_same _ _ _)); [|discriminate].
    cbn [jsonify]. now rewrite map_app.
  - apply (get_prop_jsonify _ _ (JBool (truthy e))); [reflexivity | discriminate].
Qed.

End Creation.

(** *** Deleting an order *)

Section Deletion.

Variable id : jsstring.

(** The callback of [findIndex] in the DELETE handler. *)
Let same_id (order : value) : completion bool :=
  (oid <- get_prop order (js "id") ;; Normal (strict_eq_str oid id))%completion.

Lemma same_id_has_id (o : value) :
  is_nullish o = false -> same_id o = Normal (has_id id o).
Proof.
  unfold same_id, has_id. destruct o; simpl; try discriminate; reflexivity.
Qed.

Lemma findIndex_no_match (os : list value) :
  Forall (fun o => is_nullish o = false) os ->
  Forall (fun o => has_id id o = false) os ->
  findIndex same_id os = Normal None.
Proof.
  induction os as [|o os IH]; intros Hn Hi; [reflexivity|].
  inversion Hn as [|? ? Hn1 Hn2]; inversion Hi as [|? ? Hi1 Hi2]; subst.
  cbn [findIndex]. rewrite (same_id_has_id o Hn1), Hi1. cbn [cbind].
  now rewrite (IH Hn2 Hi2).
Qed.

Lemma findIndex_first_match (before after : list value) (o : value) :
  Forall (fun o => is_nullish o = false) (before ++ o :: after) ->
  Forall (fun o => has_id id o = false) before ->
  has_id id o = true ->
  findIndex same_id (before ++ o :: after) = Normal (Some (List.length before)).
Proof.
  induction before as [|b before IH]; intros Hn Hi Ho.
  - inversion Hn as [|? ? Hn1 _]; subst.
    cbn [app findIndex]. now rewrite (same_id_has_id o Hn1), Ho.
  - inversion Hn as [|? ? Hn1 Hn2]; inversion Hi as [|? ? Hi1 Hi2]; subst.
    cbn [app findIndex]. rewrite (same_id_has_id b Hn1), Hi1. cbn [cbind].
    now rewrite (IH Hn2 Hi2 Ho).
Qed.

Lemma remove_at_middle (before after : list value) (o : value) :
  remove_at (List.length before) (before ++ o :: after) = before ++ after.
Proof.
  unfold remove_at. induction before as [|b before IH]; [reflexivity|].
  cbn [List.length app firstn skipn]. cbn [skipn] in IH. now rewrite IH.
Qed.

(** Every order list either has no order with the ID or splits at the
    first one that has it. *)
Lemma first_match_or_none (os : list value) :
  Forall (fun o => has_id id o = false) os
  \/ exists before o after,
       os = before ++ o :: after
       /\ Forall (fun o => has_id id o = false) before
       /\ has_id id o = true.
Proof.
  induction os as [|o os IH]; [left; constructor|].
  destruct (has_id id o) eqn:E.
  - right. exists [], o, os. repeat split; [constructor | exact E].
  - destruct IH as [IH | (before & o' & after & -> & Hb & Ho)].
    + left. now constructor.
    + right. exists (o :: before), o', after. repeat split; [now constructor | exact Ho].
Qed.

(** C3.  On a document whose order list is [os] and for an order ID (a
    non-empty string): when no order has the ID, DELETE answers 404 and the
    order list stays as it is, on disk and in memory; when some order has
    it, exactly the first such order is removed, the result is written to
    [db.json], and the removed order is returned.  One of the two cases
    always applies. *)
Theorem delete_removes_the_first_match
  (st : db) (doc : list (jsstring * value)) (os : list value) :
  id <> [] ->
  file st = Content (Parses (JObj doc)) ->
  lookup doc (js "orders") = Some (JArr os) ->
  Forall (fun o => is_nullish o = false) os ->
  (Forall (fun o => has_id id o = false) os ->
   delete_api_orders id st
   = ({| file := file st; data := JObj doc |},
      {| status := 404; body := error_body "Order not found" |}))
  /\ (forall before o after,
        os = before ++ o :: after ->
        Forall (fun o => has_id id o = false) before ->
        has_id id o = true ->
        let doc' := JObj (assoc_set doc (js "orders") (JArr (before ++ after))) in
        let st' := {| file := Content (JSON_stringify doc'); data := doc' |} in
        delete_api_orders id st = (st', {| status := 200; body := deleted_body o |})
        /\ persisted_orders st' = Normal (JArr (map jsonify (before ++ after)))
        /\ S (List.length (before ++ after)) = List.length os)
  /\ (Forall (fun o => has_id id o = false) os
      \/ exists before o after,
           os = before ++ o :: after
           /\ Forall (fun o => has_id id o = false) before
           /\ has_id id o = true).
Proof.
  intros Hid Hfile Horders Hn.
  destruct st as [f d]. cbn [file] in Hfile. subst f.
  assert (Hstart :
            delete_api_orders id {| file := Content (Parses (JObj doc)); data := d |}
            = try_catch
                (orderIndex <- lift (findIndex same_id os) ;;
                 match orderIndex with
                 | None => ret {| status := 404; body := error_body "Order not found" |}
                 | Some i =>
                     update_field "orders" (fun _ => Normal (JArr (remove_at i os))) ;;;
                     db_write ;;;
                     ret {| status := 200; body := deleted_body (nth i os JUndef) |}
                 end)%M
                {| status := 500; body := error_body "Failed to delete order" |}
                {| file := Content (Parses (JObj doc)); data := JObj doc |}).
  { unfold delete_api_orders, try_catch, bind, db_read, get_data, lift.
    destruct id as [|c s]; [contradiction|].
    cbn [truthy negb file JSON_parse data get_prop]. rewrite Horders. reflexivity. }
  split; [|split].
  - intros Hnone. rewrite Hstart.
    unfold try_catch, bind, lift. now rewrite (findIndex_no_match os Hn Hnone).
  - intros before o after -> Hbefore Ho doc' st'.
    split; [|split].
    + rewrite Hstart. unfold try_catch, bind, lift.
      rewrite (findIndex_first_match before after o Hn Hbefore Ho).
      rewrite remove_at_middle, nth_middle.
      unfold update_field, bind, lift, get_data, set_data, db_write, ret.
      cbn [data file get_prop cbind set_prop truthy]. reflexivity.
    + unfold persisted_orders, st', doc'.
      cbn [file fs_readFileSync cbind JSON_stringify JSON_parse].
      now rewrite (get_prop_jsonify _ (js "orders") (JArr (before ++ after))
                     (lookup_assoc_set_same _ _ _)); [|discriminate].
    + rewrite !length_app. cbn [List.length]. lia.
  - apply first_match_or_none.
Qed.

End Deletion.

(** *** Updating the config *)

Lemma lookup_not_in (kvs : list (jsstring * value)) (k : jsstring) :
  ~ In k (map fst kvs) -> lookup kvs k = None.
Proof.
  induction kvs as [|[k0 v0] rest IH]; simpl; intros H; [reflexivity|].
  destruct (str_eqb k0 k) eqn:E.
  - apply str_eqb_eq in E. exfalso. apply H. now left.
  - apply IH. intros Hin. apply H. now right.
Qed.

Lemma assoc_set_twice (kvs : list (jsstring * value)) (k : jsstring) (v w : value) :
  assoc_set (assoc_set kvs k v) k w = assoc_set kvs k w.
Proof.
  induction kvs as [|[k0 v0] rest IH]; simpl.
  - now rewrite str_eqb_refl.
  - destruct (str_eqb k0 k) eqn:E; simpl.
    + now rewrite str_eqb_refl.
    + now rewrite E, IH.
Qed.

Lemma assoc_set_same_value (kvs : list (jsstring * value)) (k : jsstring) (v : value) :
  lookup kvs k = Some v -> assoc_set kvs k v = kvs.
Proof.
  induction kvs as [|[k0 v0] rest IH]; simpl; [discriminate|].
  destruct (str_eqb k0 k) eqn:E.
  - intros H. injection H as ->. apply str_eqb_eq in E. now subst.
  - intros H. now rewrite IH.
Qed.

(** Assigning the entries of a value over a property list, as the spread
    does: a key of the source takes the source's value, any other key
    keeps the value it had. *)
Lemma lookup_fold_assoc_set
  (entries target : list (jsstring * value)) (k : jsstring) :
  NoDup (map fst entries) ->
  lookup (fold_left (fun acc kv => assoc_set acc (fst kv) (snd kv)) entries target) k
  = match lookup entries k with
    | Some v => Some v
    | None => lookup target k
    end.
Proof.
  revert target. induction entries as [|[k0 v0] rest IH]; intros target Hnd;
    [reflexivity|].
  inversion Hnd as [|? ? Hnotin Hnd']; subst.
  cbn [fold_left fst snd]. rewrite (IH _ Hnd'). cbn [lookup].
  destruct (str_eqb k0 k) eqn:E.
  - apply str_eqb_eq in E. subst k0.
    rewrite (lookup_not_in rest k Hnotin). apply lookup_assoc_set_same.
  - destruct (lookup rest k); [reflexivity|].
    apply lookup_assoc_set_other. now apply str_eqb_neq.
Qed.

(** [{ ...old, ...new }], key by key. *)
Lemma lookup_spread (old new : value) (k : jsstring) :
  NoDup (map fst (own_entries old)) ->
  NoDup (map fst (own_entries new)) ->
  lookup (spread (spread [] old) new) k
  = match lookup (own_entries new) k with
    | Some v => Some v
    | None => lookup (own_entries old) k
    end.
Proof.
  intros Ho Hn. unfold spread.
  rewrite (lookup_fold_assoc_set _ _ k Hn), (lookup_fold_assoc_set _ _ k Ho).
  destruct (lookup (own_entries new) k); [reflexivity|].
  now destruct (lookup (own_entries old) k).
Qed.

Lemma bind_run {A B} (m : M A) (k : A -> M B) (s : db) :
  bind m k s
  = match m s with
    | (s', Normal a) => k a s'
    | (s', Throw e) => (s', Throw e)
    end.
Proof. reflexivity. Qed.

(** An assignment to a member of [db.data.config], the config being an
    object. *)
Lemma update_config_object
  (k : string) (f : value -> completion value) (new : value)
  (fs : file_state) (doc cfg : list (jsstring * value)) :
  lookup doc (js "config") = Some (JObj cfg) ->
  f (JObj cfg) = Normal new ->
  update_config k f {| file := fs; data := JObj doc |}
  = ({| file := fs;
        data := JObj (assoc_set doc (js "config") (JObj (assoc_set cfg (js k) new))) |},
     Normal tt).
Proof.
  intros Hc Hf.
  unfold update_config, update_field, bind, lift, get_data, set_data.
  cbn [data file get_prop]. rewrite Hc, Hf. reflexivity.
Qed.

(** The same under the test that guards it in the handler. *)
Lemma guarded_update_config
  (guard : bool) (k : string) (f : value -> completion value) (new : value)
  (fs : file_state) (doc cfg : list (jsstring * value)) :
  f (JObj cfg) = Normal new ->
  (if guard then update_config k f else ret tt)
    {| file := fs; data := JObj (assoc_set doc (js "config") (JObj cfg)) |}
  = ({| file := fs;
        data := JObj (assoc_set doc (js "config")
                        (JObj (if guard then assoc_set cfg (js k) new else cfg))) |},
     Normal tt).
Proof.
  intros Hf. destruct guard; [|reflexivity].
  rewrite (update_config_object k f new fs _ cfg (lookup_assoc_set_same _ _ _) Hf).
  now rewrite assoc_set_twice.
Qed.

Lemma post_api_config_update_accepts
  (fs : file_state) (d : value) (doc cfg partial : list (jsstring * value)) :
  fs = Content (Parses (JObj doc)) ->
  lookup doc (js "config") = Some (JObj cfg) ->
  validateConfigData (JObj partial) = Normal None ->
  let doc' := JObj (assoc_set doc (js "config") (JObj (updated_config cfg partial))) in
  post_api_config_update (JObj partial) {| file := fs; data := d |}
  = ({| file := Content (JSON_stringify doc'); data := doc' |},
     {| status := 200; body := JObj (updated_config cfg partial) |}).
Proof.
  intros -> Hc Hv doc'.
  unfold post_api_config_update, try_catch.
  rewrite bind_run. unfold lift at 1. rewrite Hv.
  rewrite !get_prop_fields.
  do 3 (rewrite bind_run; unfold lift at 1).
  rewrite bind_run. unfold db_read at 1. cbn [file JSON_parse truthy].
  replace {| file := Content (Parses (JObj doc)); data := JObj doc |}
    with {| file := Content (Parses (JObj doc));
            data := JObj (assoc_set doc (js "config") (JObj cfg)) |}
    by (now rewrite (assoc_set_same_value doc (js "config") (JObj cfg) Hc)).
  rewrite bind_run.
  rewrite (guarded_update_config _ "basePrice" _ (field partial "basePrice"));
    [|reflexivity].
  match goal with
  | |- context [JObj (assoc_set doc (js "config") (JObj ?c))] => set (c1 := c)
  end.
  rewrite bind_run.
  rewrite (guarded_update_config _ "packaging" _
             (JObj (spread (spread [] (field c1 "packaging"))
                      (field partial "packaging"))));
    [|reflexivity].
  match goal with
  | |- context [JObj (assoc_set doc (js "config") (JObj ?c))] => set (c2 := c)
  end.
  rewrite bind_run.
  rewrite (guarded_update_config _ "embroidery" _ (field partial "embroidery"));
    [|reflexivity].
  unfold bind, db_write, get_data, lift, ret.
  cbn [data file truthy get_prop Writer_write].
  rewrite lookup_assoc_set_same. reflexivity.
Qed.

Lemma field_assoc_set_same (c : list (jsstring * value)) (k : string) (v : value) :
  field (assoc_set c (js k) v) k = v.
Proof. unfold field. now rewrite lookup_assoc_set_same. Qed.

Lemma field_assoc_set_other (c : list (jsstring * value)) (k k' : string) (v : value) :
  str_eqb (js k) (js k') = false ->
  field (assoc_set c (js k) v) k' = field c k'.
Proof.
  intros H. unfold field. rewrite lookup_assoc_set_other; [reflexivity|].
  now apply str_eqb_neq.
Qed.

(** The members of the config after the update, one by one. *)
Lemma updated_config_members (cfg partial : list (jsstring * value)) :
  NoDup (map fst (own_entries (field cfg "packaging"))) ->
  NoDup (map fst (own_entries (field partial "packaging"))) ->
  let cfg' := updated_config cfg partial in
  field cfg' "basePrice"
  = (if is_undefined (field partial "basePrice")
     then field cfg "basePrice" else field partial "basePrice")
  /\ field cfg' "embroidery"
     = (if is_undefined (field partial "embroidery")
        then field cfg "embroidery" else field partial "embroidery")
  /\ (truthy (field partial "packaging") = false ->
      field cfg' "packaging" = field cfg "packaging")
  /\ (truthy (field partial "packaging") = true ->
      exists merged,
        field cfg' "packaging" = JObj merged
        /\ forall k,
             lookup merged k
             = match lookup (own_entries (field partial "packaging")) k with
               | Some v => Some v
               | None => lookup (own_entries (field cfg "packaging")) k
               end)
  /\ (forall k,
        k <> js "basePrice" -> k <> js "packaging" -> k <> js "embroidery" ->
        lookup cfg' k = lookup cfg k).
Proof.
  intros Hold Hnew cfg'. unfold cfg', updated_config.
  set (basePrice := field partial "basePrice").
  set (packaging := field partial "packaging") in *.
  set (embroidery := field partial "embroidery").
  set (c1 := if negb (is_undefined basePrice)
             then assoc_set cfg (js "basePrice") basePrice else cfg).
  assert (Hp1 : field c1 "packaging" = field cfg "packaging").
  { unfold c1. destruct (negb (is_undefined basePrice)); [|reflexivity].
    now apply field_assoc_set_other. }
  set (c2 := if truthy packaging
             then assoc_set c1 (js "packaging")
                    (JObj (spread (spread [] (field c1 "packaging")) packaging))
             else c1).
  split; [|split; [|split; [|split]]].
  - destruct (is_undefined embroidery); cbn [negb];
      rewrite ?field_assoc_set_other by reflexivity;
      unfold c2; destruct (truthy packaging);
      rewrite ?field_assoc_set_other by reflexivity;
      unfold c1; destruct (is_undefined basePrice); cbn [negb];
      rewrite ?field_assoc_set_same; reflexivity.
  - destruct (is_undefined embroidery); cbn [negb];
      rewrite ?field_assoc_set_same; [|reflexivity].
    unfold c2; destruct (truthy packaging);
      rewrite ?field_assoc_set_other by reflexivity;
      unfold c1; destruct (is_undefined basePrice); cbn [negb];
      rewrite ?field_assoc_set_other by reflexivity; reflexivity.
  - intros Hfalsy.
    destruct (negb (is_undefined embroidery));
      rewrite ?field_assoc_set_other by reflexivity;
      unfold c2; rewrite Hfalsy; exact Hp1.
  - intros Htruthy.
    exists (spread (spread [] (field cfg "packaging")) packaging). split.
    + destruct (negb (is_undefined embroidery));
        rewrite ?field_assoc_set_other by reflexivity;
        unfold c2; rewrite Htruthy, field_assoc_set_same, Hp1; reflexivity.
    + intros k. now apply lookup_spread.
  - intros k Hb Hp He.
    assert (H1 : lookup c1 k = lookup cfg k).
    { unfold c1. destruct (negb (is_undefined basePrice)); [|reflexivity].
      apply lookup_assoc_set_other. congruence. }
    assert (H2 : lookup c2 k = lookup cfg k).
    { unfold c2. destruct (truthy packaging); [|exact H1].
      rewrite lookup_assoc_set_other; [exact H1 | congruence]. }
    destruct (negb (is_undefined embroidery)); [|exact H2].
    rewrite lookup_assoc_set_other; [exact H2 | congruence].
Qed.

(** C4.  On a stored config that is an object, a valid partial update
    replaces basePrice and embroidery when the partial has them and keeps
    them otherwise; it merges packaging key by key: a key of the partial's
    packaging takes the partial's value, every other key keeps the value
    it had.  Other members of the config are not touched.  The result is
    written to [db.json] and answered. *)
Theorem config_update_merges
  (st : db) (doc cfg partial : list (jsstring * value)) :
  file st = Content (Parses (JObj doc)) ->
  lookup doc (js "config") = Some (JObj cfg) ->
  validateConfigData (JObj partial) = Normal None ->
  NoDup (map fst (own_entries (field cfg "packaging"))) ->
  NoDup (map fst (own_entries (field partial "packaging"))) ->
  exists cfg',
    let doc' := JObj (assoc_set doc (js "config") (JObj cfg')) in
    post_api_config_update (JObj partial) st
    = ({| file := Content (JSON_stringify doc'); data := doc' |},
       {| status := 200; body := JObj cfg' |})
    /\ field cfg' "basePrice"
       = (if is_undefined (field partial "basePrice")
          then field cfg "basePrice" else field partial "basePrice")
    /\ field cfg' "embroidery"
       = (if is_undefined (field partial "embroidery")
          then field cfg "embroidery" else field partial "embroidery")
    /\ (truthy (field partial "packaging") = false ->
        field cfg' "packaging" = field cfg "packaging")
    /\ (truthy (field partial "packaging") = true ->
        exists merged,
          field cfg' "packaging" = JObj merged
          /\ forall k,
               lookup merged k
               = match lookup (own_entries (field partial "packaging")) k with
                 | Some v => Some v
                 | None => lookup (own_entries (field cfg "packaging")) k
                 end)
    /\ (forall k,
          k <> js "basePrice" -> k <> js "packaging" -> k <> js "embroidery" ->
          lookup cfg' k = lookup cfg k).
Proof.
  intros Hfile Hc Hv Hold Hnew.
  destruct st as [fs d]. cbn [file] in Hfile.
  exists (updated_config cfg partial).
  split; [exact (post_api_config_update_accepts fs d doc cfg partial Hfile Hc Hv)|].
  exact (updated_config_members cfg partial Hold Hnew).
Qed.

(** *** The packaging mapping after start-up and after an update *)

Lemma update_field_object
  (k : string) (f : value -> completion value) (new : value)
  (fs : file_state) (doc : list (jsstring * value)) :
  f (field doc k) = Normal new ->
  update_field k f {| file := fs; data := JObj doc |}
  = ({| file := fs; data := JObj (assoc_set doc (js k) new) |}, Normal tt).
Proof.
  intros Hf. unfold update_field, bind, lift, get_data, set_data.
  cbn [data file get_prop]. fold (field doc k). rewrite Hf. reflexivity.
Qed.

(** A round trip through JSON text keeps the truthiness of every value but
    an infinite number, which is written as [null]. *)
Lemma truthy_jsonify (v : value) : ~ infinite v -> truthy (jsonify v) = truthy v.
Proof.
  destruct v as [| | |[|s|q]| | |]; try reflexivity.
  intros H. exfalso. apply H. now exists s.
Qed.

Lemma truthy_defined (v : value) : truthy v = true -> v <> JUndef.
Proof. intros H E. subst v. discriminate. Qed.

(** [initializeDbFile] leaves a JSON object in a file that can be loaded:
    the one that was there, or the default document. *)
Lemma initializeDbFile_object (f : file_state) :
  loadable f ->
  exists doc,
    initializeDbFile f = Normal (Content (Parses (JObj doc)))
    /\ (f = Content (Parses (JObj doc)) \/ not_a_json_object f).
Proof.
  destruct f as [|w|[| |v|v]]; intros Hl;
    try (eexists; split; [reflexivity | right; exact I]).
  - contradiction.
  - destruct v; try (eexists; split; [reflexivity | right; exact I]).
    exists kvs. split; [reflexivity | now left].
  - destruct v; try (eexists; split; [reflexivity | right; exact I]).
    contradiction.
Qed.

Lemma initDB_completes (f : file_state) (doc : list (jsstring * value)) :
  initializeDbFile f = Normal (Content (Parses (JObj doc))) ->
  exists doc',
    initDB f = ({| file := Content (JSON_stringify (JObj doc')); data := JObj doc' |},
                Normal tt)
    /\ lookup doc' (js "config") = Some (JObj (completed_config (field doc "config"))).
Proof.
  intros Hf. unfold initDB. rewrite Hf.
  rewrite bind_run. unfold db_read at 1. cbn [file JSON_parse truthy].
  rewrite bind_run. unfold get_data at 1. cbn [data].
  rewrite bind_run. unfold set_data at 1. cbn [file js_or truthy].
  rewrite bind_run.
  erewrite update_field_object by reflexivity.
  set (d1 := assoc_set doc (js "orders") _).
  rewrite bind_run.
  erewrite update_field_object by reflexivity.
  set (merged := spread (spread [] default_config) (js_or (field d1 "config") (JObj []))).
  set (d2 := assoc_set d1 (js "config") _).
  rewrite bind_run.
  erewrite update_field_object by reflexivity.
  set (d3 := assoc_set d2 (js "settings") _).
  assert (H3 : field d3 "config" = JObj merged).
  { unfold d3, field. rewrite lookup_assoc_set_other by (apply str_eqb_neq; reflexivity).
    unfold d2. now rewrite lookup_assoc_set_same. }
  assert (H1 : field d1 "config" = field doc "config").
  { unfold d1. now apply field_assoc_set_other. }
  rewrite bind_run.
  rewrite (update_field_object "config" _
             (JObj (if negb (truthy (field merged "packaging"))
                    then assoc_set merged (js "packaging") default_packaging
                    else merged)) _ d3).
  2: { rewrite H3. cbn [get_prop cbind]. fold (field merged "packaging").
       now destruct (negb (truthy (field merged "packaging"))). }
  unfold db_write. cbn [data file truthy Writer_write].
  eexists. split; [reflexivity|].
  rewrite lookup_assoc_set_same. unfold completed_config, merged. now rewrite H1.
Qed.

(** What GET /api/config shows of a stored config that is not [null]. *)
Lemma visible_packaging_of_file
  (fs : file_state) (d c : value) (doc : list (jsstring * value)) :
  fs = Content (Parses (JObj doc)) ->
  lookup doc (js "config") = Some c ->
  is_nullish c = false ->
  visible_packaging {| file := fs; data := d |} = get_prop c (js "packaging").
Proof.
  intros -> Hc Hn.
  unfold visible_packaging, get_api_config, try_catch, bind, db_read, get_data, lift, ret.
  cbn [file JSON_parse truthy data get_prop]. rewrite Hc.
  destruct c; try discriminate; reflexivity.
Qed.

(** The packaging that is visible once [initDB] has run. *)
Lemma visible_packaging_after_initDB (f : file_state) (doc : list (jsstring * value)) :
  initializeDbFile f = Normal (Content (Parses (JObj doc))) ->
  let cfg := completed_config (field doc "config") in
  truthy (field cfg "packaging") = true
  /\ snd (initDB f) = Normal tt
  /\ visible_packaging (fst (initDB f)) = Normal (jsonify (field cfg "packaging")).
Proof.
  intros Hf cfg.
  assert (Ht : truthy (field cfg "packaging") = true).
  { unfold cfg, completed_config.
    destruct (truthy (field (spread (spread [] default_config)
                               (js_or (field doc "config") (JObj []))) "packaging"))
      eqn:E; cbn [negb].
    - exact E.
    - now rewrite field_assoc_set_same. }
  destruct (initDB_completes f doc Hf) as (doc' & Hinit & Hcfg).
  rewrite Hinit. cbn [fst snd]. repeat split; [exact Ht|].
  rewrite (visible_packaging_of_file _ _ (jsonify (JObj cfg)) (jsonify_props doc') eq_refl).
  - apply get_prop_jsonify; [|now apply truthy_defined].
    unfold field in Ht |- *. destruct (lookup cfg (js "packaging")); [reflexivity|discriminate].
  - apply (lookup_jsonify_props doc' _ (JObj cfg) Hcfg). discriminate.
  - reflexivity.
Qed.

Lemma default_packaging_fully_populated : fully_populated default_packaging.
Proof.
  intros k Hk. unfold has_key.
  destruct Hk as [<- | [<- | [<- | []]]]; eexists; (split; [reflexivity | discriminate]).
Qed.

(** The packaging [initDB] settles on when the persisted config is missing
    or falsy. *)
Lemma completed_config_of_nothing (c : value) :
  truthy c = false -> field (completed_config c) "packaging" = default_packaging.
Proof.
  intros Hc. unfold completed_config, js_or. rewrite Hc. reflexivity.
Qed.

(** ... and when it is an object: its own packaging if that is truthy, the
    default one if not. *)
Lemma completed_config_of_object (cfg : list (jsstring * value)) :
  NoDup (map fst cfg) ->
  field (completed_config (JObj cfg)) "packaging"
  = (if truthy (field cfg "packaging") then field cfg "packaging"
     else default_packaging).
Proof.
  intros Hnd. unfold completed_config. cbn [js_or truthy].
  set (merged := spread (spread [] default_config) (JObj cfg)).
  assert (Hm : field merged "packaging"
               = match lookup cfg (js "packaging") with
                 | Some v => v
                 | None => default_packaging
                 end).
  { unfold field, merged. rewrite lookup_spread.
    - cbn [own_entries]. now destruct (lookup cfg (js "packaging")).
    - cbn. repeat constructor; cbn; intuition discriminate.
    - exact Hnd. }
  set (pm := field merged "packaging") in *.
  assert (L : field (if negb (truthy pm)
                     then assoc_set merged (js "packaging") default_packaging
                     else merged) "packaging"
              = (if truthy pm then pm else default_packaging)).
  { destruct (truthy pm) eqn:E; cbn [negb]; [reflexivity | apply field_assoc_set_same]. }
  rewrite L, Hm. unfold field.
  destruct (lookup cfg (js "packaging")) as [v|]; [|reflexivity].
  now destruct (truthy v).
Qed.

Lemma has_key_object (pk : list (jsstring * value)) (k : jsstring) :
  has_key (JObj pk) k <-> exists v, lookup pk k = Some v /\ v <> JUndef.
Proof. reflexivity. Qed.

Lemma has_key_jsonify (pk : list (jsstring * value)) (k : jsstring) :
  has_key (JObj pk) k -> has_key (jsonify (JObj pk)) k.
Proof.
  rewrite jsonify_obj, !has_key_object. intros (v & E & Hv).
  exists (jsonify v). split; [now apply lookup_jsonify_props | apply jsonify_defined].
Qed.

Lemma lookup_In (kvs : list (jsstring * value)) (k : jsstring) (v : value) :
  lookup kvs k = Some v -> exists k', In (k', v) kvs.
Proof.
  induction kvs as [|[k0 v0] rest IH]; simpl; [discriminate|].
  destruct (str_eqb k0 k).
  - intros E. injection E as ->. exists k0. now left.
  - intros E. destruct (IH E) as (k' & Hin). exists k'. now right.
Qed.

(** A packaging entry of an accepted update holds a number. *)
Lemma accepted_entries_defined (partial : list (jsstring * value)) (k : jsstring) (v : value) :
  validateConfigData (JObj partial) = Normal None ->
  lookup (own_entries (field partial "packaging")) k = Some v ->
  v <> JUndef.
Proof.
  unfold validateConfigData. rewrite !get_prop_fields. cbn [cbind].
  rewrite entries_checked. cbn [cbind].
  destruct (bad_price (field partial "basePrice")); [discriminate|].
  destruct (existsb bad_entry (own_entries (field partial "packaging"))) eqn:E;
    [discriminate|].
  intros _ Hl. destruct (lookup_In _ _ _ Hl) as (k' & Hin).
  assert (Hb : bad_entry (k', v) = false).
  { destruct (bad_entry (k', v)) eqn:Hb; [|reflexivity].
    assert (existsb bad_entry (own_entries (field partial "packaging")) = true)
      by (apply existsb_exists; eauto).
    congruence. }
  intros ->. unfold bad_entry in Hb. cbn [snd] in Hb.
  now rewrite orb_true_r in Hb.
Qed.

(** The packaging that is visible once an update has been accepted. *)
Lemma visible_packaging_after_update
  (st : db) (doc cfg partial : list (jsstring * value)) (p : value) :
  file st = Content (Parses (JObj doc)) ->
  lookup doc (js "config") = Some (JObj cfg) ->
  validateConfigData (JObj partial) = Normal None ->
  field (updated_config cfg partial) "packaging" = p ->
  p <> JUndef ->
  visible_packaging (fst (post_api_config_update (JObj partial) st)) = Normal (jsonify p).
Proof.
  intros Hfile Hc Hv Hp Hdef. destruct st as [fs d]. cbn [file] in Hfile.
  rewrite (post_api_config_update_accepts fs d doc cfg partial Hfile Hc Hv).
  cbn [fst].
  rewrite (visible_packaging_of_file _ _ (jsonify (JObj (updated_config cfg partial)))
             (jsonify_props (assoc_set doc (js "config")
                               (JObj (updated_config cfg partial)))) eq_refl).
  - apply get_prop_jsonify; [|exact Hdef].
    unfold field in Hp. destruct (lookup (updated_config cfg partial) (js "packaging"));
      congruence.
  - apply (lookup_jsonify_props _ _ (JObj (updated_config cfg partial))
             (lookup_assoc_set_same _ _ _)). discriminate.
  - reflexivity.
Qed.

(** C6 (as amended).  After [initDB] of a file that can be loaded, GET
    /api/config shows the packaging member [initDB] has settled on, as it
    is written to the file; the member is truthy in memory, and truthy as
    shown unless it is a number beyond the range of a double (which is
    written as [null]).  It is the default mapping, with all three keys,
    when the file was missing, blank or not JSON for an object, when the
    document had no config, and when the config had no (truthy) packaging;
    when the persisted config has a packaging of its own, that mapping is
    shown as it is (so a persisted packaging with fewer keys is shown with
    fewer keys).  After an accepted config update every packaging key that
    was there before is still there. *)
Theorem packaging_after_init_and_update :
  (forall f,
     loadable f ->
     exists q,
       snd (initDB f) = Normal tt
       /\ visible_packaging (fst (initDB f)) = Normal (jsonify q)
       /\ truthy q = true
       /\ (~ infinite q -> truthy (jsonify q) = true))
  /\ fully_populated default_packaging
  /\ (forall f,
        not_a_json_object f ->
        visible_packaging (fst (initDB f)) = Normal default_packaging)
  /\ (forall doc,
        truthy (field doc "config") = false ->
        visible_packaging (fst (initDB (Content (Parses (JObj doc)))))
        = Normal default_packaging)
  /\ (forall doc cfg,
        field doc "config" = JObj cfg ->
        NoDup (map fst cfg) ->
        visible_packaging (fst (initDB (Content (Parses (JObj doc)))))
        = Normal (jsonify (if truthy (field cfg "packaging")
                           then field cfg "packaging"
                           else default_packaging)))
  /\ (forall st doc cfg pk partial k,
        file st = Content (Parses (JObj doc)) ->
        lookup doc (js "config") = Some (JObj cfg) ->
        field cfg "packaging" = JObj pk ->
        NoDup (map fst pk) ->
        NoDup (map fst (own_entries (field partial "packaging"))) ->
        validateConfigData (JObj partial) = Normal None ->
        has_key (JObj pk) k ->
        exists p',
          visible_packaging (fst (post_api_config_update (JObj partial) st)) = Normal p'
          /\ has_key p' k).
Proof.
  split; [|split; [|split; [|split; [|split]]]].
  - intros f Hl. destruct (initializeDbFile_object f Hl) as (doc & Hf & _).
    destruct (visible_packaging_after_initDB f doc Hf) as (Ht & Hs & Hv).
    eexists. split; [exact Hs|]. split; [exact Hv|]. split; [exact Ht|].
    intros Hfin. now rewrite truthy_jsonify.
  - exact default_packaging_fully_populated.
  - intros f Hf. rewrite (proj2 (initDB_resets_to_default_state f Hf)). reflexivity.
  - intros doc Hc.
    destruct (visible_packaging_after_initDB (Content (Parses (JObj doc))) doc eq_refl)
      as (_ & _ & Hv).
    rewrite Hv. now rewrite (completed_config_of_nothing _ Hc).
  - intros doc cfg Hc Hnd.
    destruct (visible_packaging_after_initDB (Content (Parses (JObj doc))) doc eq_refl)
      as (_ & _ & Hv).
    rewrite Hv, Hc. now rewrite (completed_config_of_object cfg Hnd).
  - intros st doc cfg pk partial k Hfile Hc Hpk Hnd Hnew Hv Hk.
    assert (Hold : NoDup (map fst (own_entries (field cfg "packaging"))))
      by (now rewrite Hpk).
    destruct (updated_config_members cfg partial Hold Hnew)
      as (_ & _ & Hfalsy & Htruthy & _).
    destruct (truthy (field partial "packaging")) eqn:Et.
    + destruct (Htruthy eq_refl) as (merged & Hm & Hlook).
      exists (jsonify (JObj merged)). split.
      * apply (visible_packaging_after_update st doc cfg partial); auto. discriminate.
      * apply has_key_jsonify, has_key_object.
        apply has_key_object in Hk as (v & Hl & Hdef).
        rewrite Hlook.
        destruct (lookup (own_entries (field partial "packaging")) k) as [w|] eqn:Ew.
        -- exists w. split; [reflexivity|].
           exact (accepted_entries_defined partial k w Hv Ew).
        -- rewrite Hpk. cbn [own_entries]. now exists v.
    + exists (jsonify (JObj pk)). split.
      * apply (visible_packaging_after_update st doc cfg partial); auto.
        -- now rewrite (Hfalsy eq_refl).
        -- discriminate.
      * now apply has_key_jsonify.
Qed.

(** *** Statistics *)

Lemma mfilter_pure (p : value -> completion bool) (q : value -> bool) (l : list value) :
  Forall (fun x => p x = Normal (q x)) l ->
  mfilter p l = Normal (filter q l).
Proof.
  induction 1 as [|x l Hx _ IH]; [reflexivity|].
  cbn [mfilter filter]. rewrite Hx, IH. cbn [cbind]. now destruct (q x).
Qed.

Lemma get_prop_member (o : value) (k : string) :
  is_nullish o = false -> get_prop o (js k) = Normal (member o k).
Proof.
  unfold member. destruct o; simpl; try discriminate; reflexivity.
Qed.

Lemma count_where_member (k s : string) (os : list value) :
  Forall (fun o => is_nullish o = false) os ->
  count_where (field_is k s) os = Normal (how_many (member_is k s) os).
Proof.
  intros Hn. unfold count_where, how_many.
  rewrite (mfilter_pure _ (member_is k s)); [reflexivity|].
  eapply Forall_impl; [|exact Hn]. intros o Ho. cbv beta in Ho.
  unfold field_is, member_is. now rewrite (get_prop_member o k Ho).
Qed.

Section Stats.

Variable h : host.

(** The reduction that adds up the prices. *)
Lemma revenue_added_up (os : list value) (acc : num) :
  Forall (fun o => is_nullish o = false) os ->
  Forall (fun o => missing_or_number (member o "price") = true) os ->
  mreduce (fun sum order =>
             (p <- get_prop order (js "price") ;;
              Normal (js_add h sum (js_or p (qnum 0))))%completion)
          os (JNum acc)
  = Normal (JNum (added_up acc os)).
Proof.
  intros Hn Hp. revert acc.
  induction os as [|o os IH]; intros acc; [reflexivity|].
  inversion Hn as [|? ? Hn1 Hn2]; inversion Hp as [|? ? Hp1 Hp2]; subst.
  cbn [mreduce]. rewrite (get_prop_member o "price" Hn1). cbn [cbind].
  destruct (js_or_amount (member o "price") Hp1) as (q & Eq & Hq).
  rewrite Eq, js_add_numbers, (num_add_comp acc q _ Hq).
  now rewrite (IH Hn2 Hp2).
Qed.

(** When no addition rounds, the prices add up to their sum. *)
Lemma added_up_exact (os : list value) (acc acc' : Q) :
  acc' == acc -> summable acc os ->
  exists r, added_up (Num acc') os = Num r /\ r == acc + sum_of_prices os.
Proof.
  revert acc acc'. induction os as [|o os IH]; intros acc acc' E Hs.
  - exists acc'. split; [reflexivity|]. cbn. rewrite E. ring.
  - destruct Hs as ((y & Hy & Ey) & Hs).
    unfold added_up. cbn [fold_left num_add]. fold (added_up (round64 (acc' + amount (member o "price"))) os).
    rewrite (round64_comp _ (acc + amount (member o "price"))) by now rewrite E.
    rewrite Hy.
    destruct (IH _ y Ey Hs) as (r & Hr & Er).
    exists r. split; [exact Hr|].
    rewrite Er. cbn [sum_of_prices fold_right]. fold (sum_of_prices os). ring.
Qed.

(** The comparator of the sort, on two orders with valid dates. *)
Lemma by_recency_value (a b : value) (ta tb : Q) :
  is_nullish a = false -> is_nullish b = false ->
  created h a = Num ta -> created h b = Num tb ->
  by_recency h a b = Normal (num_sub (Num tb) (Num ta)).
Proof.
  intros Ha Hb Ea Eb. unfold by_recency, order_time.
  rewrite !(get_prop_member b), !(get_prop_member a) by assumption.
  cbn [cbind]. fold (created h a) (created h b). now rewrite Ea, Eb.
Qed.

Lemma dated_created_at (o : value) : dated h o -> created h o = Num (created_at h o).
Proof. intros (_ & t & E). unfold created_at. now rewrite E. Qed.

(** A time value is a whole number of milliseconds. *)
Lemma time_clip_integer (n : num) (t : Q) :
  time_clip n = Num t -> exists z, t = inject_Z z.
Proof.
  destruct n as [|s|q]; cbn [time_clip]; try discriminate.
  destruct (Qle_bool (Qabs q) (inject_Z 8640000000000000)); [|discriminate].
  intros [= <-]. eauto.
Qed.

Lemma created_at_integer (o : value) : dated h o -> exists z, created_at h o = inject_Z z.
Proof.
  intros Hd. pose proof (dated_created_at o Hd) as E.
  unfold created, Date_value in E.
  destruct (to_primitive _); exact (time_clip_integer _ _ E).
Qed.

(** The difference of two time values has the sign of the exact
    difference: rounding keeps the sign of a whole number. *)
Lemma not_after_difference (za zb : Z) :
  not_after (num_sub (Num (inject_Z zb)) (Num (inject_Z za)))
  = Qle_bool (inject_Z zb - inject_Z za) 0.
Proof.
  cbn [num_sub].
  rewrite (round64_comp _ (inject_Z (zb - za)))
    by (unfold Z.sub; rewrite inject_Z_plus, inject_Z_opp; reflexivity).
  rewrite not_after_round64_integer.
  destruct (Z.leb_spec (zb - za) 0) as [H | H]; symmetry.
  - apply Qle_bool_iff. unfold Qle; simpl. lia.
  - destruct (Qle_bool (inject_Z zb - inject_Z za) 0) eqn:E; [|reflexivity].
    apply Qle_bool_iff in E. unfold Qle in E; simpl in E. lia.
Qed.

Lemma insert_by_recency (x : value) (l : list value) :
  dated h x -> Forall (dated h) l ->
  insert_by (by_recency h) x l = Normal (insert_recent h x l).
Proof.
  intros Hx Hl. induction Hl as [|y l Hy _ IH]; [reflexivity|].
  cbn [insert_by insert_recent].
  rewrite (by_recency_value x y (created_at h x) (created_at h y));
    try apply dated_created_at; try apply Hx; try apply Hy.
  cbn [cbind].
  destruct (created_at_integer x Hx) as (zx & Ex).
  destruct (created_at_integer y Hy) as (zy & Ey).
  rewrite Ex, Ey, not_after_difference.
  destruct (Qle_bool (inject_Z zy - inject_Z zx) 0); [reflexivity|].
  now rewrite IH.
Qed.

Lemma insert_recent_permutation (x : value) (l : list value) :
  Permutation (x :: l) (insert_recent h x l).
Proof.
  induction l as [|y l IH]; [reflexivity|].
  cbn [insert_recent]. destruct (Qle_bool _ 0); [reflexivity|].
  rewrite perm_swap. now constructor.
Qed.

Lemma most_recent_first_permutation (l : list value) :
  Permutation l (most_recent_first h l).
Proof.
  induction l as [|x l IH]; [reflexivity|].
  cbn [most_recent_first fold_right]. fold (most_recent_first h l).
  rewrite <- insert_recent_permutation. now constructor.
Qed.

Lemma most_recent_first_dated (l : list value) :
  Forall (dated h) l -> Forall (dated h) (most_recent_first h l).
Proof.
  intros H. eapply Permutation_Forall; [apply most_recent_first_permutation | exact H].
Qed.

Lemma sort_by_recency (l : list value) :
  Forall (dated h) l ->
  sort_by (by_recency h) l = Normal (most_recent_first h l).
Proof.
  induction 1 as [|x l Hx Hl IH]; [reflexivity|].
  cbn [sort_by]. rewrite IH. cbn [cbind].
  apply insert_by_recency; [exact Hx | now apply most_recent_first_dated].
Qed.

Lemma insert_recent_sorted (x : value) (l : list value) :
  StronglySorted (not_older h) l -> StronglySorted (not_older h) (insert_recent h x l).
Proof.
  induction 1 as [|y l Hl IH Hy]; [repeat constructor|].
  cbn [insert_recent].
  destruct (Qle_bool (created_at h y - created_at h x) 0) eqn:E.
  - apply Qle_bool_iff in E.
    constructor; [now constructor|].
    constructor.
    + unfold not_older. lra.
    + eapply Forall_impl; [|exact Hy]. unfold not_older. intros z Hz. cbv beta in Hz. lra.
  - assert (Hlt : created_at h x < created_at h y).
    { apply Qnot_le_lt. intros Hle.
      assert (Hb : Qle_bool (created_at h y - created_at h x) 0 = true)
        by (apply Qle_bool_iff; lra).
      congruence. }
    constructor; [exact IH|].
    eapply Permutation_Forall; [apply insert_recent_permutation|].
    constructor; [|exact Hy]. unfold not_older. lra.
Qed.

Lemma most_recent_first_sorted (l : list value) :
  StronglySorted (not_older h) (most_recent_first h l).
Proof.
  induction l as [|x l IH]; [constructor|].
  cbn [most_recent_first fold_right]. now apply insert_recent_sorted.
Qed.

(** Orders created at the same instant keep their order: the sort is
    stable. *)
Lemma insert_recent_stable (t : Q) (x : value) (l : list value) :
  created_at_instant h t (insert_recent h x l) = created_at_instant h t (x :: l).
Proof.
  induction l as [|y l IH]; [reflexivity|].
  cbn [insert_recent].
  destruct (Qle_bool (created_at h y - created_at h x) 0) eqn:E; [reflexivity|].
  unfold created_at_instant in *. cbn [filter] in *. rewrite IH.
  destruct (Qeq_bool (created_at h x) t) eqn:Ex; [|reflexivity].
  destruct (Qeq_bool (created_at h y) t) eqn:Ey; [|reflexivity].
  exfalso. apply Qeq_bool_iff in Ex, Ey.
  assert (Hb : Qle_bool (created_at h y - created_at h x) 0 = true)
    by (apply Qle_bool_iff; lra).
  congruence.
Qed.

Lemma most_recent_first_stable (t : Q) (l : list value) :
  created_at_instant h t (most_recent_first h l) = created_at_instant h t l.
Proof.
  induction l as [|x l IH]; [reflexivity|].
  cbn [most_recent_first fold_right]. fold (most_recent_first h l).
  rewrite insert_recent_stable. unfold created_at_instant in *. cbn [filter].
  now rewrite IH.
Qed.

End Stats.

Lemma sorted_prefix_before_rest (R : value -> value -> Prop) (n : nat) (l : list value) :
  StronglySorted R l ->
  forall a b, In a (firstn n l) -> In b (skipn n l) -> R a b.
Proof.
  intros Hs. revert n. induction Hs as [|x l Hl IH Hx]; intros n a b Ha Hb.
  - rewrite firstn_nil in Ha. contradiction.
  - destruct n as [|n]; [contradiction|].
    cbn [firstn skipn] in Ha, Hb. destruct Ha as [<- | Ha].
    + rewrite Forall_forall in Hx. apply Hx.
      rewrite <- (firstn_skipn n l). apply in_or_app. now right.
    + now apply (IH n).
Qed.

Section StatsHandler.

Variable h : host.

Lemma count_where_embroidery (os : list value) :
  Forall (fun o => is_nullish o = false) os ->
  count_where (fun o => (e <- get_prop o (js "embroidery") ;; Normal (truthy e))%completion) os
  = Normal (how_many (fun o => truthy (member o "embroidery")) os).
Proof.
  intros Hn. unfold count_where, how_many.
  rewrite (mfilter_pure _ (fun o => truthy (member o "embroidery"))); [reflexivity|].
  eapply Forall_impl; [|exact Hn]. intros o Ho. cbv beta in Ho.
  now rewrite (get_prop_member o "embroidery" Ho).
Qed.

Lemma compute_stats_value (os : list value) :
  Forall (dated h) os ->
  Forall (fun o => missing_or_number (member o "price") = true) os ->
  compute_stats h os
  = Normal (stats_body os (added_up (Num 0) os) (most_recent_first h os),
            most_recent_first h os).
Proof.
  intros Hd Hp.
  assert (Hn : Forall (fun o => is_nullish o = false) os).
  { eapply Forall_impl; [|exact Hd]. now intros o (Ho & _). }
  unfold compute_stats.
  change (qnum 0) with (JNum (Num 0)) at 2.
  rewrite (revenue_added_up h os (Num 0) Hn Hp). cbn [cbind].
  rewrite !count_where_member by exact Hn. cbn [cbind].
  rewrite (count_where_embroidery os Hn). cbn [cbind].
  rewrite (sort_by_recency h os Hd). reflexivity.
Qed.

(** C7 (as amended).  Over a list of N orders, each with a price that is
    a number (a missing price counts as 0) and a valid creation timestamp
    (or, without a timestamp, a valid creation date), the stats are:
    totalOrders = N; totalRevenue = the prices added one after the other in
    double precision, which is the sum of the prices whenever no addition
    has to round; the counts per size, per packaging type and of orders
    with embroidery; and recentOrders, the first min(N, 5) of the orders
    arranged by descending creation instant, orders of the same instant
    staying in their insertion order (the sort is stable).  The file is
    not written. *)
Theorem stats_of_the_orders
  (st : db) (doc : list (jsstring * value)) (os : list value) :
  file st = Content (Parses (JObj doc)) ->
  lookup doc (js "orders") = Some (JArr os) ->
  Forall (dated h) os ->
  Forall (fun o => missing_or_number (member o "price") = true) os ->
  exists sorted,
    get_api_stats h st
    = ({| file := file st; data := JObj (assoc_set doc (js "orders") (JArr sorted)) |},
       {| status := 200; body := stats_body os (added_up (Num 0) os) sorted |})
    /\ (summable 0 os ->
        exists revenue,
          added_up (Num 0) os = Num revenue /\ revenue == sum_of_prices os)
    /\ List.length (firstn 5 sorted) = Nat.min (List.length os) 5
    /\ Permutation os sorted
    /\ StronglySorted (not_older h) sorted
    /\ (forall a b,
          In a (firstn 5 sorted) -> In b (skipn 5 sorted) -> not_older h a b)
    /\ forall t, created_at_instant h t sorted = created_at_instant h t os.
Proof.
  intros Hfile Ho Hd Hp.
  pose proof (compute_stats_value os Hd Hp) as Hstats.
  exists (most_recent_first h os).
  split; [|split; [|split; [|split; [|split; [|split]]]]].
  - destruct st as [fs d]. cbn [file] in *. subst fs.
    unfold get_api_stats, try_catch.
    rewrite bind_run. unfold db_read at 1. cbn [file JSON_parse truthy].
    rewrite bind_run. unfold get_data at 1. cbn [data].
    rewrite bind_run. unfold lift at 1. cbn [get_prop]. rewrite Ho.
    cbn [js_or truthy].
    rewrite bind_run. unfold lift at 1. rewrite Hstats. cbn [fst snd].
    rewrite bind_run. erewrite update_field_object by reflexivity.
    reflexivity.
  - intros Hs. destruct (added_up_exact os 0 0 (Qeq_refl 0) Hs) as (r & Hr & Er).
    exists r. split; [exact Hr|]. rewrite Er. ring.
  - rewrite length_firstn.
    rewrite <- (Permutation_length (most_recent_first_permutation h os)). lia.
  - apply most_recent_first_permutation.
  - apply most_recent_first_sorted.
  - apply sorted_prefix_before_rest, most_recent_first_sorted.
  - intros t. apply most_recent_first_stable.
Qed.

End StatsHandler.

(** ** Further properties of the code *)

(** *** Order validation, both ways *)

Lemma trim_nil_of_nil (s : jsstring) : trim s <> [] -> s <> [].
Proof. intros H E. subst s. now apply H. Qed.

Lemma includes_true (l : list jsstring) (v : value) :
  includes l v = true <-> exists s, v = JStr s /\ In s l.
Proof.
  destruct v; simpl; try (split; [discriminate | intros (s0 & E & _); discriminate]).
  rewrite existsb_str_eqb. split.
  - intros H. now exists s.
  - intros (s0 & E & H). now injection E as ->.
Qed.

Lemma listed_not_empty (l : list jsstring) (s : jsstring) :
  In s l -> Forall (fun x => x <> []) l -> truthy (JStr s) = true.
Proof.
  intros Hin Hall. rewrite Forall_forall in Hall. specialize (Hall s Hin).
  destruct s; [contradiction | reflexivity].
Qed.

Lemma sizes_not_empty : Forall (fun x => x <> []) sizes.
Proof. repeat constructor; discriminate. Qed.

Lemma validPackageTypes_not_empty : Forall (fun x => x <> []) validPackageTypes.
Proof. repeat constructor; discriminate. Qed.

Lemma get_prop_defined (v : value) (k : jsstring) :
  is_nullish v = false -> get_prop v k = Normal (member_of v k).
Proof. unfold member_of. destruct v; try discriminate; intros _; reflexivity. Qed.

Lemma get_prop_not_nullish (v w : value) (k : jsstring) :
  get_prop v k = Normal w -> is_nullish v = false.
Proof. destruct v; try discriminate; reflexivity. Qed.

Lemma valid_order_not_nullish (req : value) :
  valid_order req -> is_nullish req = false.
Proof. intros ((s & H & _) & _). exact (get_prop_not_nullish _ _ _ H). Qed.

Lemma valid_order_accepted (req : value) :
  valid_order req -> validateOrderData req = Normal None.
Proof.
  intros ((s & Hs & Ht) & (sz & Hsz & Hin1) & (pt & Hpt & Hin2)).
  unfold validateOrderData. rewrite Hs, Hsz, Hpt. cbn [cbind].
  assert (E1 : negb (truthy (JStr s)) || Nat.eqb (List.length (trim s)) 0 = false).
  { apply orb_false_intro.
    - apply trim_nil_of_nil in Ht. now destruct s.
    - destruct (trim s); [contradiction | reflexivity]. }
  rewrite E1.
  rewrite (listed_not_empty sizes sz Hin1 sizes_not_empty).
  rewrite (listed_not_empty _ pt Hin2 validPackageTypes_not_empty).
  assert (I1 : includes sizes (JStr sz) = true) by (apply includes_true; eauto).
  assert (I2 : includes validPackageTypes (JStr pt) = true)
    by (apply includes_true; eauto).
  now rewrite I1, I2.
Qed.

Lemma accepted_valid_order (req : value) :
  validateOrderData req = Normal None -> valid_order req.
Proof.
  intros H.
  destruct (is_nullish req) eqn:En.
  { destruct req; discriminate. }
  revert H. unfold validateOrderData, valid_order.
  rewrite !(get_prop_defined req _ En). cbn [cbind].
  set (c := member_of req (js "customer")).
  set (z := member_of req (js "size")).
  set (p := member_of req (js "packaging")).
  destruct (negb (truthy c)
            || match c with
               | JStr s => Nat.eqb (List.length (trim s)) 0
               | _ => true
               end) eqn:E1; [discriminate|].
  destruct (negb (truthy z) || negb (includes sizes z)) eqn:E2; [discriminate|].
  destruct (negb (truthy p) || negb (includes validPackageTypes p)) eqn:E3;
    [discriminate|].
  intros _.
  apply orb_false_elim in E1 as [_ E1].
  apply orb_false_elim in E2 as [_ E2].
  apply orb_false_elim in E3 as [_ E3].
  apply negb_false_iff, includes_true in E2, E3.
  destruct E2 as (sz & -> & Hsz). destruct E3 as (pt & -> & Hpt).
  destruct c; try discriminate.
  repeat split.
  - exists s. split; [reflexivity|]. intros Ht. now rewrite Ht in E1.
  - now exists sz.
  - now exists pt.
Qed.

(** X1.  [validateOrderData] accepts an input exactly when its customer is
    a string that is not blank after trimming, its size is one of M, L,
    XL, 2XL and its packaging is one of basic, branded, box; on [undefined]
    and [null] it raises. *)
Theorem validateOrderData_accepts_exactly (req : value) :
  (validateOrderData req = Normal None <-> valid_order req)
  /\ (is_nullish req = true <-> exists e, validateOrderData req = Throw e).
Proof.
  split; [split; [apply accepted_valid_order | apply valid_order_accepted]|].
  split.
  - destruct req; try discriminate; intros _; exists TypeError; reflexivity.
  - intros (e & He). destruct (is_nullish req) eqn:En; [reflexivity|].
    exfalso. revert He. unfold validateOrderData.
    rewrite !(get_prop_defined req _ En). cbn [cbind].
    repeat match goal with
           | |- (if ?c then _ else _) = _ -> _ => destruct c
           end; discriminate.
Qed.

(** *** Creating an order *)

Section MoreCreation.

Variable h : host.

(** [calculatePrice] answers a number or raises: nothing else. *)
Lemma calculatePrice_number (config size packaging embroidery v : value) :
  calculatePrice h config size packaging embroidery = Normal v ->
  exists n, v = JNum n.
Proof.
  unfold calculatePrice.
  destruct (get_prop config (js "basePrice")); [|discriminate].
  destruct (get_prop config (js "packaging")) as [table|]; [|discriminate].
  cbn [cbind].
  destruct (get_prop table (to_string h packaging)); [|discriminate].
  cbn [cbind].
  destruct (truthy embroidery).
  - destruct (get_prop config (js "embroidery")); [|discriminate].
    cbn [cbind]. intros [= <-]. eauto.
  - cbn [cbind]. intros [= <-]. eauto.
Qed.

(** It raises only for want of a config or of its packaging table. *)
Lemma calculatePrice_returns (config size packaging embroidery table : value) :
  get_prop config (js "packaging") = Normal table ->
  is_nullish table = false ->
  exists n, calculatePrice h config size packaging embroidery = Normal (JNum n).
Proof.
  intros Ht Hn. pose proof (get_prop_not_nullish _ _ _ Ht) as Hc.
  unfold calculatePrice.
  rewrite (get_prop_defined config (js "basePrice") Hc). cbn [cbind].
  rewrite Ht. cbn [cbind].
  rewrite (get_prop_defined table _ Hn). cbn [cbind].
  destruct (truthy embroidery).
  - rewrite (get_prop_defined config (js "embroidery") Hc). cbn [cbind]. eauto.
  - cbn [cbind]. eauto.
Qed.

(** What the handler does with a valid order, from what [db.read()]
    leaves in memory. *)
Lemma post_api_orders_appends
  (req : value) (id now1 now2 : jsstring) (st : db) (f : file_state)
  (doc : list (jsstring * value)) (table : value) (os : list value) :
  valid_order req ->
  db_read st = ({| file := f; data := JObj doc |}, Normal tt) ->
  get_prop (field doc "config") (js "packaging") = Normal table ->
  is_nullish table = false ->
  field doc "orders" = JArr os ->
  exists customer size packaging price,
    get_prop req (js "customer") = Normal (JStr customer)
    /\ get_prop req (js "size") = Normal (JStr size)
    /\ get_prop req (js "packaging") = Normal (JStr packaging)
    /\ calculatePrice h (field doc "config") (JStr size) (JStr packaging)
         (member req "embroidery") = Normal (JNum price)
    /\ let order :=
         new_order id (trim customer) size packaging
           (truthy (member req "embroidery")) price now1 now2 in
       let doc' := assoc_set doc (js "orders") (JArr (os ++ [order])) in
       post_api_orders h req id now1 now2 st
       = ({| file := Content (JSON_stringify (JObj doc')); data := JObj doc' |},
          {| status := 201; body := order |}).
Proof.
  intros Hvalid Hread Htable Hnn Horders.
  pose proof (valid_order_accepted req Hvalid) as Hv.
  pose proof (valid_order_not_nullish req Hvalid) as Hreq.
  destruct Hvalid as ((s & Hs & Ht) & (sz & Hsz & Hin1) & (pt & Hpt & Hin2)).
  destruct (calculatePrice_returns (field doc "config") (JStr sz) (JStr pt)
              (member req "embroidery") table Htable Hnn) as (n & Hn).
  exists s, sz, pt, n. repeat (split; [assumption|]).
  cbv zeta.
  assert (He : get_prop req (js "embroidery") = Normal (member req "embroidery")).
  { unfold member. destruct req; try discriminate; reflexivity. }
  unfold post_api_orders, try_catch.
  rewrite bind_run. unfold lift at 1. rewrite Hv.
  rewrite bind_run. unfold lift at 1. rewrite Hs.
  rewrite bind_run. unfold lift at 1. rewrite Hsz.
  rewrite bind_run. unfold lift at 1. rewrite Hpt.
  rewrite bind_run. unfold lift at 1. rewrite He.
  rewrite bind_run, Hread.
  rewrite bind_run. unfold get_data at 1. cbn [data].
  rewrite bind_run. unfold lift at 1. cbn [get_prop]. fold (field doc "config").
  rewrite bind_run. unfold lift at 1. rewrite Hn.
  rewrite bind_run. unfold lift at 1. cbn [String_trim].
  rewrite bind_run.
  erewrite update_field_object
    by (rewrite Horders; cbn [Array_push]; reflexivity).
  rewrite bind_run. unfold db_write at 1. cbn [data truthy file Writer_write].
  reflexivity.
Qed.

(** The same, the document being the one in the file. *)
Lemma post_api_orders_creates
  (req : value) (id now1 now2 : jsstring) (d : value)
  (doc : list (jsstring * value)) (table : value) (os : list value) :
  valid_order req ->
  get_prop (field doc "config") (js "packaging") = Normal table ->
  is_nullish table = false ->
  field doc "orders" = JArr os ->
  exists customer size packaging price,
    get_prop req (js "customer") = Normal (JStr customer)
    /\ get_prop req (js "size") = Normal (JStr size)
    /\ get_prop req (js "packaging") = Normal (JStr packaging)
    /\ calculatePrice h (field doc "config") (JStr size) (JStr packaging)
         (member req "embroidery") = Normal (JNum price)
    /\ let order :=
         new_order id (trim customer) size packaging
           (truthy (member req "embroidery")) price now1 now2 in
       let doc' := assoc_set doc (js "orders") (JArr (os ++ [order])) in
       post_api_orders h req id now1 now2
         {| file := Content (Parses (JObj doc)); data := d |}
       = ({| file := Content (JSON_stringify (JObj doc')); data := JObj doc' |},
          {| status := 201; body := order |}).
Proof.
  intros Hvalid Htable Hnn Horders.
  now apply (post_api_orders_appends req id now1 now2 _ (Content (Parses (JObj doc)))
               doc table os).
Qed.

(** X2.  A valid order sent to POST /api/orders, the file holding a
    document with an order list and a config that has a packaging table:
    the answer is 201 with the new order (the customer trimmed, embroidery
    made a boolean, the price computed from the config in the file, whatever
    the data in memory was); the order is appended last to the list, and
    the document, its other members as they were, is written to the file. *)
Theorem valid_order_is_created
  (req : value) (id now1 now2 : jsstring) (d : value)
  (doc : list (jsstring * value)) (table : value) (os : list value) :
  valid_order req ->
  get_prop (field doc "config") (js "packaging") = Normal table ->
  is_nullish table = false ->
  field doc "orders" = JArr os ->
  exists customer size packaging price,
    get_prop req (js "customer") = Normal (JStr customer)
    /\ get_prop req (js "size") = Normal (JStr size)
    /\ get_prop req (js "packaging") = Normal (JStr packaging)
    /\ calculatePrice h (field doc "config") (JStr size) (JStr packaging)
         (member req "embroidery") = Normal (JNum price)
    /\ let order :=
         new_order id (trim customer) size packaging
           (truthy (member req "embroidery")) price now1 now2 in
       let doc' := assoc_set doc (js "orders") (JArr (os ++ [order])) in
       post_api_orders h req id now1 now2
         {| file := Content (Parses (JObj doc)); data := d |}
       = ({| file := Content (JSON_stringify (JObj doc')); data := JObj doc' |},
          {| status := 201; body := order |}).
Proof.
  intros Hvalid Htable Hnn Horders.
  assert (Hread : db_read {| file := Content (Parses (JObj doc)); data := d |}
                  = ({| file := Content (Parses (JObj doc)); data := JObj doc |},
                     Normal tt)) by reflexivity.
  exact (post_api_orders_appends req id now1 now2 _ _ doc table os
           Hvalid Hread Htable Hnn Horders).
Qed.

(** X3.  Every order that POST /api/orders answers with a 201 is well
    formed: it has the ID and the clock readings handed to the handler, a
    customer name that is the trimmed name of the input and is not empty, a
    size and a packaging type of the lists, a boolean for embroidery and a
    number for the price; the input was a valid one. *)
Theorem created_order_is_well_formed
  (req order : value) (id now1 now2 : jsstring) (st st' : db) :
  post_api_orders h req id now1 now2 st = (st', {| status := 201; body := order |}) ->
  valid_order req
  /\ exists customer size packaging price,
       get_prop req (js "customer") = Normal (JStr customer)
       /\ trim customer <> []
       /\ In size sizes
       /\ In packaging validPackageTypes
       /\ order = new_order id (trim customer) size packaging
                    (truthy (member req "embroidery")) price now1 now2.
Proof.
  intros H.
  unfold post_api_orders, try_catch, bind, lift, ret in H.
  destruct (validateOrderData req) as [[msg|]|err] eqn:Hv; try answer_differs.
  pose proof (accepted_valid_order req Hv) as Hvalid.
  split; [exact Hvalid|].
  destruct Hvalid as ((s & Hs & Ht) & (sz & Hsz & Hin1) & (pt & Hpt & Hin2)).
  rewrite Hs, Hsz, Hpt in H.
  destruct (get_prop req (js "embroidery")) as [e|] eqn:He; try answer_differs.
  assert (Hm : member req "embroidery" = e) by (unfold member; now rewrite He).
  destruct (db_read st) as [st1 [[]|err]] eqn:Hr; try answer_differs.
  unfold get_data in H.
  destruct (get_prop (data st1) (js "config")) as [config|] eqn:Hcfg; try answer_differs.
  destruct (calculatePrice h config (JStr sz) (JStr pt) e) as [price|] eqn:Hprice;
    try answer_differs.
  destruct (calculatePrice_number _ _ _ _ _ Hprice) as (n & ->).
  cbn [String_trim] in H.
  unfold update_field, bind, lift, get_data, set_data in H.
  destruct (get_prop (data st1) (js "orders")) as [orders|] eqn:Ho; try answer_differs.
  destruct orders as [| | | | |os|]; cbn [Array_push] in H; try answer_differs.
  destruct (data st1) as [| | | | | |dkvs] eqn:Hd; try discriminate Ho.
  cbn [set_prop data file] in H. unfold db_write in H. cbn [data file truthy] in H.
  injection H as <- <-.
  exists s, sz, pt, n. rewrite Hm. repeat (split; [assumption|]). reflexivity.
Qed.

(** X4.  After a valid order has been created, the next GET /api/orders
    answers 200 with the orders the file held before, in their order,
    followed by the new order last (each as JSON text gives it back). *)
Theorem created_order_is_listed_last
  (req : value) (id now1 now2 : jsstring) (d : value)
  (doc : list (jsstring * value)) (table : value) (os : list value) :
  valid_order req ->
  get_prop (field doc "config") (js "packaging") = Normal table ->
  is_nullish table = false ->
  field doc "orders" = JArr os ->
  let created :=
    post_api_orders h req id now1 now2
      {| file := Content (Parses (JObj doc)); data := d |} in
  exists order,
    snd created = {| status := 201; body := order |}
    /\ snd (get_api_orders (fst created))
       = {| status := 200; body := JArr (map jsonify os ++ [jsonify order]) |}.
Proof.
  intros Hvalid Htable Hnn Horders.
  destruct (post_api_orders_creates req id now1 now2 d doc table os
              Hvalid Htable Hnn Horders)
    as (customer & size & packaging & price & _ & _ & _ & _ & Hpost).
  cbv zeta in *. rewrite Hpost. cbn [fst snd].
  eexists. split; [reflexivity|].
  unfold get_api_orders, try_catch.
  rewrite bind_run. unfold db_read at 1.
  cbn [file JSON_stringify JSON_parse data]. rewrite jsonify_obj. cbn [truthy].
  rewrite bind_run. unfold get_data at 1. cbn [data].
  rewrite bind_run. unfold lift at 1. rewrite <- jsonify_obj.
  rewrite (get_prop_jsonify _ (js "orders") (JArr (os ++ [_]))
             (lookup_assoc_set_same _ _ _)); [|discriminate].
  cbn [jsonify]. rewrite map_app. reflexivity.
Qed.

End MoreCreation.

(** *** The price, in numbers *)

Lemma not_below_zero_round64 (x : Q) : 0 <= x -> not_below_zero (round64 x).
Proof. exact (round64_nonneg x). Qed.

Lemma num_add_not_below_zero (n : num) (q : Q) :
  not_below_zero n -> 0 <= q -> not_below_zero (num_add n (Num q)).
Proof.
  intros [-> | (r & -> & Hr)] Hq; [now left|].
  cbn [num_add]. apply not_below_zero_round64.
  apply Qle_trans with (0 + 0); [discriminate | now apply Qplus_le_compat].
Qed.

Lemma price_sum_not_below_zero (b p e : Q) (embroidery : bool) :
  0 <= b -> 0 <= p -> 0 <= e -> not_below_zero (price_sum b p e embroidery).
Proof.
  intros Hb Hp He.
  assert (H : not_below_zero (num_add (Num b) (Num p))).
  { apply num_add_not_below_zero; [right; eauto | exact Hp]. }
  unfold price_sum. destruct embroidery; [|exact H].
  now apply num_add_not_below_zero.
Qed.

(** The rounding at the cent of a sum that is not below zero. *)
Lemma in_cents_not_below_zero (n : num) :
  not_below_zero n -> whole_cents (in_cents n) /\ not_below_zero (in_cents n).
Proof.
  intros Hn. unfold in_cents.
  assert (Hm : not_below_zero (num_mul n (Num 100))).
  { destruct Hn as [-> | (r & -> & Hr)]; [now left|].
    cbn [num_mul]. apply not_below_zero_round64.
    apply Qmult_le_0_compat; [exact Hr | discriminate]. }
  destruct Hm as [-> | (y & -> & Hy)].
  { split; now left. }
  cbn [Math_round num_div]. change (Qeq_bool 100 0) with false. cbv iota.
  assert (Hk : (0 <= Qfloor (y + (1 # 2)))%Z).
  { change 0%Z with (Qfloor 0). apply Qfloor_resp_le. lra. }
  split.
  - right. exists (Qfloor (y + (1 # 2))). now split.
  - apply not_below_zero_round64.
    apply Qle_shift_div_l; [reflexivity|].
    rewrite Qmult_0_l. change 0 with (inject_Z 0). now rewrite <- Zle_Qle.
Qed.

Lemma num_le_infinity (n : num) : not_below_zero n -> num_le n (Inf false).
Proof. intros [-> | (r & -> & _)]; exact I. Qed.

(** Adding a number that is not below zero to a double does not lower
    it. *)
Lemma sum_le (x e : Q) :
  0 <= x -> 0 <= e -> num_le (round64 x) (num_add (round64 x) (Num e)).
Proof.
  intros Hx He.
  destruct (round64_nonneg x Hx) as [E | (y & E & Hy)]; rewrite E; [exact I|].
  cbn [num_add]. rewrite <- (round64_idempotent x y Hx E) at 1.
  apply round64_le; [exact Hy|].
  rewrite <- (Qplus_0_r y) at 1. apply Qplus_le_compat; [apply Qle_refl | exact He].
Qed.

Lemma num_mul_not_below_zero (n : num) :
  not_below_zero n -> not_below_zero (num_mul n (Num 100)).
Proof.
  intros [-> | (r & -> & Hr)]; [now left|].
  cbn [num_mul]. apply not_below_zero_round64.
  apply Qmult_le_0_compat; [exact Hr | discriminate].
Qed.

Lemma cents_le (u v : num) :
  not_below_zero u -> num_le u v ->
  num_le (num_div (Math_round u) (Num 100)) (num_div (Math_round v) (Num 100)).
Proof.
  intros [-> | (p & -> & Hp)] Huv.
  - destruct v as [|[]|q]; cbn in Huv; try contradiction; try discriminate. exact I.
  - assert (Hk : (0 <= Qfloor (p + (1 # 2)))%Z).
    { change 0%Z with (Qfloor 0). apply Qfloor_resp_le. lra. }
    assert (H0 : 0 <= inject_Z (Qfloor (p + (1 # 2))) / 100).
    { apply Qle_shift_div_l; [reflexivity|].
      rewrite Qmult_0_l. change 0 with (inject_Z 0). now rewrite <- Zle_Qle. }
    destruct v as [|[]|q]; cbn [num_le] in Huv; try contradiction.
    + apply num_le_infinity. cbn [Math_round num_div].
      change (Qeq_bool 100 0) with false. cbv iota.
      now apply not_below_zero_round64.
    + cbn [Math_round num_div]. change (Qeq_bool 100 0) with false. cbv iota.
      apply round64_le; [exact H0|].
      apply Qmult_le_compat_r; [|discriminate].
      rewrite <- Zle_Qle. apply Qfloor_resp_le. lra.
Qed.

(** The rounding at the cent keeps the order of sums that are not below
    zero. *)
Lemma in_cents_le (a b : num) :
  not_below_zero a -> num_le a b -> num_le (in_cents a) (in_cents b).
Proof.
  intros Ha Hab. unfold in_cents.
  apply cents_le; [now apply num_mul_not_below_zero|].
  destruct Ha as [-> | (x & -> & Hx)].
  - destruct b as [|[]|q]; cbn in Hab; try contradiction; try discriminate. exact I.
  - destruct b as [|[]|q]; cbn [num_le] in Hab; try contradiction.
    + apply num_le_infinity. apply num_mul_not_below_zero. right. eauto.
    + cbn [num_mul]. apply round64_le.
      * apply Qmult_le_0_compat; [exact Hx | discriminate].
      * apply Qmult_le_compat_r; [exact Hab | discriminate].
Qed.

Lemma amount_not_below_zero (v : value) :
  missing_or_priced v -> missing_or_number v = true /\ 0 <= amount v.
Proof.
  intros [-> | (q & -> & Hq)]; split; try reflexivity; [discriminate | exact Hq].
Qed.

Section PriceBounds.

Variable h : host.

(** The price over components that are missing or not below zero. *)
Lemma calculatePrice_not_below_zero
  (config size packaging embroidery table bp sur e : value) :
  get_prop config (js "basePrice") = Normal bp ->
  get_prop config (js "packaging") = Normal table ->
  get_prop table (to_string h packaging) = Normal sur ->
  get_prop config (js "embroidery") = Normal e ->
  missing_or_priced bp -> missing_or_priced sur -> missing_or_priced e ->
  exists price,
    calculatePrice h config size packaging embroidery = Normal (JNum price)
    /\ price = in_cents (price_sum (amount bp) (amount sur) (amount e)
                           (truthy embroidery))
    /\ whole_cents price
    /\ not_below_zero price.
Proof.
  intros Hb Ht Hs He Pb Ps Pe.
  destruct (amount_not_below_zero bp Pb) as [Mb Ab].
  destruct (amount_not_below_zero sur Ps) as [Ms As].
  destruct (amount_not_below_zero e Pe) as [Me Ae].
  eexists. split.
  - exact (calculatePrice_value h config size packaging embroidery table bp sur e
             Hb Ht Hs He Mb Ms Me).
  - split; [reflexivity|].
    apply in_cents_not_below_zero. now apply price_sum_not_below_zero.
Qed.

(** X5.  The price of [calculatePrice] for a packaging type of the list,
    over a config whose base price, surcharge of that type and embroidery
    surcharge are each missing or a number that is not below zero: it is
    the sum of the components added in double precision and rounded at the
    cent; it is [+Infinity] (when the sum or its product by 100 is beyond
    the range of a double) or the double nearest to a whole number of
    cents, and it is never below zero and never [NaN]. *)
Theorem price_is_whole_cents_not_below_zero
  (config size embroidery table bp sur e : value) (ptype : jsstring) :
  In ptype validPackageTypes ->
  get_prop config (js "basePrice") = Normal bp ->
  get_prop config (js "packaging") = Normal table ->
  get_prop table ptype = Normal sur ->
  get_prop config (js "embroidery") = Normal e ->
  missing_or_priced bp -> missing_or_priced sur -> missing_or_priced e ->
  exists price,
    calculatePrice h config size (JStr ptype) embroidery = Normal (JNum price)
    /\ price = in_cents (price_sum (amount bp) (amount sur) (amount e)
                           (truthy embroidery))
    /\ whole_cents price
    /\ not_below_zero price.
Proof.
  intros _ Hb Ht Hs He Pb Ps Pe.
  exact (calculatePrice_not_below_zero config size (JStr ptype) embroidery table
           bp sur e Hb Ht Hs He Pb Ps Pe).
Qed.

(** X6.  For a packaging type of the list and a config whose base price,
    surcharge of that type and embroidery surcharge are each missing or a
    number that is not below zero, the price of an order with embroidery is
    never lower than the price of the same order without: each step of the
    computation in double precision keeps the order. *)
Theorem embroidery_never_lowers_the_price
  (config size flag table bp sur e : value) (ptype : jsstring) :
  In ptype validPackageTypes ->
  get_prop config (js "basePrice") = Normal bp ->
  get_prop config (js "packaging") = Normal table ->
  get_prop table ptype = Normal sur ->
  get_prop config (js "embroidery") = Normal e ->
  missing_or_priced bp -> missing_or_priced sur -> missing_or_priced e ->
  truthy flag = true ->
  exists plain embroidered,
    calculatePrice h config size (JStr ptype) (JBool false) = Normal (JNum plain)
    /\ calculatePrice h config size (JStr ptype) flag = Normal (JNum embroidered)
    /\ num_le plain embroidered.
Proof.
  intros _ Hb Ht Hs He Pb Ps Pe Hflag.
  destruct (amount_not_below_zero bp Pb) as [Mb Ab].
  destruct (amount_not_below_zero sur Ps) as [Ms As].
  destruct (amount_not_below_zero e Pe) as [Me Ae].
  eexists _, _.
  split; [exact (calculatePrice_value h config size (JStr ptype) (JBool false) table
                   bp sur e Hb Ht Hs He Mb Ms Me)|].
  split; [exact (calculatePrice_value h config size (JStr ptype) flag table
                   bp sur e Hb Ht Hs He Mb Ms Me)|].
  rewrite Hflag. cbn [truthy price_sum num_add].
  assert (H0 : 0 <= amount bp + amount sur).
  { apply Qle_trans with (0 + 0); [discriminate | now apply Qplus_le_compat]. }
  apply in_cents_le; [now apply not_below_zero_round64 | now apply sum_le].
Qed.

End PriceBounds.

(** *** The file across a request *)

Lemma truthy_not_nullish (v : value) : truthy v = true -> is_nullish v = false.
Proof. destruct v; try discriminate; reflexivity. Qed.

Lemma keeps_file_ret {A} (a : A) : keeps_file (ret a).
Proof. intros s. reflexivity. Qed.

Lemma keeps_file_lift {A} (c : completion A) : keeps_file (lift c).
Proof. intros s. reflexivity. Qed.

Lemma keeps_file_get_data : keeps_file get_data.
Proof. intros s. reflexivity. Qed.

Lemma keeps_file_set_data (v : value) : keeps_file (set_data v).
Proof. intros s. reflexivity. Qed.

Lemma keeps_file_db_read : keeps_file db_read.
Proof.
  intros s. unfold db_read. destruct (file s) as [| |t] eqn:E; try exact E.
  destruct (JSON_parse t) as [v|e]; [|exact E].
  destruct (truthy v); [reflexivity | exact E].
Qed.

Lemma keeps_file_bind {A B} (m : M A) (k : A -> M B) :
  keeps_file m -> (forall a, keeps_file (k a)) -> keeps_file (bind m k).
Proof.
  intros Hm Hk s. unfold bind. specialize (Hm s).
  destruct (m s) as [s1 [a|e]]; cbn [fst] in *; [|exact Hm].
  now rewrite Hk.
Qed.

Lemma keeps_file_update_field (k : string) (f : value -> completion value) :
  keeps_file (update_field k f).
Proof.
  unfold update_field.
  repeat first [apply keeps_file_bind; [|intros ?]
               | apply keeps_file_get_data | apply keeps_file_lift
               | apply keeps_file_set_data].
Qed.

Lemma keeps_file_if {A} (c : bool) (m1 m2 : M A) :
  keeps_file m1 -> keeps_file m2 -> keeps_file (if c then m1 else m2).
Proof. now destruct c. Qed.

Lemma keeps_truthy_ret {A} (a : A) : keeps_truthy (ret a).
Proof. intros s H. exact H. Qed.

Lemma keeps_truthy_lift {A} (c : completion A) : keeps_truthy (lift c).
Proof. intros s H. exact H. Qed.

Lemma keeps_truthy_get_data : keeps_truthy get_data.
Proof. intros s H. exact H. Qed.

Lemma keeps_truthy_db_read : keeps_truthy db_read.
Proof.
  intros s H. unfold db_read. destruct (file s) as [| |t] eqn:F; try exact H.
  destruct (JSON_parse t) as [v|e]; [|exact H].
  destruct (truthy v) eqn:E; [exact E | exact H].
Qed.

Lemma keeps_truthy_bind {A B} (m : M A) (k : A -> M B) :
  keeps_truthy m -> (forall a, keeps_truthy (k a)) -> keeps_truthy (bind m k).
Proof.
  intros Hm Hk s H. unfold bind. specialize (Hm s H).
  destruct (m s) as [s1 [a|e]]; cbn [fst] in *; [|exact Hm].
  now apply Hk.
Qed.

Lemma keeps_truthy_update_field (k : string) (f : value -> completion value) :
  keeps_truthy (update_field k f).
Proof.
  intros s H. unfold update_field, bind, get_data, lift, set_data.
  destruct (get_prop (data s) (js k)) as [old|]; [|exact H].
  destruct (f old) as [new|]; [|exact H].
  destruct (set_prop (data s) (js k) new) as [d'|] eqn:E; [|exact H].
  destruct (data s); try discriminate E; injection E as <-; reflexivity.
Qed.

Lemma keeps_truthy_if {A} (c : bool) (m1 m2 : M A) :
  keeps_truthy m1 -> keeps_truthy m2 -> keeps_truthy (if c then m1 else m2).
Proof. now destruct c. Qed.

Create HintDb store.

#[local] Hint Resolve
  keeps_file_ret keeps_file_lift keeps_file_get_data keeps_file_db_read
  keeps_file_update_field keeps_file_if
  keeps_truthy_ret keeps_truthy_lift keeps_truthy_get_data keeps_truthy_db_read
  keeps_truthy_update_field keeps_truthy_if : store.

Lemma keeps_file_try_catch (m : M response) (failure : response) :
  keeps_file m -> forall s, file (fst (try_catch m failure s)) = file s.
Proof.
  intros Hm s. unfold try_catch. specialize (Hm s).
  now destruct (m s) as [s1 [r|e]].
Qed.

Lemma disciplined_ret (success : nat) (r : response) :
  status r <> success -> disciplined success (ret r).
Proof. intros Hr s H. split; [exact H|]. right. now split. Qed.

Lemma disciplined_throw (success : nat) (e : error) :
  disciplined success (lift (Throw e)).
Proof. intros s H. now split. Qed.

Lemma disciplined_bind {A} (success : nat) (m : M A) (k : A -> M response) :
  keeps_file m -> keeps_truthy m -> (forall a, disciplined success (k a)) ->
  disciplined success (bind m k).
Proof.
  intros Hf Ht Hk s H. unfold bind. specialize (Hf s). specialize (Ht s H).
  destruct (m s) as [s1 [a|e]]; cbn [fst] in *; [|now split].
  specialize (Hk a s1 Ht). unfold settled in *.
  destruct (k a s1) as [s2 [r|e]]; now rewrite <- Hf.
Qed.

Lemma disciplined_write (success : nat) (post : M response) :
  (forall s, truthy (data s) = true ->
             exists r, post s = (s, Normal r) /\ status r = success) ->
  disciplined success (bind db_write (fun _ => post)).
Proof.
  intros Hpost s H. unfold bind, db_write. rewrite H.
  destruct (Hpost {| file := Writer_write (file s) (JSON_stringify (data s));
                     data := data s |} H) as (r & -> & Hr).
  split; [exact H|]. left. now split.
Qed.

Lemma settled_try_catch (success : nat) (m : M response) (failure : response) :
  disciplined success m -> status failure <> success ->
  forall s, truthy (data s) = true -> settled success s (try_catch m failure s).
Proof.
  intros Hm Hf s H. unfold try_catch. specialize (Hm s H).
  destruct (m s) as [s1 [r|e]]; [exact Hm|].
  destruct Hm as [Ht Hfile]. split; [exact Ht|]. right. now split.
Qed.

(** The steps of a handler's body, one after the other. *)
Ltac discipline :=
  repeat first
    [ apply disciplined_bind;
      [solve [auto with store] | solve [auto with store] | intros ?]
    | apply disciplined_ret; discriminate
    | apply disciplined_throw
    | match goal with
      | |- disciplined _ (match ?x with _ => _ end) => destruct x
      end ].

Lemma read_after_write (k : string) (answer : value -> response) (success : nat) :
  (forall v, status (answer v) = success) ->
  forall s, truthy (data s) = true ->
    exists r,
      bind get_data (fun d => bind (lift (get_prop d (js k)))
                                (fun v => ret (answer v))) s = (s, Normal r)
      /\ status r = success.
Proof.
  intros Ha s H. unfold bind, get_data, lift, ret.
  rewrite (get_prop_defined _ _ (truthy_not_nullish _ H)). eauto.
Qed.

Ltac quiet :=
  repeat first
    [ apply keeps_file_bind; [solve [auto with store] | intros ?]
    | solve [auto with store]
    | match goal with
      | |- keeps_file (match ?x with _ => _ end) => destruct x
      end ].

Section Discipline.

Variable h : host.
Variable message : error -> jsstring.

(** X7.  The four handlers that change the store (create order, delete
    order, update config, update settings), run on a store whose data are
    truthy as [initDB] leaves them: when the answer is the success status
    (201 for a creation, 200 otherwise) the file holds the whole document
    that is in memory; with any other answer (400, 404, 500) the file is
    exactly as it was.  The data in memory stay truthy. *)
Theorem file_is_written_on_success_only
  (req : value) (id now1 now2 : jsstring) (st : db) :
  truthy (data st) = true ->
  settled 201 st (post_api_orders h req id now1 now2 st)
  /\ settled 200 st (delete_api_orders id st)
  /\ settled 200 st (post_api_config_update req st)
  /\ settled 200 st (put_api_settings message req st).
Proof.
  intros H. split; [|split; [|split]].
  - apply settled_try_catch; [|discriminate|exact H].
    discipline. cbv zeta. discipline.
    apply disciplined_write. intros s Hs. eexists. split; reflexivity.
  - apply settled_try_catch; [|discriminate|exact H].
    discipline. cbv zeta. discipline.
    apply disciplined_write. intros s Hs. eexists. split; reflexivity.
  - apply settled_try_catch; [|discriminate|exact H].
    unfold update_config. discipline.
    apply disciplined_write.
    apply (read_after_write "config" (fun v => {| status := 200; body := v |})).
    reflexivity.
  - unfold put_api_settings, try_catch_details.
    set (m := if negb (truthy req) || negb (is_object req) then _ else _).
    assert (Hm : disciplined 200 m).
    { subst m. discipline.
      apply disciplined_write.
      apply (read_after_write "settings"
               (fun v => {| status := 200;
                            body := JObj [(js "success", JBool true);
                                          (js "settings", v)] |})).
      reflexivity. }
    specialize (Hm st H).
    destruct (m st) as [s1 [r|e]]; [exact Hm|].
    destruct Hm as [Ht Hfile]. split; [exact Ht|]. right.
    split; [discriminate | exact Hfile].
Qed.

(** X8.  The four handlers that only read (list orders, get config, get
    settings, get stats) never change the file, whatever the store and
    whatever they answer. *)
Theorem reading_keeps_the_file (st : db) :
  file (fst (get_api_orders st)) = file st
  /\ file (fst (get_api_config st)) = file st
  /\ file (fst (get_api_settings st)) = file st
  /\ file (fst (get_api_stats h st)) = file st.
Proof.
  repeat split; apply keeps_file_try_catch; quiet.
Qed.

End Discipline.

(** *** The settings *)

Section SettingsUpdate.

Variable message : error -> jsstring.

Lemma put_api_settings_rejects (req : value) (st : db) :
  negb (truthy req) || negb (is_object req) = true ->
  put_api_settings message req st
  = (st, {| status := 400; body := error_body "Invalid settings data" |}).
Proof.
  intros H. unfold put_api_settings, try_catch_details. now rewrite H.
Qed.

Lemma put_api_settings_accepts
  (req d : value) (doc : list (jsstring * value)) :
  truthy req = true -> is_object req = true ->
  let merged := spread (spread [] (js_or (field doc "settings") (JObj []))) req in
  let doc' := assoc_set doc (js "settings") (JObj merged) in
  put_api_settings message req {| file := Content (Parses (JObj doc)); data := d |}
  = ({| file := Content (JSON_stringify (JObj doc')); data := JObj doc' |},
     {| status := 200; body := settings_body (JObj merged) |}).
Proof.
  intros Ht Ho merged doc'.
  unfold put_api_settings, try_catch_details. rewrite Ht, Ho. cbn [negb orb].
  rewrite bind_run. unfold db_read at 1. cbn [file JSON_parse truthy data].
  rewrite bind_run. unfold get_data at 1. cbn [data].
  rewrite bind_run. unfold lift at 1. cbn [get_prop]. fold (field doc "settings").
  rewrite bind_run.
  assert (Hfirst :
    (if negb (truthy (field doc "settings"))
     then update_field "settings" (fun _ => Normal (JObj []))
     else ret tt) {| file := Content (Parses (JObj doc)); data := JObj doc |}
    = ({| file := Content (Parses (JObj doc));
          data := JObj (if truthy (field doc "settings") then doc
                        else assoc_set doc (js "settings") (JObj [])) |},
       Normal tt)).
  { destruct (truthy (field doc "settings")); cbn [negb]; [reflexivity|].
    now erewrite update_field_object by reflexivity. }
  rewrite Hfirst. clear Hfirst.
  rewrite bind_run.
  assert (Hdoc :
    assoc_set (if truthy (field doc "settings") then doc
               else assoc_set doc (js "settings") (JObj []))
      (js "settings")
      (JObj (spread (spread []
                       (field (if truthy (field doc "settings") then doc
                               else assoc_set doc (js "settings") (JObj []))
                          "settings")) req))
    = doc').
  { subst doc' merged. unfold js_or.
    destruct (truthy (field doc "settings")); [reflexivity|].
    now rewrite field_assoc_set_same, assoc_set_twice. }
  erewrite update_field_object by reflexivity.
  rewrite Hdoc.
  rewrite bind_run. unfold db_write at 1. cbn [data truthy file Writer_write].
  rewrite bind_run. unfold get_data at 1. cbn [data].
  rewrite bind_run. unfold lift at 1. cbn [get_prop].
  subst doc'. rewrite lookup_assoc_set_same. reflexivity.
Qed.

(** X9.  PUT and POST /api/settings.  A body that is falsy or not of type
    object is answered 400 and nothing changes.  Any other body (an object,
    or an array) is merged into the settings of the file, which count as
    empty when falsy: a key of the body takes the body's value, every
    other key keeps the value it had; the document, its other members
    untouched, is written and [{ success: true, settings }] is answered
    with the merged settings. *)
Theorem settings_update_merges_the_body
  (update : value -> db -> db * response)
  (req d : value) (doc : list (jsstring * value)) :
  In update [put_api_settings message; post_api_settings message] ->
  let old := js_or (field doc "settings") (JObj []) in
  NoDup (map fst (own_entries old)) ->
  NoDup (map fst (own_entries req)) ->
  (negb (truthy req) || negb (is_object req) = true ->
   forall st,
     update req st
     = (st, {| status := 400; body := error_body "Invalid settings data" |}))
  /\ (negb (truthy req) || negb (is_object req) = false ->
      exists merged,
        let doc' := assoc_set doc (js "settings") (JObj merged) in
        update req {| file := Content (Parses (JObj doc)); data := d |}
        = ({| file := Content (JSON_stringify (JObj doc')); data := JObj doc' |},
           {| status := 200; body := settings_body (JObj merged) |})
        /\ (forall k,
              lookup merged k
              = match lookup (own_entries req) k with
                | Some v => Some v
                | None => lookup (own_entries old) k
                end)
        /\ (forall k, k <> js "settings" -> lookup doc' k = lookup doc k)).
Proof.
  intros Hupdate old Hold Hreq.
  assert (E : update = put_api_settings message).
  { destruct Hupdate as [<-|[<-|[]]]; reflexivity. }
  subst update. split.
  - intros H st. now apply put_api_settings_rejects.
  - intros H. apply orb_false_elim in H as [Ht Ho].
    apply negb_false_iff in Ht, Ho.
    exists (spread (spread [] old) req). cbv zeta.
    split; [exact (put_api_settings_accepts req d doc Ht Ho)|].
    split.
    + intros k. now apply lookup_spread.
    + intros k Hk. apply lookup_assoc_set_other. congruence.
Qed.

End SettingsUpdate.

(** *** A file that cannot be read *)

Lemma db_read_fails (st : db) :
  unusable (file st) -> exists e, db_read st = (st, Throw e).
Proof.
  unfold db_read.
  intros [(w & H)|[H|[H|(v & H)]]]; rewrite H; cbn [JSON_parse]; eauto.
Qed.

Lemma try_catch_read_fails (k : M response) (on_error : response) (st : db) :
  unusable (file st) ->
  try_catch (bind db_read (fun _ => k)) on_error st = (st, on_error).
Proof.
  intros H. destruct (db_read_fails st H) as (e & He).
  unfold try_catch. now rewrite bind_run, He.
Qed.

Lemma validateConfigData_not_nullish (req : value) (r : option string) :
  validateConfigData req = Normal r -> is_nullish req = false.
Proof. destruct req; try discriminate; reflexivity. Qed.

Section StorageErrors.

Variable h : host.
Variable message : error -> jsstring.

(** X10.  With a [db.json] that cannot be read, is blank or is not JSON,
    the handlers that read (list orders, get config, get settings, get
    stats) answer 500 with their own message; file and data stay as they
    are. *)
Theorem unusable_file_fails_the_reads (st : db) :
  unusable (file st) ->
  get_api_orders st = (st, failure "Failed to fetch orders")
  /\ get_api_config st = (st, failure "Failed to fetch configuration")
  /\ get_api_settings st = (st, failure "Failed to fetch settings")
  /\ get_api_stats h st = (st, failure "Failed to fetch statistics").
Proof.
  intros H. repeat split; now apply try_catch_read_fails.
Qed.

(** X11.  With such a file, a request that changes the store and passes
    its input check (a valid order, a non-empty ID, a valid config update,
    a settings body that is an object) is answered 500 with the message of
    its handler, the settings handler adding the details of the error;
    nothing is written and the data in memory stay as they are. *)
Theorem unusable_file_fails_the_writes
  (req : value) (id now1 now2 : jsstring) (st : db) :
  unusable (file st) ->
  (valid_order req ->
   post_api_orders h req id now1 now2 st = (st, failure "Failed to create order"))
  /\ (id <> [] ->
      delete_api_orders id st = (st, failure "Failed to delete order"))
  /\ (validateConfigData req = Normal None ->
      post_api_config_update req st = (st, failure "Failed to update configuration"))
  /\ (truthy req = true -> is_object req = true ->
      exists e,
        put_api_settings message req st
        = (st, {| status := 500;
                  body := JObj [(js "error", JStr (js "Failed to update settings"));
                                (js "details", JStr (message e))] |})).
Proof.
  intros H. destruct (db_read_fails st H) as (e & He).
  split; [|split; [|split]].
  - intros Hvalid.
    pose proof (valid_order_accepted req Hvalid) as Hv.
    pose proof (valid_order_not_nullish req Hvalid) as Hreq.
    unfold post_api_orders, try_catch.
    rewrite bind_run. unfold lift at 1. rewrite Hv.
    do 4 (rewrite bind_run; unfold lift at 1; rewrite (get_prop_defined req _ Hreq)).
    now rewrite bind_run, He.
  - intros Hid. unfold delete_api_orders.
    assert (Ht : truthy (JStr id) = true) by (destruct id; [contradiction | reflexivity]).
    rewrite Ht. cbn [negb]. now apply try_catch_read_fails.
  - intros Hv.
    pose proof (validateConfigData_not_nullish req _ Hv) as Hreq.
    unfold post_api_config_update, try_catch.
    rewrite bind_run. unfold lift at 1. rewrite Hv.
    do 3 (rewrite bind_run; unfold lift at 1; rewrite (get_prop_defined req _ Hreq)).
    now rewrite bind_run, He.
  - intros Ht Ho. exists e.
    unfold put_api_settings, try_catch_details. rewrite Ht, Ho. cbn [negb orb].
    now rewrite bind_run, He.
Qed.

End StorageErrors.

(** *** Start-up, for every file *)

Lemma default_config_keys : NoDup (map fst (own_entries default_config)).
Proof. repeat constructor; cbn; intuition discriminate. Qed.

Lemma loadable_dec (f : file_state) : loadable f \/ ~ loadable f.
Proof.
  destruct f as [|w|[| |v|v]]; try (left; exact I); try (right; intros []).
  destruct v; try (left; exact I). right. intros [].
Qed.

(** [initDB] raises on a file it cannot load. *)
Lemma initDB_raises (f : file_state) :
  ~ loadable f -> exists e, snd (initDB f) = Throw e.
Proof.
  destruct f as [|w|[| |v|v]]; intros H; try (exfalso; apply H; exact I).
  - rewrite initDB_unreadable. cbn [snd]. eauto.
  - destruct v; try (exfalso; apply H; exact I).
    eexists. reflexivity.
Qed.

(** X12.  [initDB] completes exactly on the files it can load: every file
    but one that the process cannot read and one whose text is a JSON
    object inside white space that JSON does not allow.  The document it
    then leaves, in memory and on disk alike, is the file's document when
    the file held a JSON object and the default document otherwise,
    completed: the stored orders and settings are kept when truthy (an
    empty list, an empty object otherwise), every other stored member is
    left as it is, and the config is an object with a truthy packaging
    member in which every stored member wins over the default (a stored
    falsy packaging apart). *)
Theorem initDB_keeps_what_is_stored (f : file_state) :
  (snd (initDB f) = Normal tt <-> loadable f)
  /\ (loadable f ->
  exists doc doc' cfg',
    (f = Content (Parses (JObj doc))
     \/ (not_a_json_object f /\ JObj doc = defaultData))
    /\ initDB f
       = ({| file := Content (JSON_stringify (JObj doc')); data := JObj doc' |},
          Normal tt)
    /\ field doc' "orders" = js_or (field doc "orders") (JArr [])
    /\ field doc' "settings" = js_or (field doc "settings") (JObj [])
    /\ (forall k, ~ In k [js "orders"; js "config"; js "settings"] ->
                  lookup doc' k = lookup doc k)
    /\ field doc' "config" = JObj cfg'
    /\ truthy (field cfg' "packaging") = true
    /\ (let stored := js_or (field doc "config") (JObj []) in
        NoDup (map fst (own_entries stored)) ->
        forall k v,
          lookup (own_entries stored) k = Some v ->
          k <> js "packaging" \/ truthy v = true ->
          lookup cfg' k = Some v)).
Proof.
  split.
  { split.
    - intros H. destruct (loadable_dec f) as [Hl | Hl]; [exact Hl|].
      destruct (initDB_raises f Hl) as (e & He). congruence.
    - intros Hl. destruct (initializeDbFile_object f Hl) as (doc & E & _).
      destruct (initDB_completes f doc E) as (doc' & Hinit & _).
      now rewrite Hinit. }
  intros Hl.
  assert (Hdoc : exists doc,
            initializeDbFile f = Normal (Content (Parses (JObj doc)))
            /\ (f = Content (Parses (JObj doc))
                \/ (not_a_json_object f /\ JObj doc = defaultData))).
  { destruct (initializeDbFile_object f Hl) as (doc & E & [Hf|Hf]).
    - exists doc. split; [exact E|]. now left.
    - pose proof (initializeDbFile_resets f Hf) as E'.
      rewrite E' in E. injection E as E. exists doc. rewrite <- E.
      split; [exact E'|]. right. now split. }
  destruct Hdoc as (doc & Hf & Hcase).
  exists doc.
  unfold initDB. rewrite Hf.
  rewrite bind_run. unfold db_read at 1. cbn [file JSON_parse truthy].
  rewrite bind_run. unfold get_data at 1. cbn [data].
  rewrite bind_run. unfold set_data at 1. cbn [file js_or truthy].
  rewrite bind_run.
  erewrite update_field_object by reflexivity.
  set (d1 := assoc_set doc (js "orders") _).
  rewrite bind_run.
  erewrite update_field_object by reflexivity.
  set (merged := spread (spread [] default_config) (js_or (field d1 "config") (JObj []))).
  set (d2 := assoc_set d1 (js "config") _).
  rewrite bind_run.
  erewrite update_field_object by reflexivity.
  set (d3 := assoc_set d2 (js "settings") _).
  assert (H3 : field d3 "config" = JObj merged).
  { unfold d3, field. rewrite lookup_assoc_set_other by (apply str_eqb_neq; reflexivity).
    unfold d2. now rewrite lookup_assoc_set_same. }
  assert (H1 : field d1 "config" = field doc "config").
  { unfold d1. now apply field_assoc_set_other. }
  set (cfg' := if negb (truthy (field merged "packaging"))
               then assoc_set merged (js "packaging") default_packaging
               else merged).
  rewrite bind_run.
  rewrite (update_field_object "config" _ (JObj cfg') _ d3).
  2: { rewrite H3. cbn [get_prop cbind]. fold (field merged "packaging").
       unfold cfg'. now destruct (negb (truthy (field merged "packaging"))). }
  unfold db_write. cbn [data file truthy Writer_write].
  eexists. exists cfg'.
  split; [exact Hcase|]. split; [reflexivity|].
  split; [|split; [|split; [|split; [|split]]]].
  - rewrite field_assoc_set_other by reflexivity.
    unfold d3. rewrite field_assoc_set_other by reflexivity.
    unfold d2. rewrite field_assoc_set_other by reflexivity.
    unfold d1. now rewrite field_assoc_set_same.
  - rewrite field_assoc_set_other by reflexivity.
    unfold d3. rewrite field_assoc_set_same.
    unfold d2. rewrite field_assoc_set_other by reflexivity.
    unfold d1. now rewrite field_assoc_set_other by reflexivity.
  - intros k Hk.
    assert (Ho : js "orders" <> k) by (intros <-; apply Hk; cbn; tauto).
    assert (Hc : js "config" <> k) by (intros <-; apply Hk; cbn; tauto).
    assert (Hs : js "settings" <> k) by (intros <-; apply Hk; cbn; tauto).
    rewrite (lookup_assoc_set_other _ _ _ _ Hc).
    unfold d3. rewrite (lookup_assoc_set_other _ _ _ _ Hs).
    unfold d2. rewrite (lookup_assoc_set_other _ _ _ _ Hc).
    unfold d1. now rewrite (lookup_assoc_set_other _ _ _ _ Ho).
  - apply field_assoc_set_same.
  - unfold cfg'. destruct (truthy (field merged "packaging")) eqn:E; cbn [negb].
    + exact E.
    + now rewrite field_assoc_set_same.
  - cbv zeta. intros Hnd k v Hk Hor.
    assert (Hm : lookup merged k = Some v).
    { unfold merged. rewrite H1.
      rewrite (lookup_spread _ _ k default_config_keys Hnd). now rewrite Hk. }
    unfold cfg'. destruct (truthy (field merged "packaging")) eqn:E; cbn [negb].
    + exact Hm.
    + destruct Hor as [Hne|Ht].
      * rewrite lookup_assoc_set_other by congruence. exact Hm.
      * destruct (list_eq_dec N.eq_dec k (js "packaging")) as [->|Hne].
        -- unfold field in E. rewrite Hm in E. congruence.
        -- rewrite lookup_assoc_set_other by congruence. exact Hm.
Qed.

(** *** The breakdowns of the stats *)

Lemma tally_cons (k s : string) (o : value) (os : list value) (t : jsstring) :
  member o k = JStr t ->
  tally k s (o :: os)
  = ((if str_eqb t (js s) then 1 else 0) + tally k s os)%nat.
Proof.
  intros H. unfold tally. cbn [filter]. unfold member_is at 1. rewrite H.
  cbn [strict_eq_str]. now destruct (str_eqb t (js s)).
Qed.

Lemma sizes_partition (os : list value) :
  Forall (one_of "size" sizes) os ->
  (tally "size" "M" os + tally "size" "L" os + tally "size" "XL" os
   + tally "size" "2XL" os = List.length os)%nat.
Proof.
  induction 1 as [|o os (s & Hs & Hin) _ IH]; [reflexivity|].
  rewrite !(tally_cons "size" _ o os s Hs). cbn [List.length].
  cbn [In sizes] in Hin.
  destruct Hin as [<-|[<-|[<-|[<-|[]]]]];
    change (str_eqb (js "M") (js "M")) with true;
    change (str_eqb (js "L") (js "L")) with true;
    change (str_eqb (js "XL") (js "XL")) with true;
    change (str_eqb (js "2XL") (js "2XL")) with true;
    repeat match goal with
           | |- context [str_eqb (js ?a) (js ?b)] =>
               change (str_eqb (js a) (js b)) with false
           end;
    cbv iota; lia.
Qed.

Lemma packaging_partition (os : list value) :
  Forall (one_of "packaging" validPackageTypes) os ->
  (tally "packaging" "basic" os + tally "packaging" "branded" os
   + tally "packaging" "box" os = List.length os)%nat.
Proof.
  induction 1 as [|o os (s & Hs & Hin) _ IH]; [reflexivity|].
  rewrite !(tally_cons "packaging" _ o os s Hs). cbn [List.length].
  cbn [In validPackageTypes] in Hin.
  destruct Hin as [<-|[<-|[<-|[]]]];
    change (str_eqb (js "basic") (js "basic")) with true;
    change (str_eqb (js "branded") (js "branded")) with true;
    change (str_eqb (js "box") (js "box")) with true;
    repeat match goal with
           | |- context [str_eqb (js ?a) (js ?b)] =>
               change (str_eqb (js a) (js b)) with false
           end;
    cbv iota; lia.
Qed.

Section Breakdowns.

Variable h : host.

(** X13.  Over orders that each have a size and a packaging type of the
    lists (and a numeric price and a creation instant), the counts per
    size of the stats add up to totalOrders, and so do the counts per
    packaging type: no order is counted twice or left out. *)
Theorem breakdowns_add_up_to_the_total (os : list value) :
  Forall (dated h) os ->
  Forall (fun o => exists q, member o "price" = JNum (Num q)) os ->
  Forall (one_of "size" sizes) os ->
  Forall (one_of "packaging" validPackageTypes) os ->
  exists stats sorted m l xl xxl basic branded box,
    compute_stats h os = Normal (stats, sorted)
    /\ member stats "totalOrders" = count_of (List.length os)
    /\ member stats "sizeBreakdown"
       = JObj [(js "M", count_of m); (js "L", count_of l);
               (js "XL", count_of xl); (js "2XL", count_of xxl)]
    /\ member stats "packagingBreakdown"
       = JObj [(js "basic", count_of basic); (js "branded", count_of branded);
               (js "box", count_of box)]
    /\ (m + l + xl + xxl = List.length os)%nat
    /\ (basic + branded + box = List.length os)%nat.
Proof.
  intros Hd Hp Hs Hk.
  assert (Hm : Forall (fun o => missing_or_number (member o "price") = true) os).
  { eapply Forall_impl; [|exact Hp]. intros o (q & ->). reflexivity. }
  pose proof (compute_stats_value h os Hd Hm) as Hstats.
  exists (stats_body os (added_up (Num 0) os) (most_recent_first h os)),
         (most_recent_first h os).
  exists (tally "size" "M" os), (tally "size" "L" os), (tally "size" "XL" os),
         (tally "size" "2XL" os).
  exists (tally "packaging" "basic" os), (tally "packaging" "branded" os),
         (tally "packaging" "box" os).
  split; [exact Hstats|].
  split; [reflexivity|]. split; [reflexivity|]. split; [reflexivity|].
  split; [exact (sizes_partition os Hs) | exact (packaging_partition os Hk)].
Qed.

End Breakdowns.

(** *** The config stays sound *)

Lemma is_json_member (kvs : list (jsstring * value)) (k : jsstring) (v : value) :
  is_json (JObj kvs) = true -> In (k, v) kvs -> is_json v = true.
Proof.
  induction kvs as [|[k0 v0] rest IH]; [contradiction|].
  cbn [is_json]. intros H [E|Hin]; apply andb_prop in H as [H0 Hrest].
  - now injection E as _ <-.
  - now apply IH.
Qed.

Lemma In_indexed (l : list value) (i : nat) (k : jsstring) (v : value) :
  In (k, v) (indexed i l) -> In v l.
Proof.
  revert i. induction l as [|x rest IH]; intros i; [contradiction|].
  cbn [indexed]. intros [E|Hin].
  - left. now injection E.
  - right. exact (IH _ Hin).
Qed.

Lemma is_json_entry (v : value) (kv : jsstring * value) :
  is_json v = true -> In kv (own_entries v) -> is_json (snd kv) = true.
Proof.
  destruct kv as [k x]. cbn [snd].
  destruct v as [| | | |s|l|kvs]; cbn [own_entries]; try contradiction.
  - intros _ Hin. apply In_indexed, in_map_iff in Hin as (c & <- & _). reflexivity.
  - cbn [is_json]. intros H Hin. apply In_indexed in Hin.
    rewrite forallb_forall in H. now apply H.
  - intros H Hin. exact (is_json_member kvs k x H Hin).
Qed.

Lemma lookup_In_key (kvs : list (jsstring * value)) (k : jsstring) (v : value) :
  lookup kvs k = Some v -> In (k, v) kvs.
Proof.
  induction kvs as [|[k0 v0] rest IH]; [discriminate|].
  cbn [lookup]. destruct (str_eqb k0 k) eqn:E.
  - apply str_eqb_eq in E. subst k0. intros [= <-]. now left.
  - intros H. right. now apply IH.
Qed.

Lemma field_lookup (kvs : list (jsstring * value)) (k : string) (v : value) :
  field kvs k = v -> v <> JUndef -> lookup kvs (js k) = Some v.
Proof.
  unfold field. destruct (lookup kvs (js k)); intros <- H; [reflexivity|].
  now contradiction H.
Qed.

Lemma price_is_defined (v : value) : price_at_least_zero v -> v <> JUndef.
Proof. intros (q & -> & _). discriminate. Qed.

Lemma jsonify_price (v : value) : price_at_least_zero v -> jsonify v = v.
Proof. intros (q & -> & _). reflexivity. Qed.

(** A price that the validation lets through and JSON text can hold. *)
Lemma accepted_price (v : value) :
  match v with JNum n => num_ltb0 n | _ => true end = false ->
  is_json v = true -> price_at_least_zero v.
Proof.
  destruct v as [| | |[|s|q]| | |]; cbn [is_json num_ltb0];
    try discriminate; try (intros _ H; discriminate H).
  intros H _. exists q. split; [reflexivity|].
  apply negb_false_iff in H. now apply Qle_bool_iff.
Qed.

Lemma validateConfigData_accepted (partial : list (jsstring * value)) :
  validateConfigData (JObj partial) = Normal None ->
  bad_price (field partial "basePrice") = false
  /\ existsb bad_entry (own_entries (field partial "packaging")) = false
  /\ bad_price (field partial "embroidery") = false.
Proof.
  unfold validateConfigData. cbn [get_prop cbind].
  fold (field partial "basePrice") (field partial "packaging")
       (field partial "embroidery").
  rewrite entries_checked. cbn [cbind].
  destruct (bad_price (field partial "basePrice")); [discriminate|].
  destruct (existsb bad_entry (own_entries (field partial "packaging")));
    [discriminate|].
  destruct (bad_price (field partial "embroidery")); [discriminate|].
  intros _. repeat split.
Qed.

Lemma In_assoc_set (kvs : list (jsstring * value)) (k : jsstring) (v : value)
  (kv : jsstring * value) :
  In kv (assoc_set kvs k v) -> kv = (k, v) \/ In kv kvs.
Proof.
  induction kvs as [|[k0 v0] rest IH]; cbn [assoc_set].
  - intros [<-|[]]. now left.
  - destruct (str_eqb k0 k).
    + intros [<-|H]; [now left | right; now right].
    + intros [<-|H]; [right; now left|].
      destruct (IH H) as [E|Hin]; [now left | right; now right].
Qed.

Lemma In_spread (src : value) (target : list (jsstring * value))
  (kv : jsstring * value) :
  In kv (spread target src) -> In kv (own_entries src) \/ In kv target.
Proof.
  unfold spread. revert target.
  induction (own_entries src) as [|[k0 v0] rest IH]; intros target;
    cbn [fold_left fst snd]; [now right|].
  intros H. destruct (IH _ H) as [Hin|Hin]; [left; now right|].
  destruct (In_assoc_set _ _ _ _ Hin) as [->|Hin']; [left; now left | now right].
Qed.

Lemma lookup_assoc_set_keeps (kvs : list (jsstring * value)) (k k' : jsstring)
  (v : value) :
  lookup kvs k' <> None -> lookup (assoc_set kvs k v) k' <> None.
Proof.
  intros H. destruct (list_eq_dec N.eq_dec k k') as [->|Hne].
  - now rewrite lookup_assoc_set_same.
  - now rewrite lookup_assoc_set_other.
Qed.

Lemma lookup_spread_keeps (src : value) (target : list (jsstring * value))
  (k : jsstring) :
  lookup target k <> None \/ lookup (own_entries src) k <> None ->
  lookup (spread target src) k <> None.
Proof.
  unfold spread. revert target.
  induction (own_entries src) as [|[k0 v0] rest IH]; intros target;
    cbn [fold_left fst snd].
  - intros [H|H]; [exact H | now contradiction H].
  - intros [H|H].
    + apply IH. left. now apply lookup_assoc_set_keeps.
    + apply IH. cbn [lookup] in H. destruct (str_eqb k0 k) eqn:E.
      * apply str_eqb_eq in E. subst k0. left. now rewrite lookup_assoc_set_same.
      * now right.
Qed.

(** The members of the config as the update handler leaves it. *)
Lemma updated_config_fields (cfg partial : list (jsstring * value)) :
  let cfg' := updated_config cfg partial in
  field cfg' "basePrice"
  = (if is_undefined (field partial "basePrice")
     then field cfg "basePrice" else field partial "basePrice")
  /\ field cfg' "embroidery"
     = (if is_undefined (field partial "embroidery")
        then field cfg "embroidery" else field partial "embroidery")
  /\ field cfg' "packaging"
     = (if truthy (field partial "packaging")
        then JObj (spread (spread [] (field cfg "packaging")) (field partial "packaging"))
        else field cfg "packaging").
Proof.
  intros cfg'. unfold cfg', updated_config.
  set (basePrice := field partial "basePrice").
  set (packaging := field partial "packaging") in *.
  set (embroidery := field partial "embroidery").
  set (c1 := if negb (is_undefined basePrice)
             then assoc_set cfg (js "basePrice") basePrice else cfg).
  assert (Hp1 : field c1 "packaging" = field cfg "packaging").
  { unfold c1. destruct (negb (is_undefined basePrice)); [|reflexivity].
    now apply field_assoc_set_other. }
  set (c2 := if truthy packaging
             then assoc_set c1 (js "packaging")
                    (JObj (spread (spread [] (field c1 "packaging")) packaging))
             else c1).
  split; [|split].
  - destruct (is_undefined embroidery); cbn [negb];
      rewrite ?field_assoc_set_other by reflexivity;
      unfold c2; destruct (truthy packaging);
      rewrite ?field_assoc_set_other by reflexivity;
      unfold c1; destruct (is_undefined basePrice); cbn [negb];
      rewrite ?field_assoc_set_same; reflexivity.
  - destruct (is_undefined embroidery); cbn [negb];
      rewrite ?field_assoc_set_same; [|reflexivity].
    unfold c2; destruct (truthy packaging);
      rewrite ?field_assoc_set_other by reflexivity;
      unfold c1; destruct (is_undefined basePrice); cbn [negb];
      rewrite ?field_assoc_set_other by reflexivity; reflexivity.
  - destruct (negb (is_undefined embroidery));
      rewrite ?field_assoc_set_other by reflexivity;
      unfold c2; destruct (truthy packaging);
      rewrite ?field_assoc_set_same, ?Hp1; reflexivity.
Qed.

Lemma updated_price (old new : value) :
  price_at_least_zero old -> bad_price new = false -> is_json new = true ->
  price_at_least_zero (if is_undefined new then old else new).
Proof.
  intros Hold Hbad Hjson. destruct (is_undefined new) eqn:E; [exact Hold|].
  unfold bad_price in Hbad. rewrite E in Hbad. cbn [negb andb] in Hbad.
  now apply accepted_price.
Qed.

Lemma default_config_sound : sound_config default_config.
Proof.
  eexists _, _. split; [reflexivity|].
  split; [exists 45; split; [reflexivity | discriminate]|].
  split; [exists 20; split; [reflexivity | discriminate]|].
  split; [reflexivity|]. split.
  - repeat constructor; cbn; try tauto;
      eexists; (split; [reflexivity | discriminate]).
  - intros k [<-|[<-|[<-|[]]]]; discriminate.
Qed.

Lemma updated_config_sound (cfg partial : list (jsstring * value)) :
  sound_config (JObj cfg) ->
  validateConfigData (JObj partial) = Normal None ->
  is_json (JObj partial) = true ->
  sound_config (JObj (updated_config cfg partial)).
Proof.
  intros (c & pk & [= <-] & Hb & He & Hp & Hall & Hkeys) Hv Hjson.
  destruct (validateConfigData_accepted partial Hv) as (Vb & Vp & Ve).
  destruct (updated_config_fields cfg partial) as (Eb & Ee & Ep).
  assert (Hmember : forall k, field partial k <> JUndef -> is_json (field partial k) = true).
  { intros k Hk. apply (is_json_member partial (js k) _ Hjson).
    apply lookup_In_key. now apply field_lookup. }
  assert (Hprice : forall k,
             bad_price (field partial k) = false ->
             is_undefined (field partial k) = false ->
             is_json (field partial k) = true).
  { intros k _ Hu. apply Hmember. intros E. now rewrite E in Hu. }
  exists (updated_config cfg partial).
  exists (if truthy (field partial "packaging")
          then spread (spread [] (JObj pk)) (field partial "packaging")
          else pk).
  split; [reflexivity|]. split; [|split; [|split]].
  - rewrite Eb. destruct (is_undefined (field partial "basePrice")) eqn:E;
      [exact Hb|].
    pose proof (updated_price _ _ Hb Vb (Hprice _ Vb E)) as H. now rewrite E in H.
  - rewrite Ee. destruct (is_undefined (field partial "embroidery")) eqn:E;
      [exact He|].
    pose proof (updated_price _ _ He Ve (Hprice _ Ve E)) as H. now rewrite E in H.
  - rewrite Ep, Hp. now destruct (truthy (field partial "packaging")).
  - destruct (truthy (field partial "packaging")) eqn:Et; [|now split].
    assert (Hpj : is_json (field partial "packaging") = true).
    { apply Hmember. intros E. now rewrite E in Et. }
    split.
    + apply Forall_forall. intros kv Hin.
      destruct (In_spread _ _ _ Hin) as [Hnew|Hold].
      * pose proof (is_json_entry _ kv Hpj Hnew) as Hj.
        assert (Vkv : bad_entry kv = false).
        { destruct (bad_entry kv) eqn:B; [|reflexivity].
          assert (existsb bad_entry (own_entries (field partial "packaging")) = true)
            by (apply existsb_exists; eauto).
          congruence. }
        unfold bad_entry in Vkv. apply orb_false_elim in Vkv as [Vk Vn].
        apply negb_false_iff, existsb_str_eqb in Vk.
        split; [exact Vk | now apply accepted_price].
      * destruct (In_spread _ _ _ Hold) as [Hpk|[]].
        rewrite Forall_forall in Hall. now apply Hall.
    + intros k Hk. apply lookup_spread_keeps. left.
      apply lookup_spread_keeps. right. now apply Hkeys.
Qed.

Lemma In_jsonify_props (kvs : list (jsstring * value)) (kv : jsstring * value) :
  In kv (jsonify_props kvs) ->
  exists v, In (fst kv, v) kvs /\ snd kv = jsonify v.
Proof.
  induction kvs as [|[k0 v0] rest IH]; [contradiction|].
  rewrite jsonify_props_cons.
  assert (Hrest : In kv (jsonify_props rest) ->
                  exists v, In (fst kv, v) ((k0, v0) :: rest) /\ snd kv = jsonify v).
  { intros H. destruct (IH H) as (v & Hin & E). exists v. split; [now right | exact E]. }
  destruct v0; try exact Hrest;
    (intros [<-|H]; [eexists; split; [now left | reflexivity] | now apply Hrest]).
Qed.

Lemma jsonify_sound_config (cfg : value) :
  sound_config cfg -> sound_config (jsonify cfg).
Proof.
  intros (c & pk & -> & Hb & He & Hp & Hall & Hkeys).
  assert (Hfield : forall k v, field c k = v -> v <> JUndef ->
                               field (jsonify_props c) k = jsonify v).
  { intros k v E Hv. unfold field at 1.
    now rewrite (lookup_jsonify_props c (js k) v (field_lookup c k v E Hv) Hv). }
  rewrite jsonify_obj.
  exists (jsonify_props c), (jsonify_props pk).
  split; [reflexivity|]. split; [|split; [|split; [|split]]].
  - rewrite (Hfield _ _ eq_refl (price_is_defined _ Hb)). now rewrite jsonify_price.
  - rewrite (Hfield _ _ eq_refl (price_is_defined _ He)). now rewrite jsonify_price.
  - rewrite (Hfield _ _ Hp) by discriminate. apply jsonify_obj.
  - rewrite Forall_forall in *. intros [k v] Hin.
    destruct (In_jsonify_props _ _ Hin) as (v0 & Hin0 & E). cbn [fst snd] in *.
    destruct (Hall _ Hin0) as (Hk & Hprice). cbn [fst snd] in *.
    split; [exact Hk|]. rewrite E. now rewrite jsonify_price.
  - intros k Hk. specialize (Hkeys k Hk).
    destruct (lookup pk k) as [v|] eqn:E; [|now contradiction Hkeys].
    rewrite Forall_forall in Hall.
    destruct (Hall _ (lookup_In_key _ _ _ E)) as (_ & Hprice). cbn [snd] in Hprice.
    rewrite (lookup_jsonify_props pk k v E (price_is_defined _ Hprice)). discriminate.
Qed.

(** X14.  The pricing config stays as the data model describes it: a base
    price and an embroidery surcharge that are numbers not below zero, and
    a packaging table that prices basic, branded and box and holds nothing
    but packaging types with such prices.  The default config is of this
    kind, and when the config in the file is, every accepted update whose
    body is a JSON value with all its numbers within the range of a double
    answers 200 with a config of this kind and leaves one in the file.  (A
    numeral beyond that range, such as 1e400, is read as [Infinity], passes
    the validation and is written to the file as [null].) *)
Theorem accepted_update_keeps_the_config_sound
  (partial doc : list (jsstring * value)) (d : value) :
  sound_config (field doc "config") ->
  validateConfigData (JObj partial) = Normal None ->
  is_json (JObj partial) = true ->
  let out :=
    post_api_config_update (JObj partial)
      {| file := Content (Parses (JObj doc)); data := d |} in
  sound_config default_config
  /\ exists answered stored,
       snd out = {| status := 200; body := answered |}
       /\ sound_config answered
       /\ persisted_config (fst out) = Normal stored
       /\ sound_config stored.
Proof.
  intros Hsound Hv Hjson out. split; [exact default_config_sound|].
  pose proof Hsound as (c & pk & Hc & _).
  assert (Hlookup : lookup doc (js "config") = Some (JObj c)).
  { apply field_lookup; [exact Hc | discriminate]. }
  rewrite Hc in Hsound.
  pose proof (updated_config_sound c partial Hsound Hv Hjson) as Hnew.
  pose proof (post_api_config_update_accepts _ d doc c partial eq_refl Hlookup Hv)
    as Hrun.
  cbv zeta in Hrun. subst out. rewrite Hrun. cbn [fst snd].
  exists (JObj (updated_config c partial)),
         (jsonify (JObj (updated_config c partial))).
  split; [reflexivity|]. split; [exact Hnew|]. split.
  - unfold persisted_config.
    cbn [file fs_readFileSync cbind JSON_stringify JSON_parse].
    apply get_prop_jsonify; [apply lookup_assoc_set_same | discriminate].
  - now apply jsonify_sound_config.
Qed.

Section SoundPrices.

Variable h : host.

Lemma sound_config_price (cfg size embroidery : value) (p : jsstring) :
  sound_config cfg -> In p validPackageTypes ->
  exists price,
    calculatePrice h cfg size (JStr p) embroidery = Normal (JNum price)
    /\ whole_cents price
    /\ not_below_zero price.
Proof.
  intros (c & pk & -> & Hb & He & Hp & Hall & Hkeys) Hin.
  specialize (Hkeys p Hin).
  destruct (lookup pk p) as [sur|] eqn:Esur; [|now contradiction Hkeys].
  rewrite Forall_forall in Hall.
  destruct (Hall _ (lookup_In_key _ _ _ Esur)) as (_ & Hsur). cbn [snd] in Hsur.
  destruct (calculatePrice_not_below_zero h (JObj c) size (JStr p) embroidery (JObj pk)
              (field c "basePrice") sur (field c "embroidery"))
    as (price & Hprice & _ & Hcents & Hpos);
    try reflexivity; try (right; assumption).
  - cbn [get_prop]. fold (field c "packaging"). now rewrite Hp.
  - cbn [to_string get_prop]. now rewrite Esur.
  - now exists price.
Qed.

(** X15.  With a config in the file that is as the data model describes
    it, every valid order is created (201) with a price that is not below
    zero and not [NaN]: the double nearest to a whole number of cents, or
    [+Infinity] when the sum of the config's prices, or its product by 100,
    is beyond the range of a double. *)
Theorem valid_order_gets_a_price_not_below_zero
  (req : value) (id now1 now2 : jsstring) (d : value)
  (doc : list (jsstring * value)) (os : list value) :
  valid_order req ->
  sound_config (field doc "config") ->
  field doc "orders" = JArr os ->
  exists order price,
    snd (post_api_orders h req id now1 now2
           {| file := Content (Parses (JObj doc)); data := d |})
    = {| status := 201; body := order |}
    /\ member order "price" = JNum price
    /\ whole_cents price
    /\ not_below_zero price.
Proof.
  intros Hvalid Hsound Horders.
  assert (Htable : exists pk,
             get_prop (field doc "config") (js "packaging") = Normal (JObj pk)).
  { destruct Hsound as (c & pk & -> & _ & _ & Hp & _). exists pk.
    cbn [get_prop]. fold (field c "packaging"). now rewrite Hp. }
  destruct Htable as (pk & Htable).
  destruct (post_api_orders_creates h req id now1 now2 d doc (JObj pk) os
              Hvalid Htable eq_refl Horders)
    as (customer & size & packaging & price & _ & _ & Hpack & Hprice & Hpost).
  cbv zeta in Hpost. rewrite Hpost. cbn [snd].
  assert (Hin : In packaging validPackageTypes).
  { destruct Hvalid as (_ & _ & (pt & Hpt & Hin)). congruence. }
  destruct (sound_config_price (field doc "config") (JStr size)
              (member req "embroidery") packaging Hsound Hin)
    as (r & Hr & Hcents & Hpos).
  rewrite Hr in Hprice. injection Hprice as <-.
  eexists. exists r.
  split; [reflexivity|]. split; [reflexivity|]. now split.
Qed.

End SoundPrices.

(** *** The file is what the answers are read from *)

Lemma db_read_of_file (st : db) (v : value) :
  file st = Content (Parses v) -> truthy v = true ->
  db_read st = ({| file := file st; data := v |}, Normal tt).
Proof. intros Hf Hv. unfold db_read. rewrite Hf. cbn [JSON_parse]. now rewrite Hv. Qed.

Lemma try_catch_after_read (k : M response) (on_error : response) (st st' : db)
  (v : value) :
  file st = Content (Parses v) -> file st' = file st -> truthy v = true ->
  try_catch (bind db_read (fun _ => k)) on_error st
  = try_catch (bind db_read (fun _ => k)) on_error st'.
Proof.
  intros Hf Hf' Hv. unfold try_catch. rewrite !bind_run.
  rewrite (db_read_of_file st v Hf Hv).
  rewrite (db_read_of_file st' v (eq_trans Hf' Hf) Hv).
  now rewrite Hf'.
Qed.

Lemma db_read_missing (st : db) :
  file st = Missing -> db_read st = (st, Normal tt).
Proof. intros Hf. unfold db_read. now rewrite Hf. Qed.

Section SourceOfTruth.

Variable h : host.

(** X16.  When [db.json] holds a JSON value that is truthy, the handlers
    that read (list orders, get config, get settings, get stats) answer
    from the file alone: two stores with the same file give the same
    answer and end in the same state, whatever each had in memory. *)
Theorem reads_answer_from_the_file (st st' : db) (v : value) :
  file st = Content (Parses v) ->
  file st' = file st ->
  truthy v = true ->
  get_api_orders st = get_api_orders st'
  /\ get_api_config st = get_api_config st'
  /\ get_api_settings st = get_api_settings st'
  /\ get_api_stats h st = get_api_stats h st'.
Proof.
  intros Hf Hf' Hv.
  repeat split; now apply (try_catch_after_read _ _ st st' v).
Qed.

(** X17.  When [db.json] is missing while the server runs, [db.read()]
    leaves the data in memory as they are: GET /api/orders and GET
    /api/settings answer 200 from the document in memory and create no
    file, and a valid order is priced by [calculatePrice] with the config
    in memory, appended to the orders in memory and written with the whole
    document, which brings the file back. *)
Theorem missing_file_is_served_from_memory
  (req : value) (id now1 now2 : jsstring)
  (doc : list (jsstring * value)) (table : value) (os : list value) :
  let st := {| file := Missing; data := JObj doc |} in
  valid_order req ->
  get_prop (field doc "config") (js "packaging") = Normal table ->
  is_nullish table = false ->
  field doc "orders" = JArr os ->
  get_api_orders st = (st, {| status := 200; body := JArr os |})
  /\ get_api_settings st
     = (st, {| status := 200; body := js_or (field doc "settings") (JObj []) |})
  /\ exists customer size packaging price,
       get_prop req (js "customer") = Normal (JStr customer)
       /\ get_prop req (js "size") = Normal (JStr size)
       /\ get_prop req (js "packaging") = Normal (JStr packaging)
       /\ calculatePrice h (field doc "config") (JStr size) (JStr packaging)
            (member req "embroidery") = Normal (JNum price)
       /\ let order :=
            new_order id (trim customer) size packaging
              (truthy (member req "embroidery")) price now1 now2 in
          let doc' := assoc_set doc (js "orders") (JArr (os ++ [order])) in
          post_api_orders h req id now1 now2 st
          = ({| file := Content (JSON_stringify (JObj doc')); data := JObj doc' |},
             {| status := 201; body := order |}).
Proof.
  intros st Hvalid Htable Hnn Horders. subst st. split; [|split].
  - unfold get_api_orders, try_catch.
    rewrite bind_run, db_read_missing by reflexivity.
    unfold bind, get_data, lift, ret. cbn [data get_prop].
    fold (field doc "orders"). now rewrite Horders.
  - unfold get_api_settings, try_catch.
    rewrite bind_run, db_read_missing by reflexivity.
    unfold bind, get_data, lift, ret. cbn [data get_prop].
    reflexivity.
  - exact (post_api_orders_appends h req id now1 now2
             {| file := Missing; data := JObj doc |} Missing doc table os
             Hvalid eq_refl Htable Hnn Horders).
Qed.

End SourceOfTruth.

(** *** One request after another *)

Lemma jsonify_sound_table (pk : list (jsstring * value)) :
  Forall (fun kv => In (fst kv) validPackageTypes /\ price_at_least_zero (snd kv)) pk ->
  jsonify_props pk = pk.
Proof.
  induction 1 as [|[k v] rest (_ & q & Hv & _) _ IH]; [reflexivity|].
  cbn [snd] in Hv. subst v. rewrite jsonify_props_cons. now rewrite IH.
Qed.

(** X18.  What an accepted update of a sound config answers is what GET
    /api/config shows next: 200 with the base price, the packaging table
    and the embroidery surcharge of the config just answered, and nothing
    else. *)
Theorem updated_config_is_what_is_shown_next
  (partial doc : list (jsstring * value)) (d : value) :
  sound_config (field doc "config") ->
  validateConfigData (JObj partial) = Normal None ->
  is_json (JObj partial) = true ->
  let updated :=
    post_api_config_update (JObj partial)
      {| file := Content (Parses (JObj doc)); data := d |} in
  exists cfg,
    snd updated = {| status := 200; body := JObj cfg |}
    /\ snd (get_api_config (fst updated))
       = {| status := 200;
            body := JObj [(js "basePrice", field cfg "basePrice");
                          (js "packaging", field cfg "packaging");
                          (js "embroidery", field cfg "embroidery")] |}.
Proof.
  intros Hsound Hv Hjson updated.
  pose proof Hsound as (c & pk & Hc & _).
  assert (Hlookup : lookup doc (js "config") = Some (JObj c)).
  { apply field_lookup; [exact Hc | discriminate]. }
  rewrite Hc in Hsound.
  destruct (updated_config_sound c partial Hsound Hv Hjson)
    as (c' & pk' & [= <-] & Hb & He & Hp & Hall & Hkeys).
  pose proof (post_api_config_update_accepts _ d doc c partial eq_refl Hlookup Hv)
    as Hrun.
  cbv zeta in Hrun. subst updated. rewrite Hrun. cbn [fst snd].
  exists (updated_config c partial). split; [reflexivity|].
  set (cfg := updated_config c partial) in *.
  assert (Hfield : forall k v, field cfg k = v -> v <> JUndef ->
                               field (jsonify_props cfg) k = jsonify v).
  { intros k v E Hne. unfold field at 1.
    now rewrite (lookup_jsonify_props cfg (js k) v (field_lookup cfg k v E Hne) Hne). }
  unfold get_api_config, try_catch.
  rewrite bind_run. unfold db_read at 1.
  cbn [file JSON_stringify JSON_parse data]. rewrite jsonify_obj. cbn [truthy].
  rewrite bind_run. unfold get_data at 1. cbn [data].
  rewrite bind_run. unfold lift at 1. rewrite <- jsonify_obj.
  rewrite (get_prop_jsonify _ (js "config") (JObj cfg) (lookup_assoc_set_same _ _ _))
    by discriminate.
  rewrite jsonify_obj.
  unfold bind, lift, ret. cbn [get_prop].
  fold (field (jsonify_props cfg) "basePrice") (field (jsonify_props cfg) "packaging")
       (field (jsonify_props cfg) "embroidery").
  rewrite (Hfield _ _ eq_refl (price_is_defined _ Hb)), (jsonify_price _ Hb).
  rewrite (Hfield _ _ eq_refl (price_is_defined _ He)), (jsonify_price _ He).
  rewrite (Hfield _ _ Hp) by discriminate.
  rewrite (jsonify_obj pk'), (jsonify_sound_table pk' Hall), Hp.
  reflexivity.
Qed.

Lemma delete_api_orders_removes
  (id : jsstring) (d : value) (doc : list (jsstring * value))
  (before after : list value) (o : value) :
  id <> [] ->
  lookup doc (js "orders") = Some (JArr (before ++ o :: after)) ->
  Forall (fun o => is_nullish o = false) (before ++ o :: after) ->
  Forall (fun o => has_id id o = false) before ->
  has_id id o = true ->
  let doc' := JObj (assoc_set doc (js "orders") (JArr (before ++ after))) in
  delete_api_orders id {| file := Content (Parses (JObj doc)); data := d |}
  = ({| file := Content (JSON_stringify doc'); data := doc' |},
     {| status := 200; body := deleted_body o |}).
Proof.
  intros Hid Horders Hn Hbefore Ho doc'.
  unfold delete_api_orders, try_catch, bind, db_read, get_data, lift.
  destruct id as [|c s]; [contradiction|].
  cbn [truthy negb file JSON_parse data get_prop]. rewrite Horders.
  rewrite (findIndex_first_match (c :: s) before after o Hn Hbefore Ho).
  rewrite remove_at_middle, nth_middle.
  unfold update_field, bind, lift, get_data, set_data, db_write, ret.
  cbn [data file get_prop cbind set_prop truthy]. reflexivity.
Qed.

Section RoundTrip.

Variable h : host.

(** X19.  Creating an order and then deleting it by its ID gives the
    order list back: when no stored order has the new ID (the stored
    orders being JSON values, none [null]), the DELETE after the POST
    answers 200 with the order just created, and the order list in the
    file is the list from before the two requests. *)
Theorem deleting_the_created_order_restores_the_list
  (req : value) (id now1 now2 : jsstring) (d : value)
  (doc : list (jsstring * value)) (table : value) (os : list value) :
  valid_order req ->
  get_prop (field doc "config") (js "packaging") = Normal table ->
  is_nullish table = false ->
  field doc "orders" = JArr os ->
  id <> [] ->
  Forall (fun o => is_nullish o = false) os ->
  Forall (fun o => has_id id o = false) os ->
  Forall (fun o => jsonify o = o) os ->
  let created :=
    post_api_orders h req id now1 now2
      {| file := Content (Parses (JObj doc)); data := d |} in
  let deleted := delete_api_orders id (fst created) in
  exists order,
    snd created = {| status := 201; body := order |}
    /\ snd deleted = {| status := 200; body := deleted_body (jsonify order) |}
    /\ persisted_orders (fst deleted) = Normal (JArr os).
Proof.
  intros Hvalid Htable Hnn Horders Hid Hnonnull Hfresh Hjson.
  destruct (post_api_orders_creates h req id now1 now2 d doc table os
              Hvalid Htable Hnn Horders)
    as (customer & size & packaging & price & _ & _ & _ & _ & Hpost).
  cbv zeta in *. rewrite Hpost. cbn [fst snd].
  set (order := new_order id (trim customer) size packaging
                  (truthy (member req "embroidery")) price now1 now2) in *.
  exists order. split; [reflexivity|].
  assert (Hmap : map jsonify os = os).
  { clear -Hjson. induction Hjson as [|o os Ho _ IH]; [reflexivity|].
    cbn [map]. now rewrite Ho, IH. }
  set (doc1 := assoc_set doc (js "orders") (JArr (os ++ [order]))).
  assert (Hstored : lookup (jsonify_props doc1) (js "orders")
                    = Some (JArr (os ++ jsonify order :: []))).
  { rewrite (lookup_jsonify_props doc1 (js "orders") (JArr (os ++ [order]))
               (lookup_assoc_set_same _ _ _)) by discriminate.
    cbn [jsonify]. now rewrite map_app, Hmap. }
  assert (Hall : Forall (fun o => is_nullish o = false) (os ++ jsonify order :: [])).
  { apply Forall_app. split; [exact Hnonnull|]. now repeat constructor. }
  assert (Hid' : has_id id (jsonify order) = true).
  { unfold has_id. cbn. apply str_eqb_refl. }
  pose proof (delete_api_orders_removes id (JObj doc1) (jsonify_props doc1)
                os [] (jsonify order) Hid Hstored Hall Hfresh Hid') as Hdel.
  cbv zeta in Hdel. unfold JSON_stringify. rewrite jsonify_obj.
  rewrite Hdel. cbn [fst snd]. split; [reflexivity|].
  unfold persisted_orders.
  cbn [file fs_readFileSync cbind JSON_stringify JSON_parse].
  rewrite (get_prop_jsonify _ (js "orders") (JArr (os ++ []))
             (lookup_assoc_set_same _ _ _)) by discriminate.
  cbn [jsonify]. now rewrite app_nil_r, Hmap.
Qed.

End RoundTrip.

(** ** Examples *)



(** A config with a packaging mapping and nothing else prices an order
    at 0. *)
Lemma price_without_components :
  calculatePrice example_host (JObj [(js "packaging", JObj [])])
    (JStr (js "M")) (JStr (js "basic")) (JBool true)
  = Normal (qnum 0).
Proof.
  assert (Hin : In (js "basic") validPackageTypes) by (simpl; tauto).
  destruct (calculatePrice_total_when_packaging_present example_host
              (JObj [(js "packaging", JObj [])])
              (JStr (js "M")) (JBool true) (JObj []) (js "basic")
              Hin eq_refl eq_refl)
    as (n & Hn & Hval).
  rewrite Hn.
  rewrite (Hval JUndef JUndef JUndef eq_refl eq_refl eq_refl eq_refl eq_refl eq_refl).
  vm_compute. reflexivity.
Defined.

(** C9, as stated, fails on a config without a packaging mapping: reading
    the surcharge raises a TypeError. *)
Lemma price_without_packaging_raises :
  calculatePrice example_host
    (JObj [(js "basePrice", qnum 45); (js "embroidery", qnum 20)])
    (JStr (js "M")) (JStr (js "basic")) (JBool false)
  = Throw TypeError.
Proof. vm_compute. reflexivity. Qed.

(** An order without a customer name is refused and the store stays as it
    was. *)
Lemma bad_order_is_rejected :
  exists msg,
    post_api_orders example_host (JObj bad_order) (js "id-1")
      (js "2024-05-03T08:00:00.000Z") (js "2024-05-03T08:00:00.001Z")
      (store_with [order_a])
    = (store_with [order_a], {| status := 400; body := error_body msg |}).
Proof.
  destruct (invalid_order_is_rejected example_host bad_order (js "id-1")
              (js "2024-05-03T08:00:00.000Z") (js "2024-05-03T08:00:00.001Z")
              (store_with [order_a]))
    as (msg & _ & H).
  - left. right. exists []. split; reflexivity.
  - exists msg. exact H.
Defined.

(** A config update with a negative base price is refused and changes
    nothing. *)
Lemma negative_base_price_is_rejected :
  exists msg,
    post_api_config_update (JObj base_price_below_zero) fresh_store
    = (fresh_store, {| status := 400; body := error_body msg |}).
Proof.
  destruct (invalid_config_is_rejected base_price_below_zero fresh_store) as (_ & H).
  apply H. left. split; [discriminate|].
  right. right. exists (-1). split; reflexivity.
Defined.

(** A file that is not JSON is replaced by the default document. *)
Lemma corrupted_file_is_reset :
  initDB (Content Unparsable) = (fresh_store, Normal tt).
Proof. exact (proj2 (initDB_resets_to_default (Content Unparsable) I)). Defined.

(** C8, as stated, fails on a file that is there and cannot be read.  When
    the process cannot write to it either, the write of [initializeDbFile]
    raises; when it can, the write succeeds, the file stays unreadable and
    the read of [initDB] raises.  It fails as well on [padded_object_file],
    which lowdb cannot parse as a JSON object: [initializeDbFile] trims the
    text before parsing and leaves the file as it is, and the read of
    [initDB] raises. *)
Lemma unreadable_file_stops_the_start_up :
  initializeDbFile (Unreadable false) = Throw IOError
  /\ snd (initDB (Unreadable false)) = Throw IOError
  /\ initializeDbFile (Unreadable true) = Normal (Unreadable true)
  /\ initDB (Unreadable true)
     = ({| file := Unreadable true; data := defaultData |}, Throw IOError)
  /\ JSON_parse (Padded (JObj [])) = Throw SyntaxError
  /\ initializeDbFile padded_object_file = Normal padded_object_file
  /\ snd (initDB padded_object_file) = Throw SyntaxError.
Proof. repeat split; reflexivity. Qed.

(** An order entered without [embroidery] is created and stored with
    [embroidery: false]. *)
Lemma embroidery_defaults_to_false :
  let r := post_api_orders example_host plain_order (js "id-2")
             (js "2024-05-03T08:00:00.000Z") (js "2024-05-03T08:00:00.001Z")
             (store_with [order_a]) in
  status (snd r) = 201%nat
  /\ get_prop (body (snd r)) (js "embroidery") = Normal (JBool false)
  /\ exists previous,
       persisted_orders (fst r) = Normal (JArr (previous ++ [jsonify (body (snd r))])).
Proof.
  intros r.
  destruct (created_order_embroidery_is_boolean example_host plain_order
              (body (snd r)) (js "id-2")
              (js "2024-05-03T08:00:00.000Z") (js "2024-05-03T08:00:00.001Z")
              (store_with [order_a]) (fst r))
    as (e & He & _ & Hnone & previous & Hp & _).
  - vm_compute. reflexivity.
  - split; [reflexivity|]. split.
    + apply Hnone. vm_compute in He. now injection He.
    + exists previous. exact Hp.
Defined.

(** Deleting the order "b" from the orders a, b, c. *)
Lemma deleting_order_b :
  let r := delete_api_orders (js "b") (store_with [order_a; order_b; order_c]) in
  snd r = {| status := 200; body := deleted_body order_b |}
  /\ persisted_orders (fst r) = Normal (JArr [order_a; order_c]).
Proof.
  intros r.
  destruct (delete_removes_the_first_match (js "b")
              (store_with [order_a; order_b; order_c])
              (document_with [order_a; order_b; order_c])
              [order_a; order_b; order_c])
    as (_ & Hsome & _); try reflexivity.
  - discriminate.
  - repeat constructor.
  - destruct (Hsome [order_a] order_b [order_c]) as (Hd & Hp & _);
      try reflexivity.
    + repeat constructor.
    + unfold r. rewrite Hd. split; [reflexivity | exact Hp].
Defined.

(** The update [packaging = { basic: 10 }] of the default config sets
    basic to 10 and leaves branded at 5 and box at 7. *)
Lemma update_of_basic_keeps_the_rest :
  exists cfg' merged,
    snd (post_api_config_update (JObj basic_to_10) fresh_store)
    = {| status := 200; body := JObj cfg' |}
    /\ field cfg' "packaging" = JObj merged
    /\ lookup merged (js "basic") = Some (qnum 10)
    /\ lookup merged (js "branded") = Some (qnum 5)
    /\ lookup merged (js "box") = Some (qnum 7)
    /\ field cfg' "basePrice" = qnum 45
    /\ field cfg' "embroidery" = qnum 20.
Proof.
  destruct (config_update_merges fresh_store
              [(js "orders", JArr []); (js "config", default_config);
               (js "settings", JObj [])]
              [(js "basePrice", qnum 45); (js "packaging", default_packaging);
               (js "embroidery", qnum 20)]
              basic_to_10)
    as (cfg' & Hpost & Hb & He & _ & Hmerge & _); try reflexivity.
  - cbn. repeat constructor; cbn; intuition discriminate.
  - cbn. repeat constructor; cbn; intuition discriminate.
  - destruct (Hmerge eq_refl) as (merged & Hf & Hl).
    exists cfg', merged. rewrite Hpost. cbn [snd].
    repeat split; try assumption; rewrite Hl; reflexivity.
Defined.

(** After that update the visible config still has a surcharge for box. *)
Lemma box_is_still_priced_after_update :
  exists p',
    visible_packaging (fst (post_api_config_update (JObj basic_to_10) fresh_store))
    = Normal p'
    /\ has_key p' (js "box").
Proof.
  destruct packaging_after_init_and_update as (_ & _ & _ & _ & _ & H).
  apply (H fresh_store
           [(js "orders", JArr []); (js "config", default_config);
            (js "settings", JObj [])]
           [(js "basePrice", qnum 45); (js "packaging", default_packaging);
            (js "embroidery", qnum 20)]
           [(js "basic", qnum 3); (js "branded", qnum 5); (js "box", qnum 7)]
           basic_to_10 (js "box")); try reflexivity.
  - cbn. repeat constructor; cbn; intuition discriminate.
  - cbn. repeat constructor; cbn; intuition discriminate.
  - eexists. split; [reflexivity | discriminate].
Defined.

(** C6, as stated, fails on [partial_packaging_file]: [initDB] completes,
    and the config that readers see has no surcharge for branded and none
    for box. *)
Lemma partial_packaging_stays_partial :
  snd (initDB partial_packaging_file) = Normal tt
  /\ visible_packaging (fst (initDB partial_packaging_file))
     = Normal (JObj [(js "basic", qnum 1)])
  /\ get_prop (JObj [(js "basic", qnum 1)]) (js "branded") = Normal JUndef
  /\ get_prop (JObj [(js "basic", qnum 1)]) (js "box") = Normal JUndef.
Proof. vm_compute. repeat split; reflexivity. Qed.

(** The stats over the orders a, b, c. *)
Lemma stats_of_three_orders :
  exists sorted,
    get_api_stats example_host (store_with [order_a; order_b; order_c])
    = ({| file := file (store_with [order_a; order_b; order_c]);
          data := JObj (assoc_set (document_with [order_a; order_b; order_c])
                          (js "orders") (JArr sorted)) |},
       {| status := 200;
          body := stats_body [order_a; order_b; order_c] (Num 170) sorted |})
    /\ List.length (firstn 5 sorted) = 3%nat
    /\ StronglySorted (not_older example_host) sorted.
Proof.
  destruct (stats_of_the_orders example_host
              (store_with [order_a; order_b; order_c])
              (document_with [order_a; order_b; order_c])
              [order_a; order_b; order_c])
    as (sorted & Hs & _ & Hl & _ & Hsorted & _ & _); try reflexivity.
  - repeat constructor; eexists; vm_compute; reflexivity.
  - repeat constructor.
  - exists sorted. split; [|split; assumption].
    assert (E : added_up (Num 0) [order_a; order_b; order_c] = Num 170)
      by (vm_compute; reflexivity).
    now rewrite E in Hs.
Defined.

(** C7, as stated, fails on the orders a, b, c: a and c were created at
    the same instant and a was entered first; in recentOrders a still comes
    before c (the sort is stable), where the reversed insertion order would
    put c before a.  It fails as well on the orders d and e, priced 0.1 and
    0.2: the revenue is the double 0.30000000000000004, which is neither
    the sum of the two prices nor the double nearest to 0.3. *)
Lemma ties_keep_insertion_order :
  (created example_host order_a = created example_host order_c
   /\ get_prop (body (snd (get_api_stats example_host
                             (store_with [order_a; order_b; order_c]))))
        (js "recentOrders")
      = Normal (JArr [order_b; order_a; order_c])
   /\ JArr [order_b; order_a; order_c] <> JArr [order_b; order_c; order_a])
  /\ (round64 (1 # 10) = Num a_tenth
      /\ round64 (2 # 10) = Num two_tenths
      /\ exists revenue,
           get_prop (body (snd (get_api_stats example_host (store_with [order_d; order_e]))))
             (js "totalRevenue")
           = Normal (JNum (Num revenue))
           /\ ~ revenue == sum_of_prices [order_d; order_e]
           /\ ~ revenue == a_tenth + two_tenths
           /\ Num revenue <> round64 (3 # 10)).
Proof.
  split.
  - split; [reflexivity|]. split; [vm_compute; reflexivity | discriminate].
  - split; [vm_compute; reflexivity|]. split; [vm_compute; reflexivity|].
    eexists. split; [vm_compute; reflexivity|].
    split; [vm_compute; discriminate|]. split; [vm_compute; discriminate|].
    vm_compute. discriminate.
Qed.

(** *** Examples of the further properties *)

Ltac plain_order_is_valid :=
  split; [|split];
  (eexists; split; [reflexivity|]);
  [vm_compute; discriminate | cbn; tauto | cbn; tauto].

Ltac default_config_is_sound :=
  eexists _, _; split; [reflexivity|];
  split; [exists 45; split; [reflexivity | discriminate]|];
  split; [exists 20; split; [reflexivity | discriminate]|];
  split; [reflexivity|]; split;
  [ repeat constructor; cbn; try tauto;
    eexists; (split; [reflexivity | discriminate])
  | intros k [<-|[<-|[<-|[]]]]; discriminate ].

(** The order of Dee is created after the order a. *)
Lemma order_of_dee_is_created :
  exists order,
    post_api_orders example_host plain_order (js "id-2") clock_1 clock_2
      (store_with [order_a])
    = (let doc' := document_with [order_a; order] in
       {| file := Content (JSON_stringify (JObj doc')); data := JObj doc' |},
       {| status := 201; body := order |})
    /\ member order "customer" = JStr (js "Dee").
Proof.
  destruct (valid_order_is_created example_host plain_order (js "id-2")
              clock_1 clock_2 (JObj (document_with [order_a]))
              (document_with [order_a]) default_packaging [order_a])
    as (customer & size & packaging & price & Hc & _ & _ & _ & Hpost);
    try reflexivity.
  - plain_order_is_valid.
  - eexists. split; [exact Hpost|].
    injection Hc as <-. reflexivity.
Defined.

(** The order answered for Dee has the size M and basic packaging. *)
Lemma order_of_dee_is_well_formed :
  exists customer size packaging price,
    In size sizes
    /\ In packaging validPackageTypes
    /\ body (snd (post_api_orders example_host plain_order (js "id-2")
                    clock_1 clock_2 (store_with [order_a])))
       = new_order (js "id-2") (trim customer) size packaging false price
           clock_1 clock_2.
Proof.
  destruct (created_order_is_well_formed example_host plain_order
              (body (snd (post_api_orders example_host plain_order (js "id-2")
                            clock_1 clock_2 (store_with [order_a]))))
              (js "id-2") clock_1 clock_2 (store_with [order_a])
              (fst (post_api_orders example_host plain_order (js "id-2")
                      clock_1 clock_2 (store_with [order_a]))))
    as (_ & customer & size & packaging & price & _ & _ & Hs & Hp & Ho).
  - vm_compute. reflexivity.
  - exists customer, size, packaging, price. repeat split; assumption.
Defined.

(** Under the default config the price of a plain order in basic
    packaging is 48. *)
Lemma plain_price_is_48 :
  exists price,
    calculatePrice example_host default_config (JStr (js "M")) (JStr (js "basic"))
      (JBool false)
    = Normal (JNum price)
    /\ price = Num 48
    /\ whole_cents price
    /\ not_below_zero price.
Proof.
  assert (Hin : In (js "basic") validPackageTypes) by (simpl; tauto).
  assert (H45 : missing_or_priced (qnum 45))
    by (right; exists 45; split; [reflexivity | discriminate]).
  assert (H3 : missing_or_priced (qnum 3))
    by (right; exists 3; split; [reflexivity | discriminate]).
  assert (H20 : missing_or_priced (qnum 20))
    by (right; exists 20; split; [reflexivity | discriminate]).
  destruct (price_is_whole_cents_not_below_zero example_host default_config
              (JStr (js "M")) (JBool false) default_packaging
              (qnum 45) (qnum 3) (qnum 20) (js "basic")
              Hin eq_refl eq_refl eq_refl eq_refl H45 H3 H20)
    as (price & Hr & Hsum & Hc & Hpos).
  exists price. split; [exact Hr|].
  split; [rewrite Hsum; vm_compute; reflexivity|]. split; assumption.
Defined.

(** Under the default config embroidery raises the price of an order in a
    box from 52 to 72. *)
Lemma embroidery_on_a_boxed_order :
  exists plain embroidered,
    calculatePrice example_host default_config (JStr (js "L")) (JStr (js "box"))
      (JBool false)
    = Normal (JNum plain)
    /\ calculatePrice example_host default_config (JStr (js "L")) (JStr (js "box"))
         (JBool true)
       = Normal (JNum embroidered)
    /\ num_le plain embroidered
    /\ plain = Num 52
    /\ embroidered = Num 72.
Proof.
  assert (Hin : In (js "box") validPackageTypes) by (simpl; tauto).
  assert (H45 : missing_or_priced (qnum 45))
    by (right; exists 45; split; [reflexivity | discriminate]).
  assert (H7 : missing_or_priced (qnum 7))
    by (right; exists 7; split; [reflexivity | discriminate]).
  assert (H20 : missing_or_priced (qnum 20))
    by (right; exists 20; split; [reflexivity | discriminate]).
  destruct (embroidery_never_lowers_the_price example_host default_config
              (JStr (js "L")) (JBool true) default_packaging
              (qnum 45) (qnum 7) (qnum 20) (js "box")
              Hin eq_refl eq_refl eq_refl eq_refl H45 H7 H20 eq_refl)
    as (plain & embroidered & Hp & He & Hle).
  exists plain, embroidered.
  split; [exact Hp|]. split; [exact He|]. split; [exact Hle|].
  split.
  - assert (E : calculatePrice example_host default_config (JStr (js "L"))
                  (JStr (js "box")) (JBool false) = Normal (JNum (Num 52)))
      by (vm_compute; reflexivity).
    congruence.
  - assert (E : calculatePrice example_host default_config (JStr (js "L"))
                  (JStr (js "box")) (JBool true) = Normal (JNum (Num 72)))
      by (vm_compute; reflexivity).
    congruence.
Defined.

(** A base price of 1e400 in the body of a config update is read as
    [Infinity]: the update is accepted, and the file then holds [null] for
    the base price. *)
Lemma infinite_base_price_is_stored_as_null :
  status (snd (post_api_config_update (JObj [(js "basePrice", JNum (Inf false))])
                 fresh_store)) = 200%nat
  /\ (c <- persisted_config
             (fst (post_api_config_update (JObj [(js "basePrice", JNum (Inf false))])
                     fresh_store)) ;;
      get_prop c (js "basePrice"))%completion
     = Normal JNull.
Proof. split; vm_compute; reflexivity. Qed.

(** The four requests on the fresh store. *)
Lemma fresh_store_is_written_on_success_only :
  settled 201 fresh_store
    (post_api_orders example_host plain_order (js "id-2") clock_1 clock_2 fresh_store)
  /\ settled 200 fresh_store (delete_api_orders (js "id-2") fresh_store)
  /\ settled 200 fresh_store (post_api_config_update plain_order fresh_store)
  /\ settled 200 fresh_store (put_api_settings example_message plain_order fresh_store).
Proof.
  exact (file_is_written_on_success_only example_host example_message plain_order
           (js "id-2") clock_1 clock_2 fresh_store eq_refl).
Defined.

(** The theme is merged into the empty settings. *)
Lemma theme_is_merged_into_the_settings :
  exists merged,
    snd (put_api_settings example_message dark_theme (store_with []))
    = {| status := 200; body := settings_body (JObj merged) |}
    /\ lookup merged (js "theme") = Some (JStr (js "dark")).
Proof.
  destruct (settings_update_merges_the_body example_message
              (put_api_settings example_message) dark_theme
              (JObj (document_with [])) (document_with []))
    as (_ & Haccepted).
  - left. reflexivity.
  - constructor.
  - repeat constructor. cbn. tauto.
  - destruct (Haccepted eq_refl) as (merged & Hrun & Hl & _).
    exists merged. split.
    + unfold store_with. now rewrite Hrun.
    + rewrite Hl. reflexivity.
Defined.

(** The order of Dee is listed after the order a. *)
Lemma order_of_dee_is_listed_last :
  exists order,
    snd (post_api_orders example_host plain_order (js "id-2") clock_1 clock_2
           (store_with [order_a]))
    = {| status := 201; body := order |}
    /\ snd (get_api_orders
              (fst (post_api_orders example_host plain_order (js "id-2")
                      clock_1 clock_2 (store_with [order_a]))))
       = {| status := 200; body := JArr (map jsonify [order_a] ++ [jsonify order]) |}.
Proof.
  apply (created_order_is_listed_last example_host plain_order (js "id-2")
           clock_1 clock_2 (JObj (document_with [order_a]))
           (document_with [order_a]) default_packaging [order_a]);
    try reflexivity.
  plain_order_is_valid.
Defined.

(** With a file that is not JSON the order list is answered 500. *)
Lemma broken_store_fails_the_reads :
  get_api_orders broken_store = (broken_store, failure "Failed to fetch orders")
  /\ get_api_config broken_store
     = (broken_store, failure "Failed to fetch configuration")
  /\ get_api_settings broken_store
     = (broken_store, failure "Failed to fetch settings")
  /\ get_api_stats example_host broken_store
     = (broken_store, failure "Failed to fetch statistics").
Proof.
  apply (unusable_file_fails_the_reads example_host broken_store).
  right. right. left. reflexivity.
Defined.

(** With such a file the order of Dee is answered 500. *)
Lemma broken_store_fails_the_order_of_dee :
  post_api_orders example_host plain_order (js "id-2") clock_1 clock_2 broken_store
  = (broken_store, failure "Failed to create order").
Proof.
  destruct (unusable_file_fails_the_writes example_host example_message plain_order
              (js "id-2") clock_1 clock_2 broken_store) as (Hcreate & _).
  - right. right. left. reflexivity.
  - apply Hcreate. plain_order_is_valid.
Defined.

(** The breakdowns of the orders a, b, c add up to 3. *)
Lemma breakdowns_of_three_orders :
  exists stats sorted m l xl xxl basic branded box,
    compute_stats example_host [order_a; order_b; order_c] = Normal (stats, sorted)
    /\ member stats "totalOrders" = count_of 3
    /\ member stats "sizeBreakdown"
       = JObj [(js "M", count_of m); (js "L", count_of l);
               (js "XL", count_of xl); (js "2XL", count_of xxl)]
    /\ member stats "packagingBreakdown"
       = JObj [(js "basic", count_of basic); (js "branded", count_of branded);
               (js "box", count_of box)]
    /\ (m + l + xl + xxl = 3)%nat
    /\ (basic + branded + box = 3)%nat.
Proof.
  apply (breakdowns_add_up_to_the_total example_host [order_a; order_b; order_c]).
  - repeat constructor; eexists; vm_compute; reflexivity.
  - repeat constructor; eexists; reflexivity.
  - repeat constructor; eexists; (split; [reflexivity | cbn; tauto]).
  - repeat constructor; eexists; (split; [reflexivity | cbn; tauto]).
Defined.

(** The update of basic to 10 leaves a sound config. *)
Lemma update_of_basic_leaves_a_sound_config :
  exists answered stored,
    snd (post_api_config_update (JObj basic_to_10) (store_with []))
    = {| status := 200; body := answered |}
    /\ sound_config answered
    /\ persisted_config (fst (post_api_config_update (JObj basic_to_10) (store_with [])))
       = Normal stored
    /\ sound_config stored.
Proof.
  apply (accepted_update_keeps_the_config_sound basic_to_10 (document_with [])
           (JObj (document_with []))); try reflexivity.
  default_config_is_sound.
Defined.

(** The order of Dee is priced at a whole number of cents, not below
    zero. *)
Lemma order_of_dee_has_a_price :
  exists order price,
    snd (post_api_orders example_host plain_order (js "id-2") clock_1 clock_2
           (store_with [order_a]))
    = {| status := 201; body := order |}
    /\ member order "price" = JNum price
    /\ whole_cents price
    /\ not_below_zero price.
Proof.
  apply (valid_order_gets_a_price_not_below_zero example_host plain_order
           (js "id-2") clock_1 clock_2 (JObj (document_with [order_a]))
           (document_with [order_a]) [order_a]); try reflexivity.
  - plain_order_is_valid.
  - default_config_is_sound.
Defined.

(** The answers do not depend on what is in memory. *)
Lemma stale_memory_is_not_answered :
  get_api_orders (store_with [order_a])
  = get_api_orders {| file := file (store_with [order_a]); data := JObj [] |}
  /\ get_api_config (store_with [order_a])
     = get_api_config {| file := file (store_with [order_a]); data := JObj [] |}
  /\ get_api_settings (store_with [order_a])
     = get_api_settings {| file := file (store_with [order_a]); data := JObj [] |}
  /\ get_api_stats example_host (store_with [order_a])
     = get_api_stats example_host
         {| file := file (store_with [order_a]); data := JObj [] |}.
Proof.
  apply (reads_answer_from_the_file example_host (store_with [order_a])
           {| file := file (store_with [order_a]); data := JObj [] |}
           (JObj (document_with [order_a]))); reflexivity.
Defined.

(** Without a file the order a is listed from memory, and the order of Dee
    brings the file back. *)
Lemma order_a_without_a_file :
  get_api_orders {| file := Missing; data := JObj (document_with [order_a]) |}
  = ({| file := Missing; data := JObj (document_with [order_a]) |},
     {| status := 200; body := JArr [order_a] |})
  /\ exists order,
       fst (post_api_orders example_host plain_order (js "id-2") clock_1 clock_2
              {| file := Missing; data := JObj (document_with [order_a]) |})
       = {| file := Content (JSON_stringify (JObj (document_with [order_a; order])));
            data := JObj (document_with [order_a; order]) |}.
Proof.
  destruct (missing_file_is_served_from_memory example_host plain_order (js "id-2")
              clock_1 clock_2 (document_with [order_a]) default_packaging [order_a])
    as (Hlist & _ & customer & size & packaging & price & _ & _ & _ & _ & Hpost);
    try reflexivity.
  - plain_order_is_valid.
  - split; [exact Hlist|]. eexists. cbv zeta in Hpost. rewrite Hpost. reflexivity.
Defined.

(** After the update of basic to 10, GET /api/config shows it. *)
Lemma update_of_basic_is_shown_next :
  exists cfg,
    snd (post_api_config_update (JObj basic_to_10) (store_with []))
    = {| status := 200; body := JObj cfg |}
    /\ snd (get_api_config
              (fst (post_api_config_update (JObj basic_to_10) (store_with []))))
       = {| status := 200;
            body := JObj [(js "basePrice", field cfg "basePrice");
                          (js "packaging", field cfg "packaging");
                          (js "embroidery", field cfg "embroidery")] |}.
Proof.
  apply (updated_config_is_what_is_shown_next basic_to_10 (document_with [])
           (JObj (document_with []))); try reflexivity.
  default_config_is_sound.
Defined.

(** Creating the order of Dee and deleting it leaves the order a. *)
Lemma order_of_dee_created_and_deleted :
  exists order,
    snd (post_api_orders example_host plain_order (js "id-2") clock_1 clock_2
           (store_with [order_a]))
    = {| status := 201; body := order |}
    /\ snd (delete_api_orders (js "id-2")
              (fst (post_api_orders example_host plain_order (js "id-2")
                      clock_1 clock_2 (store_with [order_a]))))
       = {| status := 200; body := deleted_body (jsonify order) |}
    /\ persisted_orders
         (fst (delete_api_orders (js "id-2")
                 (fst (post_api_orders example_host plain_order (js "id-2")
                         clock_1 clock_2 (store_with [order_a])))))
       = Normal (JArr [order_a]).
Proof.
  apply (deleting_the_created_order_restores_the_list example_host plain_order
           (js "id-2") clock_1 clock_2 (JObj (document_with [order_a]))
           (document_with [order_a]) default_packaging [order_a]);
    try reflexivity.
  - plain_order_is_valid.
  - discriminate.
  - repeat constructor.
  - repeat constructor.
  - repeat constructor.
Defined.
